(** * GLS payment backend: proposal workflow, settlement and ageing

    A shallow embedding of the route handlers of the Express/PostgreSQL
    backend (proposal.routes.js, inward.routes.js, payment.routes.js,
    outward.routes.js, customer.routes.js) and the properties of the
    specification that concern them.

    Conventions of the embedding
    - a table is the list of its rows, in insertion order; [UPDATE .. WHERE]
      is a [map], [SELECT .. WHERE] a [filter], [DELETE .. WHERE] a
      [filter] on the complement, [INSERT] appends;
    - UUID primary keys are natural numbers, handed out by a counter that
      stands for the database's key generator;
    - NUMERIC money columns are integers in the smallest currency unit;
    - a DATE is its day number, counted from 1970-01-01; the server clock is
      taken to be UTC, so that [new Date(d); setDate(getDate() + n);
      toISOString()] is the addition of [n] days, as long as the result is
      a time a JavaScript [Date] can hold;
    - a string of a request is the sequence of its UTF-16 code units, taken
      to lie below 256;
    - enumerated text columns are inductive types, named after the literals
      of the SQL statements. *)

From Stdlib Require Import ZArith List Ascii String Bool Lia PeanoNat.
Import ListNotations.
Local Open Scope string_scope.
Local Open Scope list_scope.
Local Open Scope Z_scope.

(** ** Enumerations *)

Definition uuid := nat.
Bind Scope nat_scope with uuid.

Inductive role := Godown | Purchase | Accounts | Owner.

Inductive bill_status := Active | Cancelled.
Inductive bill_payment_status := BillOpen | BillPartial | BillPaid.

Inductive proposal_status :=
  Draft | Submitted | UnderReview | Approved | PartialApproved | Rejected | Completed.

Inductive item_status :=
  Proposed | AccountsApproved | AccountsHeld
| OwnerApproved | OwnerDeferred | OwnerRejected | CarryForward | Paid.

Inductive accounts_status := AccPending | AccApproved | AccHeld.
Inductive owner_status := OwnPending | OwnApproved | OwnDeferred | OwnRejected.

Inductive payment_status := PayPending | Processed | Confirmed.
Inductive detail_status := DetPending | DetConfirmed.

Definition role_eqb (a b : role) : bool :=
  match a, b with
  | Godown, Godown | Purchase, Purchase | Accounts, Accounts | Owner, Owner => true
  | _, _ => false
  end.

Definition is_draft (s : proposal_status) : bool :=
  match s with Draft => true | _ => false end.

Definition is_completed (s : proposal_status) : bool :=
  match s with Completed => true | _ => false end.

(** [status IN ('approved', 'partial_approved')] *)
Definition is_approved_or_partial (s : proposal_status) : bool :=
  match s with Approved | PartialApproved => true | _ => false end.

(** [p.status NOT IN ('rejected', 'completed')] *)
Definition proposal_not_terminal (s : proposal_status) : bool :=
  match s with Rejected | Completed => false | _ => true end.

(** [pi.status NOT IN ('owner_rejected', 'paid')] *)
Definition item_not_released (s : item_status) : bool :=
  match s with OwnerRejected | Paid => false | _ => true end.

Definition is_carry_forward (s : item_status) : bool :=
  match s with CarryForward => true | _ => false end.

Definition is_own_approved (s : owner_status) : bool :=
  match s with OwnApproved => true | _ => false end.

Definition is_own_deferred (s : owner_status) : bool :=
  match s with OwnDeferred => true | _ => false end.

Definition is_active (s : bill_status) : bool :=
  match s with Active => true | Cancelled => false end.

Definition is_bill_paid (s : bill_payment_status) : bool :=
  match s with BillPaid => true | _ => false end.

(** ** Rows *)

Record user := { user_id : uuid; user_role : role }.

Record inward_bill := {
  ib_id : uuid;
  ib_vendor_id : uuid;
  ib_bill_number : string;
  ib_invoice_date : Z;
  ib_receiving_date : Z;
  ib_amount : Z;
  ib_paid_amount : Z;
  ib_credit_days : Z;
  ib_due_date : Z;
  ib_checked_by : string;
  ib_remarks : option string;
  ib_bill_scan_url : option string;
  ib_status : bill_status;
  ib_payment_status : bill_payment_status;
  ib_version : Z;
  ib_created_by : uuid;
  ib_cancelled_by : option uuid;
  ib_cancel_reason : option string
}.

Record proposal := {
  p_id : uuid;
  p_number : nat;
  p_payment_date : Z;
  p_total_amount : Z;
  p_remarks : option string;
  p_status : proposal_status;
  p_created_by : uuid
}.

Record proposal_item := {
  pi_id : uuid;
  pi_proposal_id : uuid;
  pi_bill_id : uuid;
  pi_proposed_amount : Z;
  pi_urgency_remarks : option string;
  pi_accounts_status : accounts_status;
  pi_accounts_amount : option Z;
  pi_accounts_reason : option string;
  pi_accounts_by : option uuid;
  pi_owner_status : owner_status;
  pi_owner_amount : option Z;
  pi_owner_reason : option string;
  pi_owner_by : option uuid;
  pi_status : item_status
}.

Record payment := {
  pay_id : uuid;
  pay_number : nat;
  pay_proposal_id : uuid;
  pay_total_amount : Z;
  pay_bank_account_id : uuid;
  pay_status : payment_status;
  pay_created_by : uuid
}.

Record payment_detail := {
  pd_id : uuid;
  pd_payment_id : uuid;
  pd_bill_id : uuid;
  pd_proposal_item_id : option uuid;
  pd_amount : Z;
  pd_utr_number : option string;
  pd_status : detail_status
}.

(** The database: the tables the workflow reads and writes. [vendors]
    keeps the primary keys of the vendor rows, which is all the joins of
    the workflow use, and [inactive_vendors] the keys of those with
    [is_active = false]. *)
Record db := {
  vendors : list uuid;
  inactive_vendors : list uuid;
  inward_bills : list inward_bill;
  proposals : list proposal;
  proposal_items : list proposal_item;
  payments : list payment;
  payment_details : list payment_detail;
  next_id : uuid
}.

(** Column assignments ([SET col = v]). *)

Definition with_inward_bills (st : db) (t : list inward_bill) : db :=
  {| vendors := vendors st; inactive_vendors := inactive_vendors st;
     inward_bills := t; proposals := proposals st;
     proposal_items := proposal_items st; payments := payments st;
     payment_details := payment_details st; next_id := next_id st |}.

Definition with_proposals (st : db) (t : list proposal) : db :=
  {| vendors := vendors st; inactive_vendors := inactive_vendors st;
     inward_bills := inward_bills st; proposals := t;
     proposal_items := proposal_items st; payments := payments st;
     payment_details := payment_details st; next_id := next_id st |}.

Definition with_proposal_items (st : db) (t : list proposal_item) : db :=
  {| vendors := vendors st; inactive_vendors := inactive_vendors st;
     inward_bills := inward_bills st;
     proposals := proposals st; proposal_items := t; payments := payments st;
     payment_details := payment_details st; next_id := next_id st |}.

Definition with_payments (st : db) (t : list payment) : db :=
  {| vendors := vendors st; inactive_vendors := inactive_vendors st;
     inward_bills := inward_bills st;
     proposals := proposals st; proposal_items := proposal_items st;
     payments := t; payment_details := payment_details st;
     next_id := next_id st |}.

Definition with_payment_details (st : db) (t : list payment_detail) : db :=
  {| vendors := vendors st; inactive_vendors := inactive_vendors st;
     inward_bills := inward_bills st;
     proposals := proposals st; proposal_items := proposal_items st;
     payments := payments st; payment_details := t; next_id := next_id st |}.

(** A fresh primary key (the column default of every [id]). *)
Definition fresh (st : db) : uuid * db :=
  (next_id st,
   {| vendors := vendors st; inactive_vendors := inactive_vendors st;
      inward_bills := inward_bills st;
      proposals := proposals st; proposal_items := proposal_items st;
      payments := payments st; payment_details := payment_details st;
      next_id := S (next_id st) |}).

Definition set_p_status (s : proposal_status) (p : proposal) : proposal :=
  {| p_id := p_id p; p_number := p_number p; p_payment_date := p_payment_date p;
     p_total_amount := p_total_amount p; p_remarks := p_remarks p;
     p_status := s; p_created_by := p_created_by p |}.

Definition set_pi_status (s : item_status) (i : proposal_item) : proposal_item :=
  {| pi_id := pi_id i; pi_proposal_id := pi_proposal_id i; pi_bill_id := pi_bill_id i;
     pi_proposed_amount := pi_proposed_amount i;
     pi_urgency_remarks := pi_urgency_remarks i;
     pi_accounts_status := pi_accounts_status i;
     pi_accounts_amount := pi_accounts_amount i;
     pi_accounts_reason := pi_accounts_reason i;
     pi_accounts_by := pi_accounts_by i;
     pi_owner_status := pi_owner_status i; pi_owner_amount := pi_owner_amount i;
     pi_owner_reason := pi_owner_reason i; pi_owner_by := pi_owner_by i;
     pi_status := s |}.

(** [SET accounts_status, accounts_amount, accounts_reason, accounts_by, status] *)
Definition set_pi_accounts (s : accounts_status) (amount : option Z)
    (reason : option string) (by_user : uuid) (st : item_status)
    (i : proposal_item) : proposal_item :=
  {| pi_id := pi_id i; pi_proposal_id := pi_proposal_id i; pi_bill_id := pi_bill_id i;
     pi_proposed_amount := pi_proposed_amount i;
     pi_urgency_remarks := pi_urgency_remarks i;
     pi_accounts_status := s; pi_accounts_amount := amount;
     pi_accounts_reason := reason; pi_accounts_by := Some by_user;
     pi_owner_status := pi_owner_status i; pi_owner_amount := pi_owner_amount i;
     pi_owner_reason := pi_owner_reason i; pi_owner_by := pi_owner_by i;
     pi_status := st |}.

(** [SET owner_status, owner_amount, owner_reason, owner_by, status] *)
Definition set_pi_owner (s : owner_status) (amount : option Z)
    (reason : option string) (by_user : uuid) (st : item_status)
    (i : proposal_item) : proposal_item :=
  {| pi_id := pi_id i; pi_proposal_id := pi_proposal_id i; pi_bill_id := pi_bill_id i;
     pi_proposed_amount := pi_proposed_amount i;
     pi_urgency_remarks := pi_urgency_remarks i;
     pi_accounts_status := pi_accounts_status i;
     pi_accounts_amount := pi_accounts_amount i;
     pi_accounts_reason := pi_accounts_reason i;
     pi_accounts_by := pi_accounts_by i;
     pi_owner_status := s; pi_owner_amount := amount;
     pi_owner_reason := reason; pi_owner_by := Some by_user;
     pi_status := st |}.

Definition set_pay_status (s : payment_status) (p : payment) : payment :=
  {| pay_id := pay_id p; pay_number := pay_number p;
     pay_proposal_id := pay_proposal_id p; pay_total_amount := pay_total_amount p;
     pay_bank_account_id := pay_bank_account_id p; pay_status := s;
     pay_created_by := pay_created_by p |}.

(** [SET utr_number = $1, status = 'confirmed'] *)
Definition set_pd_utr (utr : option string) (d : payment_detail) : payment_detail :=
  {| pd_id := pd_id d; pd_payment_id := pd_payment_id d; pd_bill_id := pd_bill_id d;
     pd_proposal_item_id := pd_proposal_item_id d; pd_amount := pd_amount d;
     pd_utr_number := utr; pd_status := DetConfirmed |}.

(** [SET paid_amount = paid_amount + $1]. The statement does not write
    [payment_status]; what the schema, which is not among the sources,
    makes of that column on a write is not followed here. *)
Definition add_ib_paid (a : Z) (b : inward_bill) : inward_bill :=
  {| ib_id := ib_id b; ib_vendor_id := ib_vendor_id b;
     ib_bill_number := ib_bill_number b; ib_invoice_date := ib_invoice_date b;
     ib_receiving_date := ib_receiving_date b; ib_amount := ib_amount b;
     ib_paid_amount := ib_paid_amount b + a; ib_credit_days := ib_credit_days b;
     ib_due_date := ib_due_date b; ib_checked_by := ib_checked_by b;
     ib_remarks := ib_remarks b; ib_bill_scan_url := ib_bill_scan_url b;
     ib_status := ib_status b; ib_payment_status := ib_payment_status b;
     ib_version := ib_version b; ib_created_by := ib_created_by b;
     ib_cancelled_by := ib_cancelled_by b; ib_cancel_reason := ib_cancel_reason b |}.

(** [SET status = 'cancelled', cancelled_by = $1, cancel_reason = $2] *)
Definition cancel_ib (by_user : uuid) (reason : string) (b : inward_bill) : inward_bill :=
  {| ib_id := ib_id b; ib_vendor_id := ib_vendor_id b;
     ib_bill_number := ib_bill_number b; ib_invoice_date := ib_invoice_date b;
     ib_receiving_date := ib_receiving_date b; ib_amount := ib_amount b;
     ib_paid_amount := ib_paid_amount b; ib_credit_days := ib_credit_days b;
     ib_due_date := ib_due_date b; ib_checked_by := ib_checked_by b;
     ib_remarks := ib_remarks b; ib_bill_scan_url := ib_bill_scan_url b;
     ib_status := Cancelled; ib_payment_status := ib_payment_status b;
     ib_version := ib_version b; ib_created_by := ib_created_by b;
     ib_cancelled_by := Some by_user; ib_cancel_reason := Some reason |}.

(** ** SQL statements over a table *)

Section Sql.
Context {R : Type}.

(** [UPDATE t SET .. WHERE w] *)
Definition update_where (w : R -> bool) (set : R -> R) (t : list R) : list R :=
  map (fun r => if w r then set r else r) t.

(** [SELECT * FROM t WHERE w] *)
Definition select_where (w : R -> bool) (t : list R) : list R := filter w t.

(** [DELETE FROM t WHERE w] *)
Definition delete_where (w : R -> bool) (t : list R) : list R :=
  filter (fun r => negb (w r)) t.

(** [rows[0]] of [SELECT * FROM t WHERE w] *)
Definition select_first (w : R -> bool) (t : list R) : option R := find w t.

(** [EXISTS (SELECT 1 FROM t WHERE w)] *)
Definition exists_where (w : R -> bool) (t : list R) : bool := existsb w t.

(** [SELECT COUNT( * ) FROM t WHERE w] *)
Definition count_where (w : R -> bool) (t : list R) : nat := List.length (filter w t).
End Sql.

(** [COALESCE(SUM(f), 0)] *)
Definition sum_of {R : Type} (f : R -> Z) (t : list R) : Z :=
  fold_right (fun r acc => f r + acc) 0 t.

(** ** Replies, middleware and transactions *)

(** [res.status(code).json({ error | message })] *)
Inductive reply := Json (code : nat) (text : string).

Definition reply_code (r : reply) : nat := match r with Json c _ => c end.

(** What is thrown: [new Error(message)] by a handler, or an error of the
    database driver, which carries the SQLSTATE [code]. *)
Inductive error := Error (message : string) | PgError (pg_code : string).

(** What a transaction body comes to: a value, or a thrown error. *)
Inductive outcome (A : Type) := Done (a : A) | Thrown (err : error).
Arguments Done {A} a.
Arguments Thrown {A} err.

(** Statements run on the transaction's client. *)
Definition tx (A : Type) : Type := db -> outcome (A * db).

Definition tx_ret {A} (a : A) : tx A := fun st => Done (a, st).

Definition tx_bind {A B} (m : tx A) (k : A -> tx B) : tx B :=
  fun st => match m st with
            | Done (a, st') => k a st'
            | Thrown e => Thrown e
            end.

Definition throw {A} (e : error) : tx A := fun _ => Thrown e.

(** [await client.query(<a statement that writes>)] *)
Definition exec (f : db -> db) : tx unit := fun st => Done (tt, f st).

(** [await client.query(<a SELECT>)] *)
Definition ask {A} (f : db -> A) : tx A := fun st => Done (f st, st).

Notation "x <- m ;; k" := (tx_bind m (fun x => k))
  (at level 61, m at next level, right associativity).
Notation "m ;;; k" := (tx_bind m (fun _ => k))
  (at level 61, right associativity).

(** Modelled from the spec: [transaction] of config/database.js, which is
    not among the sources. Following section 5 of the specification, the
    statements of the body commit together when the body returns, and
    none of them is kept when the body throws; the error is thrown on to
    the caller. *)
Definition transaction {A} (body : tx A) (st : db) : outcome A * db :=
  match body st with
  | Done (a, st') => (Done a, st')
  | Thrown e => (Thrown e, st)
  end.

(** [errorHandler] of error.middleware.js: the four SQLSTATE codes it
    knows, and status 500 for everything else (a plain [Error] has neither
    [code] nor [statusCode]). The text kept for a 500 is the message of
    the error, which is what the reply carries in development mode; in
    production the reply says "An unexpected error occurred" for all of
    them. The handlers have no error classes of their own. *)
Definition errorHandler (err : error) : reply :=
  match err with
  | PgError "23505" => Json 409 "Duplicate entry"
  | PgError "23503" => Json 400 "Invalid reference"
  | PgError "23502" => Json 400 "Missing required field"
  | PgError "22P02" => Json 400 "Invalid input"
  | PgError c => Json 500 c
  | Error m => Json 500 m
  end.

(** [authorize(...allowedRoles)] of auth.middleware.js; [req.user] is set
    by [authenticate]. *)
Definition authorize (allowedRoles : list role) (u : user)
    (next : db -> reply * db) (st : db) : reply * db :=
  if existsb (role_eqb (user_role u)) allowedRoles
  then next st
  else (Json 403 "Access denied", st).

(** JavaScript truthiness of the request fields the handlers test. *)
Definition truthy_string (s : option string) : bool :=
  match s with
  | Some s => negb (String.eqb s "")
  | None => false
  end.

Definition truthy_number (n : option Z) : bool :=
  match n with
  | Some n => negb (n =? 0)
  | None => false
  end.

Definition is_some {A} (o : option A) : bool :=
  match o with Some _ => true | None => false end.

(** ** validation.middleware.js *)

(** The characters that [\s] matches, among the code units below 256. *)
Definition is_space (c : ascii) : bool :=
  let n := nat_of_ascii c in
  (Nat.leb 9 n && Nat.leb n 13) || Nat.eqb n 32 || Nat.eqb n 160.

Fixpoint ltrim (s : string) : string :=
  match s with
  | String c rest => if is_space c then ltrim rest else s
  | EmptyString => EmptyString
  end.

Fixpoint rtrim (s : string) : string :=
  match s with
  | String c rest =>
    match rtrim rest with
    | EmptyString => if is_space c then EmptyString else String c EmptyString
    | kept => String c kept
    end
  | EmptyString => EmptyString
  end.

(** The sanitizer [.trim()]: the value without the white space it starts
    and ends with. The handler that follows reads the sanitized value. *)
Definition trim (s : string) : string := rtrim (ltrim s).

Definition length_between (lo hi : nat) (s : string) : bool :=
  Nat.leb lo (String.length s) && Nat.leb (String.length s) hi.

(** [validators.requiredString(field, min, max)]:
    [.trim().notEmpty().isLength({ min, max })] *)
Definition requiredString (lo hi : nat) (s : string) : bool :=
  negb (String.eqb (trim s) "") && length_between lo hi (trim s).

(** [validators.optionalString(field, max)]:
    [.optional({ nullable: true, checkFalsy: true }).trim().isLength({ max })];
    a value that is missing, [null] or empty is passed over. *)
Definition optionalString (hi : nat) (s : option string) : bool :=
  match s with
  | Some s => Nat.leb (String.length (trim s)) hi
  | None => true
  end.

Definition sanitized_optional (s : option string) : option string :=
  option_map trim s.

(** [validators.date(field)]: [isISO8601()] on a date [YYYY-MM-DD], whose
    years are 0000 to 9999: the days from 0000-01-01 to 9999-12-31. *)
Definition is_iso_date (d : Z) : bool := (-719528 <=? d) && (d <=? 2932896).

(** ** proposal.routes.js *)

(** An element of [req.body.items] of [POST /api/proposals]. *)
Record new_item := {
  ni_bill_id : uuid;
  ni_proposed_amount : Z;
  ni_remarks : option string
}.

(** [validationRules.createProposal]: a payment date, remarks of at most
    500 characters once trimmed, at least one item, no negative amount. *)
Definition valid_createProposal (payment_date : Z) (remarks : option string)
    (items : list new_item) : bool :=
  is_iso_date payment_date
  && optionalString 500 remarks
  && negb (Nat.eqb (List.length items) 0)
  && forallb (fun i => 0 <=? ni_proposed_amount i) items.

(** Modelled from the spec: the column defaults of database/001_schema.sql,
    which is not among the sources. A proposal starts in [draft]; an item
    starts as [proposed], with both approval tracks pending and empty. *)
Definition default_proposal_status : proposal_status := Draft.

(** Modelled from the spec: the foreign key of [proposal_items.bill_id],
    which database/001_schema.sql, not among the sources, declares. An
    item links a proposal to exactly one bill (section 3), so the insertion
    of an item whose bill is not in [inward_bills] is refused as a dangling
    reference, SQLSTATE 23503. *)
Definition bill_exists (st : db) (bill_id : uuid) : bool :=
  exists_where (fun b => Nat.eqb (ib_id b) bill_id) (inward_bills st).

Definition insert_proposal_item (proposal_id : uuid) (i : new_item) : tx unit :=
  referenced <- ask (fun st => bill_exists st (ni_bill_id i)) ;;
  if referenced
  then
    exec (fun st =>
      let (id, st) := fresh st in
      with_proposal_items st (proposal_items st ++
        [{| pi_id := id; pi_proposal_id := proposal_id; pi_bill_id := ni_bill_id i;
            pi_proposed_amount := ni_proposed_amount i;
            pi_urgency_remarks :=
              if truthy_string (ni_remarks i) then ni_remarks i else None;
            pi_accounts_status := AccPending; pi_accounts_amount := None;
            pi_accounts_reason := None; pi_accounts_by := None;
            pi_owner_status := OwnPending; pi_owner_amount := None;
            pi_owner_reason := None; pi_owner_by := None;
            pi_status := Proposed |}]))
  else throw (PgError "23503").

Fixpoint for_each {A} (f : A -> tx unit) (l : list A) : tx unit :=
  match l with
  | [] => tx_ret tt
  | x :: l => f x ;;; for_each f l
  end.

(** [POST /api/proposals] *)
Definition create_proposal (u : user) (payment_date : Z)
    (remarks : option string) (items : list new_item) : db -> reply * db :=
  authorize [Purchase; Owner] u (fun st =>
    if negb (valid_createProposal payment_date remarks items)
    then (Json 400 "Validation failed", st)
    else
      let remarks := sanitized_optional remarks in
      match transaction
        (proposalNumber <- (fun st => Done (fresh st)) ;;
         let totalAmount := sum_of ni_proposed_amount items in
         id <- (fun st => Done (fresh st)) ;;
         exec (fun st => with_proposals st (proposals st ++
           [{| p_id := id; p_number := proposalNumber;
               p_payment_date := payment_date; p_total_amount := totalAmount;
               p_remarks := remarks; p_status := default_proposal_status;
               p_created_by := user_id u |}])) ;;;
         for_each (insert_proposal_item id) items) st
      with
      | (Done _, st') => (Json 201 "Proposal created successfully", st')
      | (Thrown e, st') => (errorHandler e, st')
      end).

(** [POST /api/proposals/:id/submit] *)
Definition submit_proposal (u : user) (id : uuid) : db -> reply * db :=
  authorize [Purchase; Owner] u (fun st =>
    let w p := Nat.eqb (p_id p) id && is_draft (p_status p)
               && Nat.eqb (p_created_by p) (user_id u) in
    let rows := select_where w (proposals st) in
    let st' := with_proposals st (update_where w (set_p_status Submitted) (proposals st)) in
    if Nat.eqb (List.length rows) 0
    then (Json 400 "Cannot submit this proposal", st')
    else (Json 200 "Proposal submitted", st')).

(** An element of [req.body.items] of the accounts and owner actions:
    [{item_id, action, amount, reason}]. *)
Record action_entry := {
  ae_item_id : uuid;
  ae_action : string;
  ae_amount : option Z;
  ae_reason : option string
}.

Definition includes (l : list string) (s : string) : bool :=
  existsb (String.eqb s) l.

Definition accounts_step (u : user) (item : action_entry) : tx unit :=
  let action := ae_action item in
  if negb (includes ["approve"; "hold"; "reject"] action)
  then throw (Error ("Invalid action: " ++ action))
  else
    let accountsStatus :=
      if String.eqb action "approve" then AccApproved
      else if String.eqb action "hold" then AccHeld else AccPending in
    let itemStatus :=
      if String.eqb action "approve" then AccountsApproved
      else if String.eqb action "hold" then AccountsHeld else Proposed in
    exec (fun st => with_proposal_items st
      (update_where (fun i => Nat.eqb (pi_id i) (ae_item_id item))
         (set_pi_accounts accountsStatus (ae_amount item) (ae_reason item)
            (user_id u) itemStatus)
         (proposal_items st))).

(** [POST /api/proposals/:id/accounts-action] *)
Definition accounts_action (u : user) (id : uuid)
    (items : option (list action_entry)) : db -> reply * db :=
  authorize [Accounts; Owner] u (fun st =>
    match items with
    | None => (Json 400 "Items array is required", st)
    | Some items =>
      match transaction
        (for_each (accounts_step u) items ;;;
         exec (fun st => with_proposals st
           (update_where (fun p => Nat.eqb (p_id p) id)
              (set_p_status UnderReview) (proposals st)))) st
      with
      | (Done _, st') => (Json 200 "Accounts validation updated", st')
      | (Thrown e, st') => (errorHandler e, st')
      end
    end).

(** The body of the loop of the owner action; [hasApproved] and
    [hasDeferred] are the two flags of the handler. *)
Fixpoint owner_loop (u : user) (items : list action_entry)
    (hasApproved hasDeferred : bool) : tx (bool * bool) :=
  match items with
  | [] => tx_ret (hasApproved, hasDeferred)
  | item :: rest =>
    let action := ae_action item in
    if negb (includes ["approve"; "defer"; "reject"] action)
    then throw (Error ("Invalid action: " ++ action))
    else
      let ownerStatus :=
        if String.eqb action "approve" then OwnApproved
        else if String.eqb action "defer" then OwnDeferred else OwnRejected in
      let itemStatus :=
        if String.eqb action "approve" then OwnerApproved
        else if String.eqb action "defer" then OwnerDeferred else OwnerRejected in
      let hasApproved := if String.eqb action "approve" then true else hasApproved in
      let hasDeferred := if String.eqb action "defer" then true else hasDeferred in
      exec (fun st => with_proposal_items st
        (update_where (fun i => Nat.eqb (pi_id i) (ae_item_id item))
           (set_pi_owner ownerStatus (ae_amount item) (ae_reason item)
              (user_id u) itemStatus)
           (proposal_items st))) ;;;
      (if String.eqb action "defer"
       then exec (fun st => with_proposal_items st
              (update_where (fun i => Nat.eqb (pi_id i) (ae_item_id item))
                 (set_pi_status CarryForward) (proposal_items st)))
       else tx_ret tt) ;;;
      owner_loop u rest hasApproved hasDeferred
  end.

(** [newStatus] of the owner action. *)
Definition owner_newStatus (hasApproved hasDeferred : bool) : proposal_status :=
  if hasApproved && negb hasDeferred then Approved
  else if hasApproved && hasDeferred then PartialApproved
  else Rejected.

(** [POST /api/proposals/:id/owner-action] *)
Definition owner_action (u : user) (id : uuid)
    (items : option (list action_entry)) : db -> reply * db :=
  authorize [Owner] u (fun st =>
    match items with
    | None => (Json 400 "Items array is required", st)
    | Some items =>
      match transaction
        (flags <- owner_loop u items false false ;;
         let newStatus := owner_newStatus (fst flags) (snd flags) in
         exec (fun st => with_proposals st
           (update_where (fun p => Nat.eqb (p_id p) id)
              (set_p_status newStatus) (proposals st)))) st
      with
      | (Done _, st') => (Json 200 "Owner approval processed", st')
      | (Thrown e, st') => (errorHandler e, st')
      end
    end).

(** [DELETE /api/proposals/:id]: the items are deleted first, then the
    proposal, the latter only if it is a draft of the caller's (or the
    caller is the owner); the body returns the deleted row, if any. *)
Definition delete_proposal (u : user) (id : uuid) : db -> reply * db :=
  authorize [Purchase; Owner] u (fun st =>
    match transaction
      (exec (fun st => with_proposal_items st
         (delete_where (fun i => Nat.eqb (pi_proposal_id i) id) (proposal_items st))) ;;;
       let w p := Nat.eqb (p_id p) id && is_draft (p_status p)
                  && (Nat.eqb (p_created_by p) (user_id u)
                      || role_eqb (user_role u) Owner) in
       deleteResult <- ask (fun st => select_where w (proposals st)) ;;
       exec (fun st => with_proposals st (delete_where w (proposals st))) ;;;
       tx_ret (hd_error deleteResult)) st
    with
    | (Done None, st') => (Json 400 "Cannot delete this proposal", st')
    | (Done (Some _), st') => (Json 200 "Proposal deleted", st')
    | (Thrown e, st') => (errorHandler e, st')
    end).

(** *** [GET /api/proposals/available-bills] *)

(** The columns of a row of [data] that come from [inward_bills] and
    [proposal_items] (the vendor's code and name and the name of the
    entering user are left out). *)
Record available_row := {
  ar_id : uuid;
  ar_bill_number : string;
  ar_invoice_date : Z;
  ar_amount : Z;
  ar_paid_amount : Z;
  ar_outstanding : Z;
  ar_due_date : Z;
  ar_credit_days : Z;
  ar_vendor_id : uuid;
  ar_age_days : Z;
  ar_carry_forward_count : nat
}.

(** [EXISTS (SELECT 1 FROM proposal_items pi JOIN proposals p
      ON pi.proposal_id = p.id WHERE pi.bill_id = ib.id
      AND p.status NOT IN ('rejected', 'completed')
      AND pi.status NOT IN ('owner_rejected', 'paid'))] *)
Definition has_open_item (st : db) (bill_id : uuid) : bool :=
  exists_where (fun i =>
      exists_where (fun p =>
          Nat.eqb (pi_proposal_id i) (p_id p)
          && Nat.eqb (pi_bill_id i) bill_id
          && proposal_not_terminal (p_status p)
          && item_not_released (pi_status i))
        (proposals st))
    (proposal_items st).

(** [EXISTS (SELECT 1 FROM proposal_items pi
      WHERE pi.bill_id = ib.id AND pi.status = 'carry_forward')] *)
Definition has_carry_forward_item (st : db) (bill_id : uuid) : bool :=
  exists_where (fun i => Nat.eqb (pi_bill_id i) bill_id && is_carry_forward (pi_status i))
    (proposal_items st).

(** The [whereClause] the handler builds from [vendor_id] and [filter]. *)
Definition available_where (st : db) (today : Z) (vendorId : option uuid)
    (filter : option string) (ib : inward_bill) : bool :=
  let base := is_active (ib_status ib)
              && negb (is_bill_paid (ib_payment_status ib))
              && negb (has_open_item st (ib_id ib)) in
  let with_vendor :=
    match vendorId with
    | Some v => base && Nat.eqb (ib_vendor_id ib) v
    | None => base
    end in
  match filter with
  | Some "overdue" => with_vendor && (ib_due_date ib <? today)
  | Some "due_today" => with_vendor && (ib_due_date ib =? today)
  | Some "due_week" =>
      with_vendor && (today <=? ib_due_date ib) && (ib_due_date ib <=? today + 7)
  | Some "carry_forward" =>
      is_active (ib_status ib)
      && negb (is_bill_paid (ib_payment_status ib))
      && has_carry_forward_item st (ib_id ib)
  | _ => with_vendor
  end.

Definition available_project (st : db) (today : Z) (ib : inward_bill)
    (v : uuid) : available_row :=
  {| ar_id := ib_id ib; ar_bill_number := ib_bill_number ib;
     ar_invoice_date := ib_invoice_date ib; ar_amount := ib_amount ib;
     ar_paid_amount := ib_paid_amount ib;
     ar_outstanding := ib_amount ib - ib_paid_amount ib;
     ar_due_date := ib_due_date ib; ar_credit_days := ib_credit_days ib;
     ar_vendor_id := v;
     ar_age_days := if ib_due_date ib <? today then today - ib_due_date ib
                    else - (ib_due_date ib - today);
     ar_carry_forward_count :=
       count_where (fun i => Nat.eqb (pi_bill_id i) (ib_id ib)
                             && is_carry_forward (pi_status i))
         (proposal_items st) |}.

(** [ORDER BY ib.due_date ASC] *)
Fixpoint insert_by_due (r : available_row) (l : list available_row) : list available_row :=
  match l with
  | [] => [r]
  | x :: l' => if ar_due_date r <? ar_due_date x then r :: l
               else x :: insert_by_due r l'
  end.

Definition order_by_due (l : list available_row) : list available_row :=
  fold_right insert_by_due [] l.

(** The [data] of the reply. The statement is refused by the
    database (protocol violation, SQLSTATE 08P01) when [filter = 'carry_forward'] comes with a [vendor_id]: the
    replaced [whereClause] has no placeholder for the parameter that was
    pushed. *)
Definition available_bills (st : db) (today : Z) (vendorId : option uuid)
    (filter : option string) : outcome (list available_row) :=
  match vendorId, filter with
  | Some _, Some "carry_forward" =>
      Thrown (PgError "08P01")
  | _, _ =>
      Done (order_by_due
        (flat_map (fun ib =>
             map (available_project st today ib)
                 (select_where (fun v => Nat.eqb (ib_vendor_id ib) v) (vendors st)))
           (select_where (available_where st today vendorId filter) (inward_bills st))))
  end.

(** ** payment.routes.js *)

(** [SELECT pi.* FROM proposal_items pi JOIN inward_bills ib
      ON pi.bill_id = ib.id
      WHERE pi.proposal_id = $1 AND pi.owner_status = 'approved'] *)
Definition approved_items (st : db) (proposal_id : uuid) : list proposal_item :=
  flat_map (fun i =>
      map (fun _ => i)
          (select_where (fun ib => Nat.eqb (pi_bill_id i) (ib_id ib)) (inward_bills st)))
    (select_where (fun i => Nat.eqb (pi_proposal_id i) proposal_id
                            && is_own_approved (pi_owner_status i))
       (proposal_items st)).

(** [rows.reduce((sum, item) => sum + parseFloat(item.owner_amount), 0)];
    [None] is [NaN], which is what [parseFloat(null)] is and what every
    sum with it is. *)
Fixpoint total_owner_amount (rows : list proposal_item) : option Z :=
  match rows with
  | [] => Some 0
  | item :: rows =>
    match pi_owner_amount item, total_owner_amount rows with
    | Some a, Some s => Some (a + s)
    | _, _ => None
    end
  end.

(** Modelled from the spec: the schema is not among the sources. A
    PaymentDetail carries an amount: the column is taken to be NOT NULL, so
    that the insertion of a detail for an item without [owner_amount] is
    refused with SQLSTATE 23502. A payment starts [pending], a detail
    starts [pending] with no UTR. *)
Definition insert_payment_detail (payment_id : uuid) (item : proposal_item) : tx unit :=
  match pi_owner_amount item with
  | None => throw (PgError "23502")
  | Some amount =>
    exec (fun st =>
      let (id, st) := fresh st in
      with_payment_details st (payment_details st ++
        [{| pd_id := id; pd_payment_id := payment_id; pd_bill_id := pi_bill_id item;
            pd_proposal_item_id := Some (pi_id item); pd_amount := amount;
            pd_utr_number := None; pd_status := DetPending |}]))
  end.

Definition create_from_proposal_body (u : user) (proposal_id bank_account_id : uuid)
  : tx payment :=
  proposalResult <- ask (fun st =>
    select_where (fun p => Nat.eqb (p_id p) proposal_id
                           && is_approved_or_partial (p_status p)) (proposals st)) ;;
  if Nat.eqb (List.length proposalResult) 0
  then throw (Error "Proposal not found or not approved")
  else
    itemsResult <- ask (fun st => approved_items st proposal_id) ;;
    if Nat.eqb (List.length itemsResult) 0
    then throw (Error "No approved items found")
    else
      paymentNumber <- (fun st => Done (fresh st)) ;;
      match total_owner_amount itemsResult with
      | None =>
        (* the total is NaN: some item has no owner_amount, and the
           insertion of its detail below is refused *)
        throw (PgError "23502")
      | Some totalAmount =>
        id <- (fun st => Done (fresh st)) ;;
        let payment :=
          {| pay_id := id; pay_number := paymentNumber;
             pay_proposal_id := proposal_id; pay_total_amount := totalAmount;
             pay_bank_account_id := bank_account_id; pay_status := PayPending;
             pay_created_by := user_id u |} in
        exec (fun st => with_payments st (payments st ++ [payment])) ;;;
        for_each (insert_payment_detail id) itemsResult ;;;
        exec (fun st => with_proposals st
          (update_where (fun p => Nat.eqb (p_id p) proposal_id)
             (set_p_status Completed) (proposals st))) ;;;
        tx_ret payment
      end.

(** [POST /api/payments/create-from-proposal] *)
Definition create_from_proposal (u : user) (proposal_id bank_account_id : option uuid)
  : db -> reply * db :=
  authorize [Accounts; Owner] u (fun st =>
    match proposal_id, bank_account_id with
    | Some proposal_id, Some bank_account_id =>
      match transaction (create_from_proposal_body u proposal_id bank_account_id) st with
      | (Done _, st') => (Json 201 "Payment batch created", st')
      | (Thrown e, st') => (errorHandler e, st')
      end
    | _, _ => (Json 400 "proposal_id and bank_account_id are required", st)
    end).

(** An element of [req.body.details]: [{detail_id, utr_number}]. *)
Record utr_entry := {
  ue_detail_id : uuid;
  ue_utr_number : option string
}.

Definition opt_uuid_eqb (a : option uuid) (b : uuid) : bool :=
  match a with Some a => Nat.eqb a b | None => false end.

(** [utr_number IS NULL OR utr_number = ''] *)
Definition utr_missing (d : payment_detail) : bool :=
  match pd_utr_number d with
  | None => true
  | Some s => String.eqb s ""
  end.

(** One turn of the loop of the UTR update of payment [id]. *)
Definition settle_detail (id : uuid) (detail : utr_entry) : tx unit :=
  exec (fun st => with_payment_details st
    (update_where (fun d => Nat.eqb (pd_id d) (ue_detail_id detail)
                            && Nat.eqb (pd_payment_id d) id)
       (set_pd_utr (ue_utr_number detail)) (payment_details st))) ;;;
  detailResult <- ask (fun st =>
    select_where (fun d => Nat.eqb (pd_id d) (ue_detail_id detail)) (payment_details st)) ;;
  match detailResult with
  | row :: _ =>
    if truthy_string (ue_utr_number detail)
    then
      exec (fun st => with_inward_bills st
        (update_where (fun ib => Nat.eqb (ib_id ib) (pd_bill_id row))
           (add_ib_paid (pd_amount row)) (inward_bills st))) ;;;
      exec (fun st => with_proposal_items st
        (update_where (fun i =>
             opt_uuid_eqb
               (match select_first (fun d => Nat.eqb (pd_id d) (ue_detail_id detail))
                        (payment_details st) with
                | Some d => pd_proposal_item_id d
                | None => None
                end) (pi_id i))
           (set_pi_status Paid) (proposal_items st)))
    else tx_ret tt
  | [] => tx_ret tt
  end.

(** [newStatus] after the loop: [confirmed] when no detail of the payment
    is left without a UTR. *)
Definition utr_newStatus (st : db) (id : uuid) : payment_status :=
  if Nat.eqb
       (count_where (fun d => Nat.eqb (pd_payment_id d) id && utr_missing d)
          (payment_details st)) 0
  then Confirmed else Processed.

Definition update_utr_body (id : uuid) (details : list utr_entry) : tx unit :=
  for_each (settle_detail id) details ;;;
  newStatus <- ask (fun st => utr_newStatus st id) ;;
  exec (fun st => with_payments st
    (update_where (fun p => Nat.eqb (pay_id p) id) (set_pay_status newStatus)
       (payments st))).

(** [POST /api/payments/:id/update-utr] *)
Definition update_utr (u : user) (id : uuid) (details : option (list utr_entry))
  : db -> reply * db :=
  authorize [Accounts; Owner] u (fun st =>
    match details with
    | None => (Json 400 "details array is required", st)
    | Some details =>
      match transaction (update_utr_body id details) st with
      | (Done _, st') => (Json 200 "UTR numbers updated", st')
      | (Thrown e, st') => (errorHandler e, st')
      end
    end).

(** ** inward.routes.js *)

(** The days before and after 1970-01-01 that a JavaScript [Date] holds
    (8.64e15 milliseconds either way). *)
Definition max_date_day : Z := 100000000.

Definition date_in_range (d : Z) : bool :=
  (- max_date_day <=? d) && (d <=? max_date_day).

(** [new Date(base); d.setDate(d.getDate() + creditDays);
    d.toISOString().split('T')[0]], as a day number. Outside the range of
    [Date] the time value is [NaN] and [toISOString] throws a [RangeError]:
    [None]. *)
Definition dueDate (base creditDays : Z) : option Z :=
  if date_in_range base && date_in_range (base + creditDays)
  then Some (base + creditDays)
  else None.

(** [req.body] of [POST /api/inward]. *)
Record new_bill := {
  nb_vendor_id : uuid;
  nb_bill_number : string;
  nb_invoice_date : Z;
  nb_receiving_date : Z;
  nb_amount : Z;
  nb_credit_days : Z;
  nb_checked_by : string;
  nb_remarks : option string;
  nb_bill_scan_url : option string
}.

(** [validationRules.createInwardBill] *)
Definition valid_createInwardBill (b : new_bill) : bool :=
  requiredString 1 50 (nb_bill_number b)
  && is_iso_date (nb_invoice_date b)
  && is_iso_date (nb_receiving_date b)
  && (0 <=? nb_amount b)
  && (0 <=? nb_credit_days b) && (nb_credit_days b <=? 365)
  && requiredString 1 100 (nb_checked_by b)
  && optionalString 500 (nb_remarks b).

(** [req.body] as the validation chain leaves it: the three strings
    trimmed. *)
Definition sanitized_createInwardBill (b : new_bill) : new_bill :=
  {| nb_vendor_id := nb_vendor_id b; nb_bill_number := trim (nb_bill_number b);
     nb_invoice_date := nb_invoice_date b; nb_receiving_date := nb_receiving_date b;
     nb_amount := nb_amount b; nb_credit_days := nb_credit_days b;
     nb_checked_by := trim (nb_checked_by b);
     nb_remarks := sanitized_optional (nb_remarks b);
     nb_bill_scan_url := nb_bill_scan_url b |}.

(** Modelled from the spec: the reference of [inward_bills.vendor_id],
    which database/001_schema.sql, not among the sources, declares. By
    section 4.1 a bill whose vendor is missing or inactive is refused as a
    dangling reference. *)
Definition vendor_referable (st : db) (vendor_id : uuid) : bool :=
  exists_where (Nat.eqb vendor_id) (vendors st)
  && negb (exists_where (Nat.eqb vendor_id) (inactive_vendors st)).

(** Modelled from the spec: the column defaults of the schema, which is
    not among the sources. A new bill is [active] and [open], nothing is
    paid, and its version counter starts at 1. The insertion is refused
    with SQLSTATE 23503 when the vendor cannot be referred to. *)
Definition insert_inward_bill (u : user) (b : new_bill) (due : Z) (st : db)
  : outcome db :=
  if vendor_referable st (nb_vendor_id b)
  then
    let (id, st) := fresh st in
    Done (with_inward_bills st (inward_bills st ++
      [{| ib_id := id; ib_vendor_id := nb_vendor_id b;
          ib_bill_number := nb_bill_number b; ib_invoice_date := nb_invoice_date b;
          ib_receiving_date := nb_receiving_date b; ib_amount := nb_amount b;
          ib_paid_amount := 0; ib_credit_days := nb_credit_days b;
          ib_due_date := due; ib_checked_by := nb_checked_by b;
          ib_remarks := nb_remarks b; ib_bill_scan_url := nb_bill_scan_url b;
          ib_status := Active; ib_payment_status := BillOpen; ib_version := 1;
          ib_created_by := user_id u; ib_cancelled_by := None;
          ib_cancel_reason := None |}]))
  else Thrown (PgError "23503").

(** [POST /api/inward]; the handler runs on the sanitized body. *)
Definition create_inward_bill (u : user) (b : new_bill) : db -> reply * db :=
  authorize [Godown; Owner] u (fun st =>
    if negb (valid_createInwardBill b)
    then (Json 400 "Validation failed", st)
    else
      let b := sanitized_createInwardBill b in
      match dueDate (nb_invoice_date b) (nb_credit_days b) with
      | None => (errorHandler (Error "Invalid time value"), st)
      | Some due =>
        match insert_inward_bill u b due st with
        | Done st' => (Json 201 "Inward bill created successfully", st')
        | Thrown e => (errorHandler e, st)
        end
      end).

(** [req.body] of [PUT /api/inward/:id]: each of the eight allowed fields
    is present ([Some]) or [undefined]; the two nullable columns may be
    given [null]. *)
Record bill_updates := {
  bu_bill_number : option string;
  bu_invoice_date : option Z;
  bu_receiving_date : option Z;
  bu_amount : option Z;
  bu_credit_days : option Z;
  bu_checked_by : option string;
  bu_remarks : option (option string);
  bu_bill_scan_url : option (option string)
}.

(** [a ?? b] *)
Definition nullish {A} (a : option A) (b : A) : A :=
  match a with Some v => v | None => b end.

(** The [SET] clauses built from the fields that are not [undefined],
    the due date when it was recalculated, and [version = version + 1].
    [payment_status] is not among them; what the schema makes of that
    column on a write is not followed here. *)
Definition set_ib_fields (updates : bill_updates) (due : option Z)
    (b : inward_bill) : inward_bill :=
  {| ib_id := ib_id b; ib_vendor_id := ib_vendor_id b;
     ib_bill_number := nullish (bu_bill_number updates) (ib_bill_number b);
     ib_invoice_date := nullish (bu_invoice_date updates) (ib_invoice_date b);
     ib_receiving_date := nullish (bu_receiving_date updates) (ib_receiving_date b);
     ib_amount := nullish (bu_amount updates) (ib_amount b);
     ib_paid_amount := ib_paid_amount b;
     ib_credit_days := nullish (bu_credit_days updates) (ib_credit_days b);
     ib_due_date := nullish due (ib_due_date b);
     ib_checked_by := nullish (bu_checked_by updates) (ib_checked_by b);
     ib_remarks := nullish (bu_remarks updates) (ib_remarks b);
     ib_bill_scan_url := nullish (bu_bill_scan_url updates) (ib_bill_scan_url b);
     ib_status := ib_status b; ib_payment_status := ib_payment_status b;
     ib_version := ib_version b + 1; ib_created_by := ib_created_by b;
     ib_cancelled_by := ib_cancelled_by b; ib_cancel_reason := ib_cancel_reason b |}.

(** [setClauses.length === 0] before the version clause is pushed. *)
Definition no_set_clause (updates : bill_updates) : bool :=
  negb (is_some (bu_bill_number updates) || is_some (bu_invoice_date updates)
        || is_some (bu_receiving_date updates) || is_some (bu_amount updates)
        || is_some (bu_credit_days updates) || is_some (bu_checked_by updates)
        || is_some (bu_remarks updates) || is_some (bu_bill_scan_url updates)).

(** The recalculated due date, when the handler recalculates it:
    [if (updates.invoice_date || updates.credit_days)]. A date is a
    non-empty string, hence truthy; a number is truthy unless it is 0. The
    body of this request is not validated, so the [Date] may be out of
    range, and the [RangeError] of [toISOString] is thrown before any
    statement is run. *)
Definition recalculated_due (updates : bill_updates) (existing : inward_bill)
  : outcome (option Z) :=
  if is_some (bu_invoice_date updates) || truthy_number (bu_credit_days updates)
  then
    let invoiceDate := nullish (bu_invoice_date updates) (ib_invoice_date existing) in
    let creditDays := nullish (bu_credit_days updates) (ib_credit_days existing) in
    match dueDate invoiceDate creditDays with
    | Some due => Done (Some due)
    | None => Thrown (Error "Invalid time value")
    end
  else Done None.

(** [PUT /api/inward/:id] *)
Definition update_inward_bill (u : user) (id : uuid) (updates : bill_updates)
  : db -> reply * db :=
  authorize [Owner] u (fun st =>
    match select_where (fun b => Nat.eqb (ib_id b) id) (inward_bills st) with
    | [] => (Json 404 "Bill not found", st)
    | existing :: _ =>
      if negb (is_active (ib_status existing))
      then (Json 400 "Cannot update cancelled bill", st)
      else if is_bill_paid (ib_payment_status existing)
      then (Json 400 "Cannot update fully paid bill", st)
      else
        match recalculated_due updates existing with
        | Thrown e => (errorHandler e, st)
        | Done due =>
          if no_set_clause updates
          then (Json 400 "No valid fields to update", st)
          else
            (Json 200 "Bill updated successfully",
             with_inward_bills st
               (update_where (fun b => Nat.eqb (ib_id b) id)
                  (set_ib_fields updates due) (inward_bills st)))
        end
    end).

(** [DELETE /api/inward/:id] *)
Definition cancel_inward_bill (u : user) (id : uuid) (reason : option string)
  : db -> reply * db :=
  authorize [Owner] u (fun st =>
    match reason with
    | Some r =>
      if String.eqb r "" then (Json 400 "Cancellation reason is required", st)
      else
        match select_where (fun b => Nat.eqb (ib_id b) id) (inward_bills st) with
        | [] => (Json 404 "Bill not found", st)
        | existing :: _ =>
          if 0 <? ib_paid_amount existing
          then (Json 400 "Cannot cancel bill with payments", st)
          else
            (Json 200 "Bill cancelled successfully",
             with_inward_bills st
               (update_where (fun b => Nat.eqb (ib_id b) id)
                  (cancel_ib (user_id u) r) (inward_bills st)))
        end
    | None => (Json 400 "Cancellation reason is required", st)
    end).

(** ** The requests that write to the tables of the workflow *)

Inductive request :=
| CreateProposal (payment_date : Z) (remarks : option string) (items : list new_item)
| SubmitProposal (id : uuid)
| AccountsAction (id : uuid) (items : option (list action_entry))
| OwnerAction (id : uuid) (items : option (list action_entry))
| DeleteProposal (id : uuid)
| CreateFromProposal (proposal_id bank_account_id : option uuid)
| UpdateUtr (id : uuid) (details : option (list utr_entry))
| CreateInwardBill (b : new_bill)
| UpdateInwardBill (id : uuid) (updates : bill_updates)
| CancelInwardBill (id : uuid) (reason : option string).

Definition handle (u : user) (r : request) : db -> reply * db :=
  match r with
  | CreateProposal d rem items => create_proposal u d rem items
  | SubmitProposal id => submit_proposal u id
  | AccountsAction id items => accounts_action u id items
  | OwnerAction id items => owner_action u id items
  | DeleteProposal id => delete_proposal u id
  | CreateFromProposal p b => create_from_proposal u p b
  | UpdateUtr id details => update_utr u id details
  | CreateInwardBill b => create_inward_bill u b
  | UpdateInwardBill id updates => update_inward_bill u id updates
  | CancelInwardBill id reason => cancel_inward_bill u id reason
  end.

(** ** outward.routes.js and customer.routes.js: receivables ageing *)

Record outward_bill := {
  ob_id : uuid;
  ob_customer_id : uuid;
  ob_amount : Z;
  ob_collected_amount : Z;
  ob_due_date : Z;
  ob_status : string
}.

(** [status != 'cancelled' AND status != 'paid'], which is also
    [status NOT IN ('cancelled', 'paid')]. *)
Definition receivable_open (b : outward_bill) : bool :=
  negb (String.eqb (ob_status b) "cancelled") && negb (String.eqb (ob_status b) "paid").

(** The five conditions of the [CASE WHEN]s, on [due_date] and
    [CURRENT_DATE]. *)
Definition in_current (today due : Z) : bool := today <=? due.
Definition in_1_15 (today due : Z) : bool := (due <? today) && (today - 15 <=? due).
Definition in_16_21 (today due : Z) : bool := (due <? today - 15) && (today - 21 <=? due).
Definition in_22_30 (today due : Z) : bool := (due <? today - 21) && (today - 30 <=? due).
Definition in_30_plus (today due : Z) : bool := due <? today - 30.

Definition outstanding (b : outward_bill) : Z := ob_amount b - ob_collected_amount b.

(** [COALESCE(SUM(CASE WHEN c THEN amount - collected_amount ELSE 0 END), 0)] *)
Definition sum_case (c : Z -> bool) (rows : list outward_bill) : Z :=
  sum_of (fun b => if c (ob_due_date b) then outstanding b else 0) rows.

Record customer_ageing := {
  current_amount : Z;
  days_1_15 : Z;
  days_16_21 : Z;
  days_22_30 : Z;
  days_30_plus : Z
}.

(** [GET /api/customers/:id/receivables-ageing] *)
Definition customer_receivables_ageing (today : Z) (id : uuid)
    (outward_bills : list outward_bill) : customer_ageing :=
  let rows := select_where (fun b => Nat.eqb (ob_customer_id b) id && receivable_open b)
                outward_bills in
  {| current_amount := sum_case (in_current today) rows;
     days_1_15 := sum_case (in_1_15 today) rows;
     days_16_21 := sum_case (in_16_21 today) rows;
     days_22_30 := sum_case (in_22_30 today) rows;
     days_30_plus := sum_case (in_30_plus today) rows |}.

Record ageing := {
  ag_current_amount : Z;      ag_current_count : nat;
  ag_days_15_amount : Z;      ag_days_15_count : nat;
  ag_days_21_amount : Z;      ag_days_21_count : nat;
  ag_days_30_amount : Z;      ag_days_30_count : nat;
  ag_days_30_plus_amount : Z; ag_days_30_plus_count : nat
}.

(** [GET /api/outward/receivables-ageing] *)
Definition receivables_ageing (today : Z) (outward_bills : list outward_bill) : ageing :=
  let rows := select_where receivable_open outward_bills in
  let count c := count_where (fun b => c (ob_due_date b) && receivable_open b)
                   outward_bills in
  {| ag_current_amount := sum_case (in_current today) rows;
     ag_current_count := count (in_current today);
     ag_days_15_amount := sum_case (in_1_15 today) rows;
     ag_days_15_count := count (in_1_15 today);
     ag_days_21_amount := sum_case (in_16_21 today) rows;
     ag_days_21_count := count (in_16_21 today);
     ag_days_30_amount := sum_case (in_22_30 today) rows;
     ag_days_30_count := count (in_22_30 today);
     ag_days_30_plus_amount := sum_case (in_30_plus today) rows;
     ag_days_30_plus_count := count (in_30_plus today) |}.

(** The buckets, and the one a due date is counted in. *)
Inductive bucket := Current | Days1to15 | Days16to21 | Days22to30 | Days30plus.

Definition in_bucket (k : bucket) : Z -> Z -> bool :=
  match k with
  | Current => in_current
  | Days1to15 => in_1_15
  | Days16to21 => in_16_21
  | Days22to30 => in_22_30
  | Days30plus => in_30_plus
  end.

(** The five amounts of the two replies, by bucket. *)
Definition customer_amount (a : customer_ageing) (k : bucket) : Z :=
  match k with
  | Current => current_amount a
  | Days1to15 => days_1_15 a
  | Days16to21 => days_16_21 a
  | Days22to30 => days_22_30 a
  | Days30plus => days_30_plus a
  end.

Definition ageing_amount (a : ageing) (k : bucket) : Z :=
  match k with
  | Current => ag_current_amount a
  | Days1to15 => ag_days_15_amount a
  | Days16to21 => ag_days_21_amount a
  | Days22to30 => ag_days_30_amount a
  | Days30plus => ag_days_30_plus_amount a
  end.

Definition all_buckets : list bucket :=
  [Current; Days1to15; Days16to21; Days22to30; Days30plus].

(** ** Notions the properties are stated with *)

(** The actions the owner action accepts, and the two it keeps a flag for. *)
Definition owner_valid (e : action_entry) : bool :=
  includes ["approve"; "defer"; "reject"] (ae_action e).

Definition is_approve (e : action_entry) : bool := String.eqb (ae_action e) "approve".
Definition is_defer (e : action_entry) : bool := String.eqb (ae_action e) "defer".

(** The status the owner action decides, from the entries of the request. *)
Definition owner_decision (items : list action_entry) : proposal_status :=
  if existsb is_approve items
  then (if existsb is_defer items then PartialApproved else Approved)
  else Rejected.

(** ** A worked ledger

    The scenario of section 8 of the specification, run through the
    handlers: two bills are entered, proposed together, submitted and
    validated by accounts. 2024-01-01 is day 19723. *)

Definition owner_user : user := {| user_id := 901; user_role := Owner |}.
Definition purchase_user : user := {| user_id := 902; user_role := Purchase |}.
Definition accounts_user : user := {| user_id := 903; user_role := Accounts |}.
Definition godown_user : user := {| user_id := 904; user_role := Godown |}.

Definition run (st : db) (step : user * request) : db :=
  snd (handle (fst step) (snd step) st).

Definition empty_ledger : db :=
  {| vendors := [7%nat]; inactive_vendors := []; inward_bills := [];
     proposals := []; proposal_items := [];
     payments := []; payment_details := []; next_id := 1 |}.

Definition bill_a : new_bill :=
  {| nb_vendor_id := 7; nb_bill_number := "INV-A"; nb_invoice_date := 19723;
     nb_receiving_date := 19725; nb_amount := 10000; nb_credit_days := 30;
     nb_checked_by := "store"; nb_remarks := None; nb_bill_scan_url := None |}.

Definition bill_b : new_bill :=
  {| nb_vendor_id := 7; nb_bill_number := "INV-B"; nb_invoice_date := 19730;
     nb_receiving_date := 19731; nb_amount := 4000; nb_credit_days := 15;
     nb_checked_by := "store"; nb_remarks := None; nb_bill_scan_url := None |}.

Definition entry (item : uuid) (action : string) (amount : Z) : action_entry :=
  {| ae_item_id := item; ae_action := action; ae_amount := Some amount;
     ae_reason := None |}.

(** Bills 1 and 2 entered by the godown. *)
Definition ledger_entered : db :=
  fold_left run
    [ (godown_user, CreateInwardBill bill_a);
      (godown_user, CreateInwardBill bill_b) ]
    empty_ledger.

(** Proposal 4 (number 3) with items 5 and 6 for the two bills, a draft. *)
Definition ledger_draft : db :=
  run ledger_entered
    (purchase_user,
     CreateProposal 19760 None
       [ {| ni_bill_id := 1; ni_proposed_amount := 10000; ni_remarks := None |};
         {| ni_bill_id := 2; ni_proposed_amount := 4000; ni_remarks := None |} ]).

(** The proposal submitted and both items approved by accounts. *)
Definition ledger_reviewed : db :=
  fold_left run
    [ (purchase_user, SubmitProposal 4);
      (accounts_user,
       AccountsAction 4 (Some [entry 5 "approve" 9500; entry 6 "approve" 4000])) ]
    ledger_draft.

(** The owner defers item 6 in one request and approves item 5 in the next. *)
Definition ledger_two_requests : db :=
  fold_left run
    [ (owner_user, OwnerAction 4 (Some [entry 6 "defer" 4000]));
      (owner_user, OwnerAction 4 (Some [entry 5 "approve" 9500])) ]
    ledger_reviewed.

(** The owner approves item 5 at 9500 and rejects item 6. *)
Definition ledger_approved : db :=
  run ledger_reviewed
    (owner_user, OwnerAction 4 (Some [entry 5 "approve" 9500; entry 6 "reject" 0])).

(** The owner approves item 5 without an amount and rejects item 6. *)
Definition ledger_unpriced : db :=
  run ledger_reviewed
    (owner_user,
     OwnerAction 4
       (Some [ {| ae_item_id := 5; ae_action := "approve"; ae_amount := None;
                  ae_reason := None |};
               entry 6 "reject" 0 ])).

(** The payment batch: payment 8 (number 7) with the one detail 9. *)
Definition ledger_batched : db :=
  run ledger_approved (accounts_user, CreateFromProposal (Some 4%nat) (Some 50%nat)).

Definition utr_request : request :=
  UpdateUtr 8 (Some [ {| ue_detail_id := 9; ue_utr_number := Some "UTR0001" |} ]).

(** The UTR of detail 9 entered once, and entered a second time. *)
Definition ledger_settled : db := run ledger_batched (accounts_user, utr_request).
Definition ledger_settled_twice : db := run ledger_settled (accounts_user, utr_request).

(** The decision as the specification words it, read off all the items
    of proposal [id] in the table: [approved] if every decided item is
    approved and none is deferred, [partial_approved] if one is approved
    and one deferred, [rejected] if none is approved. *)
Definition decided_over_all_items (st : db) (id : uuid) (s : proposal_status) : Prop :=
  let items := select_where (fun i => Nat.eqb (pi_proposal_id i) id) (proposal_items st) in
  let approved := existsb (fun i => is_own_approved (pi_owner_status i)) items in
  let deferred := existsb (fun i => is_own_deferred (pi_owner_status i)) items in
  let all_decided_approved :=
    forallb (fun i => match pi_owner_status i with
                      | OwnPending | OwnApproved => true
                      | _ => false
                      end) items in
  (approved = true -> all_decided_approved = true -> deferred = false -> s = Approved)
  /\ (approved = true -> deferred = true -> s = PartialApproved)
  /\ (approved = false -> s = Rejected).

(** The request that sets [credit_days] to [n] and nothing else. *)
Definition only_credit_days (n : Z) : bill_updates :=
  {| bu_bill_number := None; bu_invoice_date := None; bu_receiving_date := None;
     bu_amount := None; bu_credit_days := Some n; bu_checked_by := None;
     bu_remarks := None; bu_bill_scan_url := None |}.

(** [m] relates the state it starts in to the state it ends in by [P]. *)
Definition tx_frame {A} (P : db -> db -> Prop) (m : tx A) : Prop :=
  forall st a st', m st = Done (a, st') -> P st st'.

(** The proposals table is left as it is. *)
Definition same_proposals (st st' : db) : Prop := proposals st' = proposals st.

(** The payment a batch inserts: the first fresh key is its number, the
    second its primary key. *)
Definition batch_payment (u : user) (proposal_id bank_account_id : uuid)
    (total : Z) (st : db) : payment :=
  {| pay_id := S (next_id st); pay_number := next_id st;
     pay_proposal_id := proposal_id; pay_total_amount := total;
     pay_bank_account_id := bank_account_id; pay_status := PayPending;
     pay_created_by := user_id u |}.

(** The entry and the detail row of the UTR request of the worked ledger. *)
Definition utr_entry_9 : utr_entry :=
  {| ue_detail_id := 9; ue_utr_number := Some "UTR0001" |}.

Definition detail_9 : payment_detail :=
  {| pd_id := 9; pd_payment_id := 8; pd_bill_id := 1;
     pd_proposal_item_id := Some 5%nat; pd_amount := 9500;
     pd_utr_number := None; pd_status := DetPending |}.

(** The keys of the bills in the [data] of an available-bills reply. *)
Definition available_ids (r : outcome (list available_row)) : list uuid :=
  match r with
  | Done rows => map ar_id rows
  | Thrown _ => []
  end.

(** ** Notions for the further properties *)

(** The last entry of a request that names item [id], if any. *)
Fixpoint last_entry (id : uuid) (items : list action_entry) : option action_entry :=
  match items with
  | [] => None
  | e :: rest =>
    match last_entry id rest with
    | Some e' => Some e'
    | None => if Nat.eqb id (ae_item_id e) then Some e else None
    end
  end.

(** What one entry of an accounts action writes into the item it names. *)
Definition accounts_set (u : user) (e : action_entry) : proposal_item -> proposal_item :=
  set_pi_accounts
    (if String.eqb (ae_action e) "approve" then AccApproved
     else if String.eqb (ae_action e) "hold" then AccHeld else AccPending)
    (ae_amount e) (ae_reason e) (user_id u)
    (if String.eqb (ae_action e) "approve" then AccountsApproved
     else if String.eqb (ae_action e) "hold" then AccountsHeld else Proposed).

(** What one entry of an owner action writes into the item it names: the
    owner track and status, and [carry_forward] on top for a deferral. *)
Definition owner_set (u : user) (e : action_entry) (i : proposal_item) : proposal_item :=
  let written :=
    set_pi_owner
      (if String.eqb (ae_action e) "approve" then OwnApproved
       else if String.eqb (ae_action e) "defer" then OwnDeferred else OwnRejected)
      (ae_amount e) (ae_reason e) (user_id u)
      (if String.eqb (ae_action e) "approve" then OwnerApproved
       else if String.eqb (ae_action e) "defer" then OwnerDeferred else OwnerRejected)
      i in
  if String.eqb (ae_action e) "defer" then set_pi_status CarryForward written
  else written.

(** An item after a whole request: written by the last entry naming it. *)
Definition written_by_last (set : action_entry -> proposal_item -> proposal_item)
    (items : list action_entry) (i : proposal_item) : proposal_item :=
  match last_entry (pi_id i) items with
  | Some e => set e i
  | None => i
  end.

Definition accounts_valid (e : action_entry) : bool :=
  includes ["approve"; "hold"; "reject"] (ae_action e).

(** A column after an update that may carry a value for it: the value
    given, or else the value it had. *)
Definition written {A} (given : option A) (before after : A) : Prop :=
  match given with
  | Some v => after = v
  | None => after = before
  end.

(** No item is [paid] that was not there, [paid], before. *)
Definition paid_items_kept (st st' : db) : Prop :=
  forall i, In i (proposal_items st') -> pi_status i = Paid ->
            In i (proposal_items st).

(** The bills table is left as it is. *)
Definition same_inward_bills (st st' : db) : Prop :=
  inward_bills st' = inward_bills st.

(** The condition on the due date that [filter] adds to the query, for
    the filters that add one. *)
Definition due_filter (today : Z) (filter : option string) (due : Z) : bool :=
  match filter with
  | Some "overdue" => due <? today
  | Some "due_today" => due =? today
  | Some "due_week" => (today <=? due) && (due <=? today + 7)
  | _ => true
  end.

(** Rows in the order of their due dates, earliest first. *)
Fixpoint due_sorted (l : list available_row) : Prop :=
  match l with
  | [] => True
  | r :: rest =>
    (forall x, In x rest -> ar_due_date r <= ar_due_date x) /\ due_sorted rest
  end.

(** The entry of the [details] of a UTR update that names detail [d], if
    any, and the details of the table that some entry names. *)
Definition entry_naming (details : list utr_entry) (d : payment_detail)
  : option utr_entry :=
  find (fun e => Nat.eqb (ue_detail_id e) (pd_id d)) details.

Definition named_details (details : list utr_entry) (ds : list payment_detail)
  : list payment_detail :=
  filter (fun d => existsb (fun e => Nat.eqb (ue_detail_id e) (pd_id d)) details) ds.

(** ** outward.routes.js: dispatches

    A row of [outward_bills] is the columns the ageing reads, kept in
    [outward_bill], and the dispatch columns beside them. The handlers
    below work on this table and on the keys and active flags of the
    customers. *)

Record outward_row := {
  or_bill : outward_bill;
  or_invoice_number : string;
  or_invoice_date : Z;
  or_credit_days : Z;
  or_dispatched_by : string;
  or_delivery_mode : option string;
  or_delivery_person : option string;
  or_courier_name : option string;
  or_tracking_number : option string;
  or_delivery_status : string;
  or_delivered_at : option Z;
  or_remarks : option string
}.

Record customer := { c_id : uuid; c_is_active : bool }.

Record outward_db := {
  outward_rows : list outward_row;
  customers : list customer
}.

Definition with_outward_rows (st : outward_db) (t : list outward_row) : outward_db :=
  {| outward_rows := t; customers := customers st |}.

Definition with_customers (st : outward_db) (t : list customer) : outward_db :=
  {| outward_rows := outward_rows st; customers := t |}.

Definition or_id (r : outward_row) : uuid := ob_id (or_bill r).

(** [ORDER BY key ASC] *)
Fixpoint insert_by_key {R} (key : R -> Z) (r : R) (l : list R) : list R :=
  match l with
  | [] => [r]
  | x :: l' => if key r <? key x then r :: l else x :: insert_by_key key r l'
  end.

Definition order_by_key {R} (key : R -> Z) (l : list R) : list R :=
  fold_right (insert_by_key key) [] l.

(** [authorize(...)] in front of a handler of the dispatch tables. *)
Definition allowed (allowedRoles : list role) (u : user) : bool :=
  existsb (role_eqb (user_role u)) allowedRoles.

(** A row of [GET /api/outward/overdue]: the bill of the row and
    [CURRENT_DATE - ob.due_date as days_overdue] (the customer's code and
    name and the dispatcher's name are left out). *)
Record overdue_row := {
  ov_row : outward_row;
  ov_days_overdue : Z
}.

(** The [whereClause] of the overdue list, from [days]. *)
Definition overdue_where (today days : Z) (r : outward_row) : bool :=
  let due := ob_due_date (or_bill r) in
  let base := (due <? today) && receivable_open (or_bill r) in
  if days =? 15 then base && (today - 15 <=? due)
  else if days =? 21 then base && (due <? today - 15) && (today - 21 <=? due)
  else if days =? 30 then base && (due <? today - 21) && (today - 30 <=? due)
  else if 30 <? days then base && (due <? today - 30)
  else base.

(** [GET /api/outward/overdue]; [days] is [parseInt(req.query.days) || 0]. *)
Definition overdue (st : outward_db) (today days : Z) : list overdue_row :=
  order_by_key (fun o => ob_due_date (or_bill (ov_row o)))
    (flat_map (fun r =>
         map (fun _ => {| ov_row := r;
                          ov_days_overdue := today - ob_due_date (or_bill r) |})
             (select_where (fun c => Nat.eqb (ob_customer_id (or_bill r)) (c_id c))
                (customers st)))
       (select_where (overdue_where today days) (outward_rows st))).

(** [SET status = 'cancelled'] *)
Definition set_ob_status (s : string) (b : outward_bill) : outward_bill :=
  {| ob_id := ob_id b; ob_customer_id := ob_customer_id b; ob_amount := ob_amount b;
     ob_collected_amount := ob_collected_amount b; ob_due_date := ob_due_date b;
     ob_status := s |}.

Definition set_or_bill (b : outward_bill) (r : outward_row) : outward_row :=
  {| or_bill := b; or_invoice_number := or_invoice_number r;
     or_invoice_date := or_invoice_date r; or_credit_days := or_credit_days r;
     or_dispatched_by := or_dispatched_by r; or_delivery_mode := or_delivery_mode r;
     or_delivery_person := or_delivery_person r; or_courier_name := or_courier_name r;
     or_tracking_number := or_tracking_number r;
     or_delivery_status := or_delivery_status r;
     or_delivered_at := or_delivered_at r; or_remarks := or_remarks r |}.

(** [DELETE /api/outward/:id] *)
Definition cancel_outward_bill (u : user) (id : uuid) (reason : option string)
    (st : outward_db) : reply * outward_db :=
  if negb (allowed [Owner] u) then (Json 403 "Access denied", st)
  else if negb (truthy_string reason)
  then (Json 400 "Cancellation reason is required", st)
  else
    match select_where (fun r => Nat.eqb (or_id r) id) (outward_rows st) with
    | [] => (Json 404 "Bill not found", st)
    | existing :: _ =>
      if 0 <? ob_collected_amount (or_bill existing)
      then (Json 400 "Cannot cancel bill with collections", st)
      else
        (Json 200 "Bill cancelled",
         with_outward_rows st
           (update_where (fun r => Nat.eqb (or_id r) id)
              (fun r => set_or_bill (set_ob_status "cancelled" (or_bill r)) r)
              (outward_rows st)))
    end.

(** [req.body] of [PUT /api/outward/:id]: the ten allowed fields, each
    present or [undefined]; the nullable ones may be given [null]. *)
Record outward_updates := {
  ou_invoice_number : option string;
  ou_invoice_date : option Z;
  ou_amount : option Z;
  ou_credit_days : option Z;
  ou_dispatched_by : option string;
  ou_delivery_mode : option (option string);
  ou_delivery_person : option (option string);
  ou_courier_name : option (option string);
  ou_tracking_number : option (option string);
  ou_remarks : option (option string)
}.

Definition set_ob_amount (a : Z) (b : outward_bill) : outward_bill :=
  {| ob_id := ob_id b; ob_customer_id := ob_customer_id b; ob_amount := a;
     ob_collected_amount := ob_collected_amount b; ob_due_date := ob_due_date b;
     ob_status := ob_status b |}.

(** The [SET] clauses of the update of a dispatch. *)
Definition set_or_fields (updates : outward_updates) (r : outward_row) : outward_row :=
  {| or_bill := set_ob_amount (nullish (ou_amount updates) (ob_amount (or_bill r)))
                  (or_bill r);
     or_invoice_number := nullish (ou_invoice_number updates) (or_invoice_number r);
     or_invoice_date := nullish (ou_invoice_date updates) (or_invoice_date r);
     or_credit_days := nullish (ou_credit_days updates) (or_credit_days r);
     or_dispatched_by := nullish (ou_dispatched_by updates) (or_dispatched_by r);
     or_delivery_mode := nullish (ou_delivery_mode updates) (or_delivery_mode r);
     or_delivery_person := nullish (ou_delivery_person updates) (or_delivery_person r);
     or_courier_name := nullish (ou_courier_name updates) (or_courier_name r);
     or_tracking_number := nullish (ou_tracking_number updates) (or_tracking_number r);
     or_delivery_status := or_delivery_status r;
     or_delivered_at := or_delivered_at r;
     or_remarks := nullish (ou_remarks updates) (or_remarks r) |}.

Definition no_outward_set_clause (updates : outward_updates) : bool :=
  negb (is_some (ou_invoice_number updates) || is_some (ou_invoice_date updates)
        || is_some (ou_amount updates) || is_some (ou_credit_days updates)
        || is_some (ou_dispatched_by updates) || is_some (ou_delivery_mode updates)
        || is_some (ou_delivery_person updates) || is_some (ou_courier_name updates)
        || is_some (ou_tracking_number updates) || is_some (ou_remarks updates)).

(** [PUT /api/outward/:id] *)
Definition update_outward_bill (u : user) (id : uuid) (updates : outward_updates)
    (st : outward_db) : reply * outward_db :=
  if negb (allowed [Owner] u) then (Json 403 "Access denied", st)
  else if no_outward_set_clause updates
  then (Json 400 "No valid fields to update", st)
  else
    let w r := Nat.eqb (or_id r) id
               && negb (String.eqb (ob_status (or_bill r)) "cancelled") in
    let rows := select_where w (outward_rows st) in
    let st' := with_outward_rows st (update_where w (set_or_fields updates)
                                       (outward_rows st)) in
    if Nat.eqb (List.length rows) 0
    then (Json 404 "Bill not found or cancelled", st')
    else (Json 200 "Bill updated", st').

(** [req.body] of [PATCH /api/outward/:id/delivery-status];
    [du_delivered_at] is [None] for a value that is not truthy. *)
Record delivery_update := {
  du_delivery_status : string;
  du_tracking_number : option (option string);
  du_delivery_person : option (option string);
  du_delivered_at : option Z
}.

Definition validStatuses : list string :=
  ["pending"; "dispatched"; "in_transit"; "delivered"; "returned"].

(** The [updates] of the delivery-status handler; [now] is [new Date()]. *)
Definition set_or_delivery (now : Z) (d : delivery_update) (r : outward_row)
  : outward_row :=
  {| or_bill := or_bill r; or_invoice_number := or_invoice_number r;
     or_invoice_date := or_invoice_date r; or_credit_days := or_credit_days r;
     or_dispatched_by := or_dispatched_by r; or_delivery_mode := or_delivery_mode r;
     or_delivery_person := nullish (du_delivery_person d) (or_delivery_person r);
     or_courier_name := or_courier_name r;
     or_tracking_number := nullish (du_tracking_number d) (or_tracking_number r);
     or_delivery_status := du_delivery_status d;
     or_delivered_at :=
       if String.eqb (du_delivery_status d) "delivered"
       then Some (nullish (du_delivered_at d) now)
       else or_delivered_at r;
     or_remarks := or_remarks r |}.

(** [PATCH /api/outward/:id/delivery-status] *)
Definition update_delivery_status (u : user) (now : Z) (id : uuid)
    (d : delivery_update) (st : outward_db) : reply * outward_db :=
  if negb (allowed [Godown; Owner] u) then (Json 403 "Access denied", st)
  else if negb (includes validStatuses (du_delivery_status d))
  then (Json 400 "Invalid delivery status", st)
  else
    let w r := Nat.eqb (or_id r) id in
    let rows := select_where w (outward_rows st) in
    let st' := with_outward_rows st (update_where w (set_or_delivery now d)
                                       (outward_rows st)) in
    if Nat.eqb (List.length rows) 0
    then (Json 404 "Bill not found", st')
    else (Json 200 "Delivery status updated", st').

(** [DELETE /api/customers/:id]: deactivation, refused while the customer
    has a bill that is neither cancelled nor paid. *)
Definition deactivate_customer (u : user) (id : uuid) (st : outward_db)
  : reply * outward_db :=
  if negb (allowed [Owner] u) then (Json 403 "Access denied", st)
  else if Nat.ltb 0
            (count_where (fun r => Nat.eqb (ob_customer_id (or_bill r)) id
                                   && receivable_open (or_bill r))
               (outward_rows st))
  then (Json 400 "Cannot delete customer with outstanding bills", st)
  else
    let w c := Nat.eqb (c_id c) id in
    let rows := select_where w (customers st) in
    let st' := with_customers st
                 (update_where w (fun c => {| c_id := c_id c; c_is_active := false |})
                    (customers st)) in
    if Nat.eqb (List.length rows) 0
    then (Json 404 "Customer not found", st')
    else (Json 200 "Customer deactivated", st').

(** Rows in the order of a key, lowest first. *)
Fixpoint sorted_by {R} (key : R -> Z) (l : list R) : Prop :=
  match l with
  | [] => True
  | r :: rest => (forall x, In x rest -> key r <= key x) /\ sorted_by key rest
  end.

(** ** Payables ageing: the summary totals (dashboard.routes.js) *)

(** [summary.rows[0]] of [GET /api/reports/payables-ageing]. *)
Record payables_summary := {
  current_total : Z;
  days_1_30_total : Z;
  days_31_60_total : Z;
  days_61_90_total : Z;
  days_90_plus_total : Z;
  grand_total : Z
}.

(** [WHERE status = 'active' AND payment_status != 'paid'] *)
Definition payable (ib : inward_bill) : bool :=
  is_active (ib_status ib) && negb (is_bill_paid (ib_payment_status ib)).

Definition payable_amount (ib : inward_bill) : Z := ib_amount ib - ib_paid_amount ib.

(** [COALESCE(SUM(CASE WHEN c THEN amount - paid_amount ELSE 0 END), 0)] *)
Definition sum_payable (c : Z -> bool) (rows : list inward_bill) : Z :=
  sum_of (fun ib => if c (ib_due_date ib) then payable_amount ib else 0) rows.

(** The second query of [GET /api/reports/payables-ageing]. *)
Definition payables_ageing_summary (today : Z) (bills : list inward_bill)
  : payables_summary :=
  let rows := select_where payable bills in
  {| current_total := sum_payable (fun due => today <=? due) rows;
     days_1_30_total :=
       sum_payable (fun due => (due <? today) && (today - 30 <=? due)) rows;
     days_31_60_total :=
       sum_payable (fun due => (due <? today - 30) && (today - 60 <=? due)) rows;
     days_61_90_total :=
       sum_payable (fun due => (due <? today - 60) && (today - 90 <=? due)) rows;
     days_90_plus_total := sum_payable (fun due => due <? today - 90) rows;
     grand_total := sum_of payable_amount rows |}.

(** ** Rows and requests the further properties are run on *)

(** Bill 1 of the worked ledger as the godown entered it. *)
Definition bill_1 : inward_bill :=
  {| ib_id := 1; ib_vendor_id := 7; ib_bill_number := "INV-A";
     ib_invoice_date := 19723; ib_receiving_date := 19725; ib_amount := 10000;
     ib_paid_amount := 0; ib_credit_days := 30; ib_due_date := 19753;
     ib_checked_by := "store"; ib_remarks := None; ib_bill_scan_url := None;
     ib_status := Active; ib_payment_status := BillOpen; ib_version := 1;
     ib_created_by := 904; ib_cancelled_by := None; ib_cancel_reason := None |}.

(** Item 5 of the worked ledger once its UTR is entered. *)
Definition item_5_paid : proposal_item :=
  {| pi_id := 5; pi_proposal_id := 4; pi_bill_id := 1; pi_proposed_amount := 10000;
     pi_urgency_remarks := None;
     pi_accounts_status := AccApproved; pi_accounts_amount := Some 9500;
     pi_accounts_reason := None; pi_accounts_by := Some 903%nat;
     pi_owner_status := OwnApproved; pi_owner_amount := Some 9500;
     pi_owner_reason := None; pi_owner_by := Some 901%nat;
     pi_status := Paid |}.

(** The two items of the proposal of the worked ledger. *)
Definition two_items : list new_item :=
  [ {| ni_bill_id := 1; ni_proposed_amount := 10000; ni_remarks := None |};
    {| ni_bill_id := 2; ni_proposed_amount := 4000; ni_remarks := None |} ].

(** A dispatch of customer 31, invoiced on day 19740 with 30 credit days. *)
Definition dispatch (id : uuid) (amount collected due : Z) (status : string)
  : outward_row :=
  {| or_bill := {| ob_id := id; ob_customer_id := 31; ob_amount := amount;
                   ob_collected_amount := collected; ob_due_date := due;
                   ob_status := status |};
     or_invoice_number := "S-1"; or_invoice_date := 19740; or_credit_days := 30;
     or_dispatched_by := "godown"; or_delivery_mode := None;
     or_delivery_person := None; or_courier_name := None;
     or_tracking_number := None; or_delivery_status := "pending";
     or_delivered_at := None; or_remarks := None |}.

(** Three dispatches of customer 31: 41 and 42 open, 43 cancelled. *)
Definition dispatches : outward_db :=
  {| outward_rows := [ dispatch 41 6000 1000 19790 "pending";
                       dispatch 42 2500 0 19770 "pending";
                       dispatch 43 900 0 19760 "cancelled" ];
     customers := [ {| c_id := 31; c_is_active := true |};
                    {| c_id := 32; c_is_active := true |} ] |}.

(** The request that sets [credit_days] of a dispatch and nothing else. *)
Definition only_outward_credit_days (n : Z) : outward_updates :=
  {| ou_invoice_number := None; ou_invoice_date := None; ou_amount := None;
     ou_credit_days := Some n; ou_dispatched_by := None; ou_delivery_mode := None;
     ou_delivery_person := None; ou_courier_name := None;
     ou_tracking_number := None; ou_remarks := None |}.

(** The request that marks a dispatch delivered, without a time. *)
Definition delivered_now : delivery_update :=
  {| du_delivery_status := "delivered"; du_tracking_number := None;
     du_delivery_person := None; du_delivered_at := None |}.

(** The rows of an available-bills reply. *)
Definition available_rows (r : outcome (list available_row)) : list available_row :=
  match r with
  | Done rows => rows
  | Thrown _ => []
  end.

(** * Properties *)

(** Closed statements about the worked ledger are settled by evaluation. *)
Ltac by_evaluation :=
  repeat match goal with |- _ /\ _ => split end; vm_compute; reflexivity.

(** ** Receivables ageing *)

Ltac cmp_cases :=
  repeat match goal with
         | |- context [?a <? ?b] => destruct (Z.ltb_spec a b)
         | |- context [?a <=? ?b] => destruct (Z.leb_spec a b)
         | H : context [?a <? ?b] |- _ => destruct (Z.ltb_spec a b)
         | H : context [?a <=? ?b] |- _ => destruct (Z.leb_spec a b)
         end.

Lemma bucket_unique (today due : Z) :
  exists k, in_bucket k today due = true
            /\ forall k', in_bucket k' today due = true -> k' = k.
Proof.
  assert (C : today <= due \/ (due < today /\ today - 15 <= due)
              \/ (due < today - 15 /\ today - 21 <= due)
              \/ (due < today - 21 /\ today - 30 <= due)
              \/ due < today - 30) by lia.
  destruct C as [C | [C | [C | [C | C]]]];
    [exists Current | exists Days1to15 | exists Days16to21
     | exists Days22to30 | exists Days30plus];
    (split;
     [ cbn; unfold in_current, in_1_15, in_16_21, in_22_30, in_30_plus;
       cmp_cases; simpl; try reflexivity; lia
     | intros k'; destruct k'; cbn;
       unfold in_current, in_1_15, in_16_21, in_22_30, in_30_plus;
       cmp_cases; simpl; intros E; try reflexivity; try discriminate; lia ]).
Qed.

Lemma case_amounts_add_up (today : Z) (b : outward_bill) :
  sum_of (fun k => if in_bucket k today (ob_due_date b) then outstanding b else 0)
    all_buckets = outstanding b.
Proof.
  cbn. unfold in_current, in_1_15, in_16_21, in_22_30, in_30_plus.
  cmp_cases; simpl; lia.
Qed.

Lemma sum_case_select (c : Z -> bool) (rows : list outward_bill) :
  sum_case c rows = sum_of outstanding (select_where (fun b => c (ob_due_date b)) rows).
Proof.
  unfold sum_case, select_where.
  induction rows as [| b rows IH]; simpl; [reflexivity |].
  destruct (c (ob_due_date b)); simpl; lia.
Qed.

Lemma sum_cases_total (today : Z) (rows : list outward_bill) :
  sum_of (fun k => sum_case (in_bucket k today) rows) all_buckets
  = sum_of outstanding rows.
Proof.
  induction rows as [| b rows IH].
  - reflexivity.
  - pose proof (case_amounts_add_up today b) as E.
    unfold all_buckets, sum_case, sum_of in *. simpl in *. lia.
Qed.

Lemma ageing_amount_sum_case (today : Z) (bills : list outward_bill) (k : bucket) :
  ageing_amount (receivables_ageing today bills) k
  = sum_case (in_bucket k today) (select_where receivable_open bills).
Proof. destruct k; reflexivity. Qed.

Lemma customer_amount_sum_case (today : Z) (id : uuid) (bills : list outward_bill)
    (k : bucket) :
  customer_amount (customer_receivables_ageing today id bills) k
  = sum_case (in_bucket k today)
      (select_where (fun b => Nat.eqb (ob_customer_id b) id && receivable_open b) bills).
Proof. destruct k; reflexivity. Qed.

(** C8. Receivables ageing: every due date lies in exactly one of the
    buckets current, 1-15, 16-21, 22-30 and 30+; both ageing replies put
    into a bucket the outstanding amounts of exactly the bills that are
    neither cancelled nor paid and whose due date lies in it; the upper
    end of a bucket is inclusive (today-15 is in 1-15, today-16 and
    today-21 in 16-21, today-22 and today-30 in 22-30, today-31 in 30+);
    and the five amounts add up to the total outstanding. *)
Theorem receivables_ageing_buckets
    (today : Z) (id : uuid) (outward_bills : list outward_bill) :
  let rows := select_where receivable_open outward_bills in
  let customer_rows :=
    select_where (fun b => Nat.eqb (ob_customer_id b) id && receivable_open b)
      outward_bills in
  (forall due, exists k, in_bucket k today due = true
                         /\ forall k', in_bucket k' today due = true -> k' = k)
  /\ (forall k,
        ageing_amount (receivables_ageing today outward_bills) k
        = sum_of outstanding
            (select_where (fun b => in_bucket k today (ob_due_date b)) rows)
        /\ customer_amount (customer_receivables_ageing today id outward_bills) k
           = sum_of outstanding
               (select_where (fun b => in_bucket k today (ob_due_date b)) customer_rows))
  /\ (in_bucket Current today today = true
      /\ in_bucket Days1to15 today (today - 1) = true
      /\ in_bucket Days1to15 today (today - 15) = true
      /\ in_bucket Days16to21 today (today - 16) = true
      /\ in_bucket Days16to21 today (today - 21) = true
      /\ in_bucket Days22to30 today (today - 22) = true
      /\ in_bucket Days22to30 today (today - 30) = true
      /\ in_bucket Days30plus today (today - 31) = true)
  /\ sum_of (ageing_amount (receivables_ageing today outward_bills)) all_buckets
     = sum_of outstanding rows
  /\ sum_of (customer_amount (customer_receivables_ageing today id outward_bills))
       all_buckets
     = sum_of outstanding customer_rows.
Proof.
  intros rows customer_rows. split; [| split; [| split; [| split]]].
  - intros due. apply bucket_unique.
  - intros k. rewrite ageing_amount_sum_case, customer_amount_sum_case.
    split; apply sum_case_select.
  - cbn. unfold in_current, in_1_15, in_16_21, in_22_30, in_30_plus.
    repeat split; cmp_cases; simpl; try reflexivity; lia.
  - rewrite <- (sum_cases_total today rows). reflexivity.
  - rewrite <- (sum_cases_total today customer_rows). reflexivity.
Qed.

(** ** The owner action *)

(** The loop of the owner action ends with the two flags telling whether
    the request holds an approval and whether it holds a deferral; it
    writes to [proposal_items] only. *)
Lemma owner_loop_flags (u : user) (items : list action_entry) :
  forall (hA hD : bool) (st : db),
    forallb owner_valid items = true ->
    exists st',
      owner_loop u items hA hD st
      = Done ((hA || existsb is_approve items, hD || existsb is_defer items), st')
      /\ proposals st' = proposals st
      /\ inward_bills st' = inward_bills st
      /\ payments st' = payments st
      /\ payment_details st' = payment_details st.
Proof.
  induction items as [| item rest IH]; intros hA hD st V.
  - exists st. simpl. unfold tx_ret. rewrite !orb_false_r. auto.
  - simpl in V. apply andb_true_iff in V as [V1 V2].
    unfold owner_valid in V1. cbn [owner_loop]. rewrite V1. cbn [negb].
    unfold tx_bind at 1. unfold exec at 1.
    unfold tx_bind at 1.
    destruct (String.eqb (ae_action item) "defer") eqn:Ed;
      [unfold exec at 1 | unfold tx_ret at 1];
      match goal with
      | |- context [owner_loop u rest ?a ?d ?s] =>
        destruct (IH a d s V2) as (st' & E & P1 & P2 & P3 & P4)
      end;
      exists st'; rewrite E; unfold is_approve, is_defer; simpl; rewrite Ed;
      (split; [| auto]);
      destruct (String.eqb (ae_action item) "approve"), hA, hD;
      simpl; rewrite ?orb_true_r; reflexivity.
Qed.

(** An invalid action anywhere in the request throws. *)
Lemma owner_loop_throws (u : user) (items : list action_entry) :
  forall (hA hD : bool) (st : db),
    forallb owner_valid items = false ->
    exists e, owner_loop u items hA hD st = Thrown e.
Proof.
  induction items as [| item rest IH]; intros hA hD st V.
  - discriminate.
  - simpl in V. cbn [owner_loop].
    destruct (owner_valid item) eqn:V1; unfold owner_valid in V1; rewrite V1;
      cbn [negb andb] in *.
    + unfold tx_bind at 1. unfold exec at 1. unfold tx_bind at 1.
      destruct (String.eqb (ae_action item) "defer");
        [unfold exec at 1 | unfold tx_ret at 1];
        match goal with
        | |- context [owner_loop u rest ?a ?d ?s] =>
          destruct (IH a d s V) as (e & E)
        end; exists e; rewrite E; reflexivity.
    + eexists. reflexivity.
Qed.

Lemma owner_newStatus_decision (items : list action_entry) :
  owner_newStatus (existsb is_approve items) (existsb is_defer items)
  = owner_decision items.
Proof.
  unfold owner_newStatus, owner_decision.
  destruct (existsb is_approve items), (existsb is_defer items); reflexivity.
Qed.

(** C4, as the handler has it. An owner's request whose actions are all
    among approve, defer and reject is answered with 200 and sets the status
    of the proposal from the entries of the request, whichever items they
    name: [approved] when some entry approves and none defers,
    [partial_approved] when some entry approves and some entry defers,
    [rejected] when no entry approves (also when the request is empty or
    only defers). No other table row of the proposal is consulted. *)
Theorem owner_action_status
    (u : user) (id : uuid) (items : list action_entry) (st : db) :
  user_role u = Owner ->
  forallb owner_valid items = true ->
  fst (owner_action u id (Some items) st) = Json 200 "Owner approval processed"
  /\ proposals (snd (owner_action u id (Some items) st))
     = update_where (fun p => Nat.eqb (p_id p) id)
         (set_p_status (owner_decision items)) (proposals st)
  /\ (owner_decision items = Approved
      <-> existsb is_approve items = true /\ existsb is_defer items = false)
  /\ (owner_decision items = PartialApproved
      <-> existsb is_approve items = true /\ existsb is_defer items = true)
  /\ (owner_decision items = Rejected <-> existsb is_approve items = false).
Proof.
  intros R V. unfold owner_action, authorize. rewrite R. simpl existsb.
  cbv iota. unfold transaction, tx_bind.
  destruct (owner_loop_flags u items false false st V) as (st' & E & P & _).
  rewrite E. simpl. rewrite owner_newStatus_decision, P.
  split; [reflexivity | split; [reflexivity |]].
  unfold owner_decision.
  destruct (existsb is_approve items), (existsb is_defer items);
    repeat split; intros; try discriminate; try reflexivity;
    try (destruct H; discriminate).
Qed.

(** On the worked ledger: item 5 approved and item 6 deferred in one request. *)
Lemma owner_action_status_witness :
  user_role owner_user = Owner
  /\ forallb owner_valid [entry 5 "approve" 9500; entry 6 "defer" 4000] = true
  /\ proposals
       (snd (owner_action owner_user 4
               (Some [entry 5 "approve" 9500; entry 6 "defer" 4000]) ledger_reviewed))
     = update_where (fun p => Nat.eqb (p_id p) 4) (set_p_status PartialApproved)
         (proposals ledger_reviewed).
Proof.
  split; [reflexivity | split; [vm_compute; reflexivity |]].
  apply (owner_action_status owner_user 4
           [entry 5 "approve" 9500; entry 6 "defer" 4000] ledger_reviewed);
    reflexivity.
Defined.

(** C4 as stated fails: after the owner has deferred item 6 in one
    request and approved item 5 in the next, the proposal is [approved],
    although among all its items one is approved and one is deferred. *)
Lemma owner_action_not_over_all_items :
  In 4%nat (map p_id (proposals ledger_two_requests))
  /\ ~ (forall p, In p (proposals ledger_two_requests) -> p_id p = 4%nat ->
          decided_over_all_items ledger_two_requests 4 (p_status p)).
Proof.
  split; [vm_compute; auto |].
  intros H.
  assert (I : In {| p_id := 4; p_number := 3; p_payment_date := 19760;
                    p_total_amount := 14000; p_remarks := None;
                    p_status := Approved; p_created_by := 902 |}
                (proposals ledger_two_requests))
    by (vm_compute; auto).
  specialize (H _ I eq_refl).
  unfold decided_over_all_items in H. cbv zeta in H.
  destruct H as (_ & P & _).
  assert (X := P ltac:(vm_compute; reflexivity) ltac:(vm_compute; reflexivity)).
  discriminate X.
Qed.

(** ** Submitting and deleting a proposal *)

Lemma select_where_nonempty {R} (w : R -> bool) (t : list R) :
  Nat.eqb (List.length (select_where w t)) 0 = false
  <-> exists r, In r t /\ w r = true.
Proof.
  unfold select_where. split.
  - destruct (filter w t) as [| r l] eqn:E; [discriminate |].
    intros _. exists r. apply filter_In. rewrite E. left. reflexivity.
  - intros (r & I & W).
    destruct (filter w t) as [| r' l] eqn:E; [| reflexivity].
    assert (X : In r (filter w t)) by (apply filter_In; auto).
    rewrite E in X. destruct X.
Qed.

(** What the submit handler does, for every caller: it answers 200
    exactly when the caller has the purchase or the owner role and the
    proposal is a draft that the caller created; every such row becomes
    [submitted] and no other row changes. *)
Lemma submit_proposal_spec (u : user) (id : uuid) (st : db) :
  (fst (submit_proposal u id st) = Json 200 "Proposal submitted"
   <-> (user_role u = Purchase \/ user_role u = Owner)
       /\ exists p, In p (proposals st) /\ p_id p = id /\ p_status p = Draft
                    /\ p_created_by p = user_id u)
  /\ (reply_code (fst (submit_proposal u id st)) <> 200%nat ->
      snd (submit_proposal u id st) = st).
Proof.
  unfold submit_proposal, authorize.
  set (w := fun p => Nat.eqb (p_id p) id && is_draft (p_status p)
                     && Nat.eqb (p_created_by p) (user_id u)).
  assert (W : forall p, w p = true
                        <-> p_id p = id /\ p_status p = Draft
                            /\ p_created_by p = user_id u).
  { intros p. unfold w. rewrite !andb_true_iff, !Nat.eqb_eq.
    destruct (p_status p); simpl; intuition discriminate. }
  destruct (existsb (role_eqb (user_role u)) [Purchase; Owner]) eqn:A.
  - destruct (Nat.eqb (List.length (select_where w (proposals st))) 0) eqn:L; simpl.
    + split.
      * split; [discriminate |]. intros (_ & p & I & H).
        assert (X : Nat.eqb (List.length (select_where w (proposals st))) 0 = false).
        { apply select_where_nonempty. exists p. split; [exact I |]. apply W. exact H. }
        congruence.
      * intros _. destruct st; unfold with_proposals; simpl. f_equal.
        unfold update_where. rewrite <- (map_id proposals0) at 2.
        apply map_ext_in. intros p I. destruct (w p) eqn:Wp; [| reflexivity].
        exfalso.
        assert (X : Nat.eqb (List.length (select_where w proposals0)) 0 = false).
        { apply select_where_nonempty. exists p. auto. }
        simpl in L. congruence.
    + split; [| intros N; exfalso; apply N; reflexivity].
      split; [intros _ | reflexivity].
      split.
      * destruct (user_role u); simpl in A; try discriminate; auto.
      * apply select_where_nonempty in L. destruct L as (p & I & Wp).
        exists p. split; [exact I |]. apply W. exact Wp.
  - simpl. split; [| reflexivity].
    split; [discriminate |].
    intros ([R | R] & _); rewrite R in A; discriminate.
Qed.

(** C10. An owner who did not create the proposal cannot submit it: the
    draft proposal 4 was created by the purchase user 902, the owner 901
    passes [authorize('purchase', 'owner')], and the statement, which
    asks for [created_by = $2] without the exception for the owner that
    the delete handler makes, changes no row: the answer is 400 and the
    proposal stays a draft. *)
Theorem submit_by_owner_not_creator_refused :
  user_role owner_user = Owner
  /\ map (fun p => (p_id p, p_status p, p_created_by p)) (proposals ledger_draft)
     = [(4%nat, Draft, 902%nat)]
  /\ handle owner_user (SubmitProposal 4) ledger_draft
     = (Json 400 "Cannot submit this proposal", ledger_draft)
  /\ fst (handle purchase_user (SubmitProposal 4) ledger_draft)
     = Json 200 "Proposal submitted".
Proof. by_evaluation. Qed.

(** The statements of the delete handler: the items of the proposal are
    deleted whatever the second statement finds, and no error undoes it. *)
Lemma delete_proposal_items (u : user) (id : uuid) (st : db) :
  (user_role u = Purchase \/ user_role u = Owner) ->
  proposal_items (snd (delete_proposal u id st))
  = delete_where (fun i => Nat.eqb (pi_proposal_id i) id) (proposal_items st).
Proof.
  intros R. unfold delete_proposal, authorize.
  assert (A : existsb (role_eqb (user_role u)) [Purchase; Owner] = true)
    by (destruct R as [R | R]; rewrite R; reflexivity).
  rewrite A. unfold transaction, tx_bind, exec, ask, tx_ret. simpl.
  destruct (hd_error _); reflexivity.
Qed.

(** C9. A refused deletion still deletes the items: proposal 4 is under
    review, the owner's request to delete it is answered with 400 and the
    proposal row stays, but its two items are gone, because they are
    deleted before the guarded deletion of the proposal and the
    transaction commits. *)
Theorem delete_refused_items_lost :
  map (fun p => (p_id p, p_status p)) (proposals ledger_reviewed)
  = [(4%nat, UnderReview)]
  /\ map (fun i => (pi_id i, pi_proposal_id i)) (proposal_items ledger_reviewed)
     = [(5%nat, 4%nat); (6%nat, 4%nat)]
  /\ fst (handle owner_user (DeleteProposal 4) ledger_reviewed)
     = Json 400 "Cannot delete this proposal"
  /\ proposals (snd (handle owner_user (DeleteProposal 4) ledger_reviewed))
     = proposals ledger_reviewed
  /\ proposal_items (snd (handle owner_user (DeleteProposal 4) ledger_reviewed)) = [].
Proof. by_evaluation. Qed.

(** ** Due dates of inward bills *)

(** Creation: an accepted bill is stored with
    [due_date = invoice_date + credit_days]. *)
Lemma create_inward_bill_due (u : user) (b : new_bill) (st : db) :
  reply_code (fst (create_inward_bill u b st)) = 201%nat ->
  exists row,
    inward_bills (snd (create_inward_bill u b st)) = inward_bills st ++ [row]
    /\ ib_invoice_date row = nb_invoice_date b
    /\ ib_credit_days row = nb_credit_days b
    /\ ib_due_date row = nb_invoice_date b + nb_credit_days b.
Proof.
  unfold create_inward_bill, authorize.
  destruct (existsb _ _); [| discriminate].
  destruct (negb (valid_createInwardBill b)); [discriminate |].
  cbn [sanitized_createInwardBill nb_invoice_date nb_credit_days].
  unfold dueDate.
  destruct (date_in_range _ && date_in_range _); [| discriminate].
  unfold insert_inward_bill. cbn [nb_vendor_id].
  destruct (vendor_referable _ _); [| discriminate].
  intros _. simpl. eexists. split; [reflexivity |]. simpl. auto.
Qed.

(** Update: when the request carries an invoice date, or credit days
    other than 0, the due date written is the effective invoice date plus
    the effective credit days. *)
Lemma update_recalculates_due (updates : bill_updates) (existing : inward_bill)
    (due : option Z) :
  is_some (bu_invoice_date updates) = true
  \/ (exists n, bu_credit_days updates = Some n /\ n <> 0) ->
  recalculated_due updates existing = Done due ->
  let row := set_ib_fields updates due existing in
  ib_due_date row = ib_invoice_date row + ib_credit_days row.
Proof.
  intros H. unfold recalculated_due.
  assert (T : is_some (bu_invoice_date updates)
              || truthy_number (bu_credit_days updates) = true).
  { destruct H as [H | (n & E & N)].
    - rewrite H. reflexivity.
    - rewrite E. simpl. apply orb_true_iff. right.
      apply negb_true_iff. apply Z.eqb_neq. exact N. }
  rewrite T. unfold dueDate.
  destruct (date_in_range _ && date_in_range _); [| discriminate].
  intros E. inversion E. reflexivity.
Qed.

(** C7. Setting [credit_days] to 0 leaves the due date behind: bill 1 has
    invoice date 19723 (2024-01-01), 30 credit days and due date 19753;
    the owner's update [{credit_days: 0}] is accepted and stores
    [credit_days = 0], but [if (updates.invoice_date || updates.credit_days)]
    is false for 0, so the due date stays 19753 and is not 19723 + 0. The
    same request with 45 recalculates it. *)
Theorem update_credit_days_zero_keeps_due :
  map (fun b => (ib_id b, ib_invoice_date b, ib_credit_days b, ib_due_date b))
      (inward_bills ledger_draft)
  = [(1%nat, 19723, 30, 19753); (2%nat, 19730, 15, 19745)]
  /\ fst (handle owner_user (UpdateInwardBill 1 (only_credit_days 0)) ledger_draft)
     = Json 200 "Bill updated successfully"
  /\ map (fun b => (ib_id b, ib_invoice_date b, ib_credit_days b, ib_due_date b))
         (inward_bills
            (snd (handle owner_user (UpdateInwardBill 1 (only_credit_days 0))
                    ledger_draft)))
     = [(1%nat, 19723, 0, 19753); (2%nat, 19730, 15, 19745)]
  /\ map (fun b => (ib_id b, ib_invoice_date b, ib_credit_days b, ib_due_date b))
         (inward_bills
            (snd (handle owner_user (UpdateInwardBill 1 (only_credit_days 45))
                    ledger_draft)))
     = [(1%nat, 19723, 45, 19768); (2%nat, 19730, 15, 19745)].
Proof. by_evaluation. Qed.

(** ** Settlement and the bound on the paid amount *)

(** C5. Entering the UTR of the same payment detail twice counts its
    amount twice: bill 1 is for 10000, detail 9 of payment 8 pays 9500 of
    it; after the first UTR update the bill has 9500 paid, after the same
    request a second time it has 19000 paid, more than its amount. Both
    requests are answered with 200. *)
Theorem settling_twice_exceeds_amount :
  map (fun b => (ib_id b, ib_amount b, ib_paid_amount b)) (inward_bills ledger_batched)
  = [(1%nat, 10000, 0); (2%nat, 4000, 0)]
  /\ map (fun d => (pd_id d, pd_payment_id d, pd_bill_id d, pd_amount d))
         (payment_details ledger_batched)
     = [(9%nat, 8%nat, 1%nat, 9500)]
  /\ fst (handle accounts_user utr_request ledger_batched)
     = Json 200 "UTR numbers updated"
  /\ map (fun b => (ib_id b, ib_amount b, ib_paid_amount b)) (inward_bills ledger_settled)
     = [(1%nat, 10000, 9500); (2%nat, 4000, 0)]
  /\ fst (handle accounts_user utr_request ledger_settled)
     = Json 200 "UTR numbers updated"
  /\ map (fun b => (ib_id b, ib_amount b, ib_paid_amount b))
         (inward_bills ledger_settled_twice)
     = [(1%nat, 10000, 19000); (2%nat, 4000, 0)]
  /\ existsb (fun b => ib_amount b <? ib_paid_amount b)
       (inward_bills ledger_settled_twice) = true.
Proof. by_evaluation. Qed.

(** ** Which statements touch which table *)

Section Frames.
Variable P : db -> db -> Prop.
Hypothesis P_refl : forall st, P st st.
Hypothesis P_trans : forall a b c, P a b -> P b c -> P a c.

Lemma frame_ret {A} (a : A) : tx_frame P (tx_ret a).
Proof. intros st x st' E. inversion E. apply P_refl. Qed.

Lemma frame_ask {A} (f : db -> A) : tx_frame P (ask f).
Proof. intros st x st' E. inversion E. apply P_refl. Qed.

Lemma frame_throw {A} (e : error) : tx_frame P (@throw A e).
Proof. intros st x st' E. discriminate E. Qed.

Lemma frame_exec (f : db -> db) :
  (forall st, P st (f st)) -> tx_frame P (exec f).
Proof. intros H st x st' E. inversion E. apply H. Qed.

Lemma frame_bind {A B} (m : tx A) (k : A -> tx B) :
  tx_frame P m -> (forall a, tx_frame P (k a)) -> tx_frame P (tx_bind m k).
Proof.
  intros Hm Hk st b st' E. unfold tx_bind in E.
  destruct (m st) as [[a st1] | e] eqn:M; [| discriminate].
  eapply P_trans; [eapply Hm; exact M | eapply Hk; exact E].
Qed.

Lemma frame_for_each {A} (f : A -> tx unit) (l : list A) :
  (forall x, tx_frame P (f x)) -> tx_frame P (for_each f l).
Proof.
  intros Hf. induction l as [| x l IH]; simpl.
  - apply frame_ret.
  - apply frame_bind; [apply Hf | intros _; exact IH].
Qed.

Lemma frame_fresh : (forall st, P st (snd (fresh st))) ->
  tx_frame P (fun st => Done (fresh st)).
Proof.
  intros H st x st' E. specialize (H st).
  assert (E' : fresh st = (x, st')) by congruence.
  rewrite E' in H. exact H.
Qed.
End Frames.

Lemma same_proposals_refl st : same_proposals st st.
Proof. reflexivity. Qed.

Lemma same_proposals_trans a b c :
  same_proposals a b -> same_proposals b c -> same_proposals a c.
Proof. unfold same_proposals. congruence. Qed.

Ltac frame_steps :=
  repeat first
    [ apply (frame_bind _ same_proposals_trans)
    | apply (frame_for_each _ same_proposals_refl same_proposals_trans)
    | apply (frame_ret _ same_proposals_refl)
    | apply (frame_ask _ same_proposals_refl)
    | apply frame_throw
    | apply frame_exec; intros; reflexivity
    | apply frame_fresh; intros; reflexivity
    | intro ].

Lemma insert_proposal_item_frame (id : uuid) (i : new_item) :
  tx_frame same_proposals (insert_proposal_item id i).
Proof.
  unfold insert_proposal_item.
  apply (frame_bind _ same_proposals_trans); [frame_steps |].
  intros [|]; frame_steps.
Qed.

Lemma accounts_step_frame (u : user) (item : action_entry) :
  tx_frame same_proposals (accounts_step u item).
Proof.
  unfold accounts_step. destruct (negb _); frame_steps.
Qed.

Lemma owner_loop_frame (u : user) (items : list action_entry) :
  forall hA hD, tx_frame same_proposals (owner_loop u items hA hD).
Proof.
  induction items as [| item rest IH]; intros hA hD; cbn [owner_loop].
  - frame_steps.
  - destruct (negb _); [apply frame_throw |].
    apply (frame_bind _ same_proposals_trans); [frame_steps |]. intros _.
    apply (frame_bind _ same_proposals_trans).
    + destruct (String.eqb _ "defer"); frame_steps.
    + intros _. apply IH.
Qed.

Lemma insert_payment_detail_frame (id : uuid) (item : proposal_item) :
  tx_frame same_proposals (insert_payment_detail id item).
Proof.
  unfold insert_payment_detail. destruct (pi_owner_amount item); frame_steps.
Qed.

Lemma settle_detail_frame (id : uuid) (e : utr_entry) :
  tx_frame same_proposals (settle_detail id e).
Proof.
  unfold settle_detail.
  apply (frame_bind _ same_proposals_trans); [frame_steps |]. intros _.
  apply (frame_bind _ same_proposals_trans); [frame_steps |]. intros rows.
  destruct rows as [| row rows]; [frame_steps |].
  destruct (truthy_string _); frame_steps.
Qed.

(** ** Payment batch generation *)

(** The details of a batch: one per item, in order, each with the item's
    bill, the item itself and the item's owner amount; no other table is
    written. *)
Lemma insert_details_done (payment_id : uuid) (items : list proposal_item) :
  forall st st3,
    for_each (insert_payment_detail payment_id) items st = Done (tt, st3) ->
    exists ds,
      payment_details st3 = payment_details st ++ ds
      /\ map (fun d => (pd_payment_id d, pd_bill_id d, pd_proposal_item_id d,
                        Some (pd_amount d), pd_utr_number d, pd_status d)) ds
         = map (fun i => (payment_id, pi_bill_id i, Some (pi_id i),
                          pi_owner_amount i, @None string, DetPending)) items
      /\ payments st3 = payments st
      /\ proposals st3 = proposals st
      /\ inward_bills st3 = inward_bills st
      /\ proposal_items st3 = proposal_items st
      /\ vendors st3 = vendors st.
Proof.
  induction items as [| item items IH]; intros st st3 E.
  - inversion E. exists []. rewrite app_nil_r. repeat split.
  - simpl in E. unfold tx_bind in E.
    unfold insert_payment_detail in E at 1.
    destruct (pi_owner_amount item) as [amount |] eqn:A; [| discriminate].
    unfold exec in E. simpl in E.
    apply IH in E. destruct E as (ds & D & M & E1 & E2 & E3 & E4 & E5).
    simpl in *. rewrite <- app_assoc in D. eexists. split; [exact D |].
    simpl. rewrite M, A. repeat split; assumption.
Qed.

Lemma insert_details_runs (payment_id : uuid) (items : list proposal_item) (total : Z) :
  total_owner_amount items = Some total ->
  forall st, exists st3,
    for_each (insert_payment_detail payment_id) items st = Done (tt, st3).
Proof.
  revert total. induction items as [| item items IH]; intros total T st.
  - exists st. reflexivity.
  - simpl in T. simpl. unfold tx_bind. unfold insert_payment_detail at 1.
    destruct (pi_owner_amount item) as [amount |]; [| discriminate].
    destruct (total_owner_amount items) as [s |] eqn:S; [| discriminate].
    unfold exec. simpl. eapply IH. reflexivity.
Qed.

Lemma create_from_proposal_body_done (u : user) (pid bank : uuid) (st st' : db)
    (pay : payment) :
  create_from_proposal_body u pid bank st = Done (pay, st') ->
  exists total st3,
    (exists p, In p (proposals st) /\ p_id p = pid
               /\ is_approved_or_partial (p_status p) = true)
    /\ approved_items st pid <> []
    /\ total_owner_amount (approved_items st pid) = Some total
    /\ pay = batch_payment u pid bank total st
    /\ for_each (insert_payment_detail (pay_id pay)) (approved_items st pid)
         (with_payments (snd (fresh (snd (fresh st)))) (payments st ++ [pay]))
       = Done (tt, st3)
    /\ st' = with_proposals st3
               (update_where (fun p => Nat.eqb (p_id p) pid)
                  (set_p_status Completed) (proposals st3)).
Proof.
  unfold create_from_proposal_body. unfold tx_bind at 1. unfold ask at 1.
  destruct (Nat.eqb (List.length (select_where _ (proposals st))) 0) eqn:L;
    [discriminate |].
  unfold tx_bind at 1. unfold ask at 1.
  destruct (Nat.eqb (List.length (approved_items st pid)) 0) eqn:I; [discriminate |].
  unfold tx_bind at 1. cbn [fresh].
  destruct (total_owner_amount (approved_items st pid)) as [total |] eqn:T;
    [| discriminate].
  unfold tx_bind at 1. cbn [fresh].
  unfold tx_bind at 1. unfold exec at 1.
  unfold tx_bind at 1.
  match goal with
  | |- context [for_each ?f ?l ?s] => destruct (for_each f l s) as [[[] st3] |] eqn:F
  end; [| discriminate].
  unfold tx_bind, exec, tx_ret. intros E. inversion E; subst. clear E.
  exists total, st3. split; [| split; [| split; [| split; [| split]]]].
  - apply select_where_nonempty in L. destruct L as (p & Ip & W).
    apply andb_true_iff in W as [W1 W2]. apply Nat.eqb_eq in W1.
    exists p. auto.
  - intros N. rewrite N in I. discriminate.
  - reflexivity.
  - reflexivity.
  - exact F.
  - reflexivity.
Qed.

Lemma create_from_proposal_body_runs (u : user) (pid bank : uuid) (st : db) (total : Z) :
  (exists p, In p (proposals st) /\ p_id p = pid
             /\ is_approved_or_partial (p_status p) = true) ->
  approved_items st pid <> [] ->
  total_owner_amount (approved_items st pid) = Some total ->
  exists st',
    create_from_proposal_body u pid bank st
    = Done (batch_payment u pid bank total st, st').
Proof.
  intros (p & Ip & Pid & Pst) N T.
  unfold create_from_proposal_body. unfold tx_bind at 1. unfold ask at 1.
  assert (L : Nat.eqb (List.length
                (select_where (fun p => Nat.eqb (p_id p) pid
                                        && is_approved_or_partial (p_status p))
                   (proposals st))) 0 = false).
  { apply select_where_nonempty. exists p. split; [exact Ip |].
    rewrite Pid, Nat.eqb_refl, Pst. reflexivity. }
  rewrite L. unfold tx_bind at 1. unfold ask at 1.
  destruct (approved_items st pid) as [| i items] eqn:I; [contradiction |].
  cbn [List.length Nat.eqb]. unfold tx_bind at 1. cbn [fresh]. rewrite T.
  unfold tx_bind at 1. cbn [fresh]. unfold tx_bind at 1. unfold exec at 1.
  unfold tx_bind at 1.
  match goal with
  | |- context [for_each (insert_payment_detail ?k) ?l ?s] =>
    destruct (insert_details_runs k l total T s) as (st3 & F); rewrite F
  end.
  unfold tx_bind, exec, tx_ret. eexists. reflexivity.
Qed.

(** A batch is refused, and nothing is written, when no row of the
    proposal is [approved] or [partial_approved]. *)
Lemma create_from_proposal_not_approved (u : user) (pid bank : uuid) (st : db) :
  (forall p, In p (proposals st) -> p_id p = pid ->
             is_approved_or_partial (p_status p) = false) ->
  create_from_proposal_body u pid bank st
  = Thrown (Error "Proposal not found or not approved").
Proof.
  intros H. unfold create_from_proposal_body, tx_bind, ask.
  destruct (Nat.eqb (List.length (select_where _ (proposals st))) 0) eqn:L;
    [reflexivity |].
  apply select_where_nonempty in L. destruct L as (p & Ip & W).
  apply andb_true_iff in W as [W1 W2]. apply Nat.eqb_eq in W1.
  rewrite (H p Ip W1) in W2. discriminate.
Qed.

Lemma update_status_keeps_completed (w : proposal -> bool) (s : proposal_status)
    (t : list proposal) (p' : proposal) :
  s <> Completed ->
  In p' (update_where w (set_p_status s) t) ->
  p_status p' = Completed ->
  In p' t.
Proof.
  intros N I C. unfold update_where in I. apply in_map_iff in I.
  destruct I as (p & E & Ip). destruct (w p).
  - subst p'. simpl in C. contradiction.
  - subst p'. exact Ip.
Qed.

Lemma owner_newStatus_not_completed (a d : bool) : owner_newStatus a d <> Completed.
Proof. unfold owner_newStatus. destruct a, d; discriminate. Qed.

(** Every request other than a successful batch generation leaves the
    completed rows of the proposals table as they were: a completed row
    after the request was there before it. *)
Lemma other_requests_keep_completed (u : user) (r : request) (st : db) (p' : proposal) :
  (forall p b, r <> CreateFromProposal p b) ->
  In p' (proposals (snd (handle u r st))) ->
  p_status p' = Completed ->
  In p' (proposals st).
Proof.
  intros NR. destruct r; cbn [handle].
  - unfold create_proposal, authorize. destruct (existsb _ _); [| auto].
    destruct (negb _); [auto |].
    unfold transaction.
    match goal with |- context [match ?m st with _ => _ end] =>
      destruct (m st) as [[a st'] |] eqn:E end; [| auto].
    simpl. intros I C.
    unfold tx_bind at 1 in E. cbn [fresh] in E.
    unfold tx_bind at 1 in E. cbn [fresh] in E.
    unfold tx_bind at 1 in E. unfold exec at 1 in E.
    apply (frame_for_each _ same_proposals_refl same_proposals_trans) in E;
      [| intros x; apply insert_proposal_item_frame].
    unfold same_proposals in E. simpl in E. rewrite E in I.
    apply in_app_or in I. destruct I as [I | [I | []]]; [exact I |].
    subst p'. discriminate C.
  - unfold submit_proposal, authorize. destruct (existsb _ _); [| auto].
    destruct (Nat.eqb _ 0); simpl; intros I C;
      eapply update_status_keeps_completed; eauto; discriminate.
  - unfold accounts_action, authorize. destruct (existsb _ _); [| auto].
    destruct items as [items |]; [| auto].
    unfold transaction.
    match goal with |- context [match ?m st with _ => _ end] =>
      destruct (m st) as [[a st'] |] eqn:E end; [| auto].
    simpl. intros I C. unfold tx_bind in E.
    destruct (for_each (accounts_step u) items st) as [[[] st1] |] eqn:F;
      [| discriminate].
    apply (frame_for_each _ same_proposals_refl same_proposals_trans) in F;
      [| intros x; apply accounts_step_frame].
    unfold exec in E. inversion E; subst. simpl in I.
    unfold same_proposals in F. rewrite F in I.
    eapply update_status_keeps_completed; eauto; discriminate.
  - unfold owner_action, authorize. destruct (existsb _ _); [| auto].
    destruct items as [items |]; [| auto].
    unfold transaction.
    match goal with |- context [match ?m st with _ => _ end] =>
      destruct (m st) as [[a st'] |] eqn:E end; [| auto].
    simpl. intros I C. unfold tx_bind in E.
    destruct (owner_loop u items false false st) as [[flags st1] |] eqn:F;
      [| discriminate].
    apply owner_loop_frame in F.
    unfold exec in E. inversion E; subst. simpl in I.
    unfold same_proposals in F. rewrite F in I.
    eapply update_status_keeps_completed; eauto.
    apply owner_newStatus_not_completed.
  - unfold delete_proposal, authorize. destruct (existsb _ _); [| auto].
    unfold transaction, tx_bind, exec, ask, tx_ret. simpl.
    destruct (hd_error _); simpl; intros I C;
      unfold delete_where in I; apply filter_In in I; tauto.
  - exfalso. eapply NR. reflexivity.
  - unfold update_utr, authorize. destruct (existsb _ _); [| auto].
    destruct details as [details |]; [| auto].
    unfold transaction.
    match goal with |- context [match ?m st with _ => _ end] =>
      destruct (m st) as [[a st'] |] eqn:E end; [| auto].
    simpl. intros I C. unfold update_utr_body, tx_bind in E.
    destruct (for_each (settle_detail id) details st) as [[[] st1] |] eqn:F;
      [| discriminate].
    apply (frame_for_each _ same_proposals_refl same_proposals_trans) in F;
      [| intros x; apply settle_detail_frame].
    unfold ask, exec in E. inversion E; subst. simpl in I.
    unfold same_proposals in F. rewrite F in I. exact I.
  - unfold create_inward_bill, authorize. destruct (existsb _ _); [| auto].
    destruct (negb _); [auto |]. destruct (dueDate _ _); [| auto].
    unfold insert_inward_bill. destruct (vendor_referable _ _); auto.
  - unfold update_inward_bill, authorize. destruct (existsb _ _); [| auto].
    destruct (select_where _ _); [auto |].
    destruct (negb _); [auto |]. destruct (is_bill_paid _); [auto |].
    destruct (recalculated_due _ _); [| auto].
    destruct (no_set_clause _); auto.
  - unfold cancel_inward_bill, authorize. destruct (existsb _ _); [| auto].
    destruct reason as [reason |]; [| auto].
    destruct (String.eqb _ _); [auto |].
    destruct (select_where _ _); [auto |].
    destruct (0 <? _); auto.
Qed.

Lemma update_where_in {R} (w : R -> bool) (f : R -> R) (t : list R) (r' : R) :
  In r' (update_where w f t) ->
  (In r' t /\ w r' = false) \/ exists r, In r t /\ w r = true /\ r' = f r.
Proof.
  unfold update_where. intros I. apply in_map_iff in I.
  destruct I as (r & E & Ir). destruct (w r) eqn:W.
  - right. exists r. auto.
  - left. subst r'. auto.
Qed.

Lemma create_from_proposal_completed_refused (u : user) (pid bank : uuid) (st : db) :
  (forall p, In p (proposals st) -> p_id p = pid -> p_status p = Completed) ->
  snd (create_from_proposal u (Some pid) (Some bank) st) = st
  /\ reply_code (fst (create_from_proposal u (Some pid) (Some bank) st)) <> 201%nat
  /\ (user_role u = Accounts \/ user_role u = Owner ->
      fst (create_from_proposal u (Some pid) (Some bank) st)
      = Json 500 "Proposal not found or not approved").
Proof.
  intros H. unfold create_from_proposal, authorize, transaction.
  rewrite create_from_proposal_not_approved.
  - destruct (existsb (role_eqb (user_role u)) [Accounts; Owner]) eqn:A; simpl.
    + repeat split; discriminate.
    + repeat split; try discriminate.
      intros [R | R]; rewrite R in A; discriminate.
  - intros p Ip Pid. rewrite (H p Ip Pid). reflexivity.
Qed.

(** C3. Batch generation and the [completed] status.
    (1) Against a proposal that is completed, batch generation writes
    nothing and does not answer 201; for a caller with the accounts or
    owner role the answer is the thrown error "Proposal not found or not
    approved" (status 500).
    (2) Hence a second batch generation for the same proposal, right
    after a successful one, is refused in the same way and leaves the
    payments and details of the first as they are.
    (3) Of all the requests that write to the workflow tables, only a
    batch generation answered with 201 produces a completed proposal row
    that was not there before, and it does so for a proposal that had an
    [approved] or [partial_approved] row. *)
Theorem completed_only_by_batch_generation :
  (forall u pid bank st,
     (forall p, In p (proposals st) -> p_id p = pid -> p_status p = Completed) ->
     snd (create_from_proposal u (Some pid) (Some bank) st) = st
     /\ reply_code (fst (create_from_proposal u (Some pid) (Some bank) st)) <> 201%nat
     /\ (user_role u = Accounts \/ user_role u = Owner ->
         fst (create_from_proposal u (Some pid) (Some bank) st)
         = Json 500 "Proposal not found or not approved"))
  /\ (forall u u2 pid bank bank2 st,
        fst (create_from_proposal u (Some pid) (Some bank) st)
        = Json 201 "Payment batch created" ->
        let st1 := snd (create_from_proposal u (Some pid) (Some bank) st) in
        snd (create_from_proposal u2 (Some pid) (Some bank2) st1) = st1
        /\ reply_code (fst (create_from_proposal u2 (Some pid) (Some bank2) st1))
           <> 201%nat)
  /\ (forall u r st p',
        In p' (proposals (snd (handle u r st))) ->
        p_status p' = Completed ->
        ~ In p' (proposals st) ->
        exists bank,
          r = CreateFromProposal (Some (p_id p')) (Some bank)
          /\ fst (handle u r st) = Json 201 "Payment batch created"
          /\ exists p, In p (proposals st) /\ p_id p = p_id p'
                       /\ is_approved_or_partial (p_status p) = true).
Proof.
  split; [| split].
  - intros u pid bank st H. apply create_from_proposal_completed_refused. exact H.
  - intros u u2 pid bank bank2 st OK st1.
    assert (H : forall p, In p (proposals st1) -> p_id p = pid -> p_status p = Completed).
    { subst st1. revert OK. unfold create_from_proposal, authorize.
      destruct (existsb _ _); [| discriminate]. unfold transaction.
      destruct (create_from_proposal_body u pid bank st) as [[pay st'] | e] eqn:B.
      - intros _. simpl.
        apply create_from_proposal_body_done in B.
        destruct B as (total & st3 & _ & _ & _ & _ & _ & E). subst st'. simpl.
        intros p Ip Pid. apply update_where_in in Ip.
        destruct Ip as [(_ & W) | (p0 & _ & _ & E)].
        + apply Nat.eqb_neq in W. contradiction.
        + subst p. reflexivity.
      - destruct e as [m | c]; simpl.
        + intros X. inversion X.
        + unfold errorHandler.
          repeat match goal with
                 | |- context [match ?c with _ => _ end] => destruct c
                 end; intros X; inversion X. }
    destruct (create_from_proposal_completed_refused u2 pid bank2 st1 H) as (A & B & _).
    split; assumption.
  - intros u r st p' I C N.
    destruct r;
      try (exfalso; apply N;
           eapply other_requests_keep_completed; eauto; discriminate).
    cbn [handle] in *.
    destruct proposal_id as [pid |]; [| exfalso; apply N; revert I;
      unfold create_from_proposal, authorize; destruct (existsb _ _); auto].
    destruct bank_account_id as [bank |]; [| exfalso; apply N; revert I;
      unfold create_from_proposal, authorize; destruct (existsb _ _); auto].
    revert I. unfold create_from_proposal, authorize.
    destruct (existsb _ _); [| intros I; contradiction].
    unfold transaction.
    destruct (create_from_proposal_body u pid bank st) as [[pay st'] | e] eqn:B;
      [| intros I; contradiction].
    simpl. intros I.
    apply create_from_proposal_body_done in B.
    destruct B as (total & st3 & Ex & _ & _ & _ & F & E). subst st'. simpl in I.
    apply insert_details_done in F. destruct F as (ds & _ & _ & _ & P3 & _).
    simpl in P3. rewrite P3 in I.
    apply update_where_in in I. destruct I as [(I & _) | (p & Ip & W & E)];
      [contradiction |].
    apply Nat.eqb_eq in W. subst p'. simpl.
    exists bank. rewrite W. split; [reflexivity | split; [reflexivity |]].
    exact Ex.
Qed.

(** On the worked ledger: the batch of proposal 4, asked for twice. *)
Lemma completed_only_by_batch_generation_witness :
  fst (create_from_proposal accounts_user (Some 4%nat) (Some 50%nat) ledger_approved)
  = Json 201 "Payment batch created"
  /\ snd (create_from_proposal owner_user (Some 4%nat) (Some 51%nat) ledger_batched)
     = ledger_batched
  /\ reply_code
       (fst (create_from_proposal owner_user (Some 4%nat) (Some 51%nat) ledger_batched))
     <> 201%nat.
Proof.
  assert (H : fst (create_from_proposal accounts_user (Some 4%nat) (Some 50%nat)
                     ledger_approved)
              = Json 201 "Payment batch created") by (vm_compute; reflexivity).
  split; [exact H |].
  exact (proj1 (proj2 completed_only_by_batch_generation)
           accounts_user owner_user 4%nat 50%nat 51%nat ledger_approved H).
Defined.

(** When every item joins exactly one bill row (the foreign key of
    [proposal_items.bill_id] and the primary key of [inward_bills]), the
    joined selection is the selection of the items. *)
Lemma approved_items_join (st : db) (pid : uuid) :
  (forall i, In i (proposal_items st) ->
     List.length (select_where (fun ib => Nat.eqb (pi_bill_id i) (ib_id ib))
                    (inward_bills st)) = 1%nat) ->
  approved_items st pid
  = select_where (fun i => Nat.eqb (pi_proposal_id i) pid
                           && is_own_approved (pi_owner_status i))
      (proposal_items st).
Proof.
  intros J. unfold approved_items.
  assert (G : forall l, (forall i, In i l -> In i (proposal_items st)) ->
            flat_map (fun i => map (fun _ => i)
                        (select_where (fun ib => Nat.eqb (pi_bill_id i) (ib_id ib))
                           (inward_bills st))) l = l).
  { induction l as [| i l IH]; intros H; [reflexivity |].
    simpl. rewrite IH by (intros; apply H; right; assumption).
    specialize (J i (H i (or_introl eq_refl))).
    destruct (select_where _ (inward_bills st)) as [| b [| b' bs]];
      try discriminate. reflexivity. }
  apply G. intros i I. unfold select_where in I. apply filter_In in I. tauto.
Qed.

Lemma total_owner_amount_defined (items : list proposal_item) :
  (forall i, In i items -> pi_owner_amount i <> None) ->
  exists total, total_owner_amount items = Some total.
Proof.
  induction items as [| i items IH]; intros H.
  - exists 0. reflexivity.
  - simpl. destruct (pi_owner_amount i) as [a |] eqn:A.
    + destruct IH as (s & S); [intros; apply H; right; assumption |].
      rewrite S. eexists. reflexivity.
    + exfalso. apply (H i); [left; reflexivity | exact A].
Qed.

Lemma total_is_sum_of_details (items : list proposal_item) :
  forall ds : list payment_detail,
    map (fun d => Some (pd_amount d)) ds = map pi_owner_amount items ->
    total_owner_amount items = Some (sum_of pd_amount ds).
Proof.
  induction items as [| i items IH]; intros [| d ds] M; try discriminate.
  - reflexivity.
  - simpl in M. inversion M as [[A M']]. simpl.
    rewrite <- A, (IH ds M'). reflexivity.
Qed.

Lemma insert_details_refused (payment_id : uuid) (items : list proposal_item) :
  (exists i, In i items /\ pi_owner_amount i = None) ->
  total_owner_amount items = None.
Proof.
  induction items as [| x items IH]; intros (i & I & N); [destruct I |].
  simpl. destruct I as [I | I].
  - subst x. rewrite N. reflexivity.
  - rewrite IH by (exists i; auto). destruct (pi_owner_amount x); reflexivity.
Qed.

(** C2. Payment batch generation, for a caller with the accounts or owner
    role, a proposal with an [approved] or [partial_approved] row, and
    items that each join one bill. With no owner-approved item the request
    fails with the error "No approved items found" and the database is
    unchanged. With at least one, each carrying its owner amount, the
    answer is 201; exactly one payment is appended, for this proposal,
    whose total is the sum of the owner amounts of the owner-approved
    items, which is also the sum of the amounts of its details; exactly one
    detail per such item is appended, in order, for the payment, the item's
    bill and the item, with the item's owner amount, pending and without
    UTR; and every row of the proposal has the status [completed], its
    other columns and the other proposals being as before. With an
    owner-approved item that carries no owner amount the request is
    answered 400 and the database is unchanged. *)
Theorem batch_generation (u : user) (pid bank : uuid) (st : db) :
  user_role u = Accounts \/ user_role u = Owner ->
  (exists p, In p (proposals st) /\ p_id p = pid
             /\ is_approved_or_partial (p_status p) = true) ->
  (forall i, In i (proposal_items st) ->
     List.length (select_where (fun ib => Nat.eqb (pi_bill_id i) (ib_id ib))
                    (inward_bills st)) = 1%nat) ->
  let items :=
    select_where (fun i => Nat.eqb (pi_proposal_id i) pid
                           && is_own_approved (pi_owner_status i))
      (proposal_items st) in
  let result := create_from_proposal u (Some pid) (Some bank) st in
  (items = [] -> result = (Json 500 "No approved items found", st))
  /\ (items <> [] ->
      (forall i, In i items -> pi_owner_amount i <> None) ->
      exists pay ds,
        fst result = Json 201 "Payment batch created"
        /\ payments (snd result) = payments st ++ [pay]
        /\ payment_details (snd result) = payment_details st ++ ds
        /\ pay_proposal_id pay = pid
        /\ pay_bank_account_id pay = bank
        /\ pay_status pay = PayPending
        /\ total_owner_amount items = Some (pay_total_amount pay)
        /\ pay_total_amount pay = sum_of pd_amount ds
        /\ List.length ds = List.length items
        /\ map (fun d => (pd_payment_id d, pd_bill_id d, pd_proposal_item_id d,
                          Some (pd_amount d), pd_utr_number d, pd_status d)) ds
           = map (fun i => (pay_id pay, pi_bill_id i, Some (pi_id i),
                            pi_owner_amount i, @None string, DetPending)) items
        /\ map (fun p => (p_id p, p_number p, p_payment_date p, p_total_amount p,
                          p_remarks p, p_created_by p)) (proposals (snd result))
           = map (fun p => (p_id p, p_number p, p_payment_date p, p_total_amount p,
                            p_remarks p, p_created_by p)) (proposals st)
        /\ (forall p, In p (proposals (snd result)) -> p_id p = pid ->
                      p_status p = Completed)
        /\ (exists p, In p (proposals (snd result)) /\ p_id p = pid
                      /\ p_status p = Completed)
        /\ (forall p, In p (proposals st) -> p_id p <> pid ->
                      In p (proposals (snd result)))
        /\ inward_bills (snd result) = inward_bills st
        /\ proposal_items (snd result) = proposal_items st)
  /\ (items <> [] ->
      (exists i, In i items /\ pi_owner_amount i = None) ->
      result = (Json 400 "Missing required field", st)).
Proof.
  intros R Ex J items result.
  assert (A : existsb (role_eqb (user_role u)) [Accounts; Owner] = true)
    by (destruct R as [R | R]; rewrite R; reflexivity).
  pose proof (approved_items_join st pid J) as AI. fold items in AI.
  assert (L : Nat.eqb (List.length
                (select_where (fun p => Nat.eqb (p_id p) pid
                                        && is_approved_or_partial (p_status p))
                   (proposals st))) 0 = false).
  { destruct Ex as (p & Ip & Pid & Pst).
    apply select_where_nonempty. exists p. split; [exact Ip |].
    rewrite Pid, Nat.eqb_refl, Pst. reflexivity. }
  subst result. unfold create_from_proposal, authorize. rewrite A.
  unfold transaction. split; [| split].
  - intros E.
    assert (B : create_from_proposal_body u pid bank st
                = Thrown (Error "No approved items found")).
    { unfold create_from_proposal_body, tx_bind, ask.
      rewrite L, AI, E. reflexivity. }
    rewrite B. reflexivity.
  - intros N H.
    destruct (total_owner_amount_defined items H) as (total & T).
    destruct (create_from_proposal_body_runs u pid bank st total Ex) as (st' & B);
      [rewrite AI; exact N | rewrite AI; exact T |].
    rewrite B. simpl.
    apply create_from_proposal_body_done in B.
    destruct B as (total' & st3 & _ & _ & T' & _ & F & E).
    rewrite AI in T', F. subst st'.
    apply insert_details_done in F.
    destruct F as (ds & D & M & P1 & P2 & P3 & P4 & _). simpl in *.
    exists (batch_payment u pid bank total st), ds.
    assert (M' : map (fun d => Some (pd_amount d)) ds = map pi_owner_amount items).
    { apply (f_equal (map (fun x => snd (fst (fst x))))) in M.
      rewrite !map_map in M. exact M. }
    rewrite P2.
    repeat match goal with |- _ /\ _ => split end; auto.
    + pose proof (total_is_sum_of_details items ds M') as S. simpl. congruence.
    + apply (f_equal (@List.length _)) in M'. rewrite !length_map in M'. exact M'.
    + unfold update_where. rewrite map_map. apply map_ext. intros p.
      destruct (Nat.eqb (p_id p) pid); reflexivity.
    + intros p I E. apply update_where_in in I.
      destruct I as [(_ & X) | (p0 & _ & _ & Ep)].
      * rewrite E, Nat.eqb_refl in X. discriminate.
      * subst p. reflexivity.
    + destruct Ex as (p & Ip & Pid & _).
      exists (set_p_status Completed p). split; [| split; [exact Pid | reflexivity]].
      unfold update_where. apply in_map_iff. exists p.
      rewrite Pid, Nat.eqb_refl. auto.
    + intros p I NE. unfold update_where. apply in_map_iff. exists p.
      apply Nat.eqb_neq in NE. rewrite NE. auto.
  - intros N H.
    assert (B : create_from_proposal_body u pid bank st = Thrown (PgError "23502")).
    { unfold create_from_proposal_body, tx_bind, ask. rewrite L, AI.
      destruct items as [| i0 rest] eqn:EI; [contradiction |].
      cbn [List.length Nat.eqb fresh].
      rewrite (insert_details_refused 0%nat (i0 :: rest) H). reflexivity. }
    rewrite B. reflexivity.
Qed.

(** On the worked ledger: the batch of proposal 4 pays 9500, the owner
    amount of item 5, not the 10000 proposed for it. *)
Lemma batch_generation_witness :
  (user_role accounts_user = Accounts \/ user_role accounts_user = Owner)
  /\ (exists p, In p (proposals ledger_approved) /\ p_id p = 4%nat
                /\ is_approved_or_partial (p_status p) = true)
  /\ (forall i, In i (proposal_items ledger_approved) ->
        List.length (select_where (fun ib => Nat.eqb (pi_bill_id i) (ib_id ib))
                       (inward_bills ledger_approved)) = 1%nat)
  /\ exists pay,
       payments (snd (create_from_proposal accounts_user (Some 4%nat) (Some 50%nat)
                        ledger_approved)) = [pay]
       /\ pay_total_amount pay = 9500
       /\ forall p,
            In p (proposals (snd (create_from_proposal accounts_user (Some 4%nat)
                                    (Some 50%nat) ledger_approved))) ->
            p_id p = 4%nat -> p_status p = Completed.
Proof.
  assert (H1 : user_role accounts_user = Accounts \/ user_role accounts_user = Owner)
    by (left; reflexivity).
  assert (H2 : exists p, In p (proposals ledger_approved) /\ p_id p = 4%nat
                         /\ is_approved_or_partial (p_status p) = true).
  { exists {| p_id := 4; p_number := 3; p_payment_date := 19760;
              p_total_amount := 14000; p_remarks := None;
              p_status := Approved; p_created_by := 902 |}.
    split; [vm_compute; auto | split; reflexivity]. }
  assert (H3 : forall i, In i (proposal_items ledger_approved) ->
             List.length (select_where (fun ib => Nat.eqb (pi_bill_id i) (ib_id ib))
                            (inward_bills ledger_approved)) = 1%nat).
  { intros i I. apply Nat.eqb_eq. revert i I. apply forallb_forall.
    vm_compute. reflexivity. }
  split; [exact H1 | split; [exact H2 | split; [exact H3 |]]].
  destruct (batch_generation accounts_user 4 50 ledger_approved H1 H2 H3)
    as (_ & K & _).
  assert (N : select_where (fun i => Nat.eqb (pi_proposal_id i) 4
                                     && is_own_approved (pi_owner_status i))
                (proposal_items ledger_approved) <> [])
    by (vm_compute; discriminate).
  assert (H4 : forall i,
             In i (select_where (fun i => Nat.eqb (pi_proposal_id i) 4
                                          && is_own_approved (pi_owner_status i))
                     (proposal_items ledger_approved)) ->
             pi_owner_amount i <> None).
  { intros i I.
    assert (X : is_some (pi_owner_amount i) = true)
      by (revert i I; apply forallb_forall; vm_compute; reflexivity).
    destruct (pi_owner_amount i); discriminate. }
  destruct (K N H4)
    as (pay & ds & _ & P & _ & _ & _ & _ & T & _ & _ & _ & _ & C & _).
  exists pay. split; [| split; [| exact C]].
  - transitivity (payments ledger_approved ++ [pay]);
      [exact P | vm_compute; reflexivity].
  - assert (X : total_owner_amount
                  (select_where (fun i => Nat.eqb (pi_proposal_id i) 4
                                          && is_own_approved (pi_owner_status i))
                     (proposal_items ledger_approved)) = Some 9500)
      by (vm_compute; reflexivity).
    rewrite X in T. inversion T. reflexivity.
Defined.

(** C2 as stated fails: on the worked ledger the owner approves item 5
    without an amount. Proposal 4 is then [approved] and has an
    owner-approved item, yet the batch is refused: no payment and no detail
    is created and the proposal is not [completed]. *)
Lemma batch_generation_needs_owner_amount :
  (exists p, In p (proposals ledger_unpriced) /\ p_id p = 4%nat
             /\ p_status p = Approved)
  /\ (exists i, In i (proposal_items ledger_unpriced) /\ pi_proposal_id i = 4%nat
                /\ pi_owner_status i = OwnApproved /\ pi_owner_amount i = None)
  /\ fst (create_from_proposal accounts_user (Some 4%nat) (Some 50%nat) ledger_unpriced)
     = Json 400 "Missing required field"
  /\ payments (snd (create_from_proposal accounts_user (Some 4%nat) (Some 50%nat)
                      ledger_unpriced)) = []
  /\ payment_details (snd (create_from_proposal accounts_user (Some 4%nat)
                             (Some 50%nat) ledger_unpriced)) = []
  /\ map p_status (proposals (snd (create_from_proposal accounts_user (Some 4%nat)
                                     (Some 50%nat) ledger_unpriced)))
     = [Approved].
Proof.
  split; [| split].
  - exists {| p_id := 4; p_number := 3; p_payment_date := 19760;
              p_total_amount := 14000; p_remarks := None;
              p_status := Approved; p_created_by := 902 |}.
    split; [vm_compute; auto | split; reflexivity].
  - exists {| pi_id := 5; pi_proposal_id := 4; pi_bill_id := 1;
              pi_proposed_amount := 10000; pi_urgency_remarks := None;
              pi_accounts_status := AccApproved; pi_accounts_amount := Some 9500;
              pi_accounts_reason := None; pi_accounts_by := Some 903%nat;
              pi_owner_status := OwnApproved; pi_owner_amount := None;
              pi_owner_reason := None; pi_owner_by := Some 901%nat;
              pi_status := OwnerApproved |}.
    split; [vm_compute; auto | repeat split; reflexivity].
  - by_evaluation.
Qed.

(** ** Entering UTR numbers *)

Lemma select_first_rows {R} (w : R -> bool) (t : list R) (r : R) :
  select_first w t = Some r ->
  w r = true /\ In r t /\ exists rest, select_where w t = r :: rest.
Proof.
  unfold select_first, select_where. induction t as [| x t IH]; [discriminate |].
  simpl. destruct (w x) eqn:W.
  - intros E. inversion E; subst. split; [exact W |]. split; [auto |].
    eexists. reflexivity.
  - intros E. destruct (IH E) as (A & B & C). auto.
Qed.

(** Writing the UTR keeps the key of a detail, so the rows selected by
    key afterwards are the rows selected before, rewritten. *)
Lemma select_detail_after_update (x : uuid) (w : payment_detail -> bool)
    (utr : option string) (l : list payment_detail) :
  select_where (fun d => Nat.eqb (pd_id d) x) (update_where w (set_pd_utr utr) l)
  = update_where w (set_pd_utr utr) (select_where (fun d => Nat.eqb (pd_id d) x) l).
Proof.
  unfold select_where, update_where.
  induction l as [| d l IH]; [reflexivity |].
  simpl. destruct (w d) eqn:W; simpl; destruct (Nat.eqb (pd_id d) x); simpl;
    rewrite ?W, IH; reflexivity.
Qed.

Lemma select_first_after_update (x : uuid) (w : payment_detail -> bool)
    (utr : option string) (l : list payment_detail) :
  select_first (fun d => Nat.eqb (pd_id d) x) (update_where w (set_pd_utr utr) l)
  = option_map (fun d => if w d then set_pd_utr utr d else d)
      (select_first (fun d => Nat.eqb (pd_id d) x) l).
Proof.
  unfold select_first, update_where.
  induction l as [| d l IH]; [reflexivity |].
  simpl. destruct (w d) eqn:W; simpl; destruct (Nat.eqb (pd_id d) x); simpl;
    rewrite ?W; auto.
Qed.

(** One turn of the loop never throws and leaves the payments alone. *)
Lemma settle_detail_runs (id : uuid) (e : utr_entry) (st : db) :
  exists st', settle_detail id e st = Done (tt, st') /\ payments st' = payments st.
Proof.
  unfold settle_detail, tx_bind, exec, ask. simpl.
  destruct (select_where _ _) as [| row rows]; [eexists; split; reflexivity |].
  destruct (truthy_string _); eexists; split; reflexivity.
Qed.

Lemma settle_all_runs (id : uuid) (details : list utr_entry) :
  forall st, exists st',
    for_each (settle_detail id) details st = Done (tt, st')
    /\ payments st' = payments st.
Proof.
  induction details as [| e details IH]; intros st.
  - exists st. split; reflexivity.
  - simpl. unfold tx_bind.
    destruct (settle_detail_runs id e st) as (st1 & E & P). rewrite E.
    destruct (IH st1) as (st' & E' & P'). exists st'. split; [exact E' | congruence].
Qed.

(** The effect of one turn of the loop for a detail of the payment and a
    UTR that is not empty. *)
Lemma settle_detail_effect (id : uuid) (e : utr_entry) (st : db) (d : payment_detail) :
  truthy_string (ue_utr_number e) = true ->
  select_first (fun d => Nat.eqb (pd_id d) (ue_detail_id e)) (payment_details st) = Some d ->
  pd_payment_id d = id ->
  exists st',
    settle_detail id e st = Done (tt, st')
    /\ payment_details st'
       = update_where (fun d => Nat.eqb (pd_id d) (ue_detail_id e)
                                && Nat.eqb (pd_payment_id d) id)
           (set_pd_utr (ue_utr_number e)) (payment_details st)
    /\ inward_bills st'
       = update_where (fun b => Nat.eqb (ib_id b) (pd_bill_id d))
           (add_ib_paid (pd_amount d)) (inward_bills st)
    /\ proposal_items st'
       = update_where (fun i => opt_uuid_eqb (pd_proposal_item_id d) (pi_id i))
           (set_pi_status Paid) (proposal_items st)
    /\ payments st' = payments st
    /\ proposals st' = proposals st.
Proof.
  intros T F Pid.
  destruct (select_first_rows _ _ _ F) as (W & I & rest & S).
  unfold settle_detail, tx_bind, exec, ask. cbn [payment_details with_payment_details].
  rewrite select_detail_after_update, S, T.
  cbn [update_where map]. rewrite W, Pid, Nat.eqb_refl. cbn [andb].
  eexists. split; [reflexivity |].
  cbn [payment_details inward_bills proposal_items payments proposals
       with_payment_details with_inward_bills with_proposal_items].
  rewrite select_first_after_update, F. cbn [option_map].
  rewrite W, Pid, Nat.eqb_refl. cbn [andb].
  repeat split; reflexivity.
Qed.

Lemma utr_newStatus_spec (st : db) (id : uuid) :
  (utr_newStatus st id = Confirmed
   <-> forall d, In d (payment_details st) -> pd_payment_id d = id ->
                 utr_missing d = false)
  /\ (utr_newStatus st id = Processed
      <-> exists d, In d (payment_details st) /\ pd_payment_id d = id
                    /\ utr_missing d = true).
Proof.
  unfold utr_newStatus, count_where.
  pose proof (select_where_nonempty
                (fun d => Nat.eqb (pd_payment_id d) id && utr_missing d)
                (payment_details st)) as N.
  unfold select_where in N.
  destruct (Nat.eqb (List.length (filter _ (payment_details st))) 0) eqn:L.
  - assert (A : forall d, In d (payment_details st) -> pd_payment_id d = id ->
                          utr_missing d = false).
    { intros d I Pid. destruct (utr_missing d) eqn:M; [| reflexivity].
      assert (X : true = false); [| discriminate X].
      apply N. exists d. split; [exact I |].
      rewrite Pid, Nat.eqb_refl, M. reflexivity. }
    split; split; intros H; try reflexivity; try exact A; try discriminate.
    destruct H as (d & I & Pid & M). rewrite (A d I Pid) in M. discriminate.
  - assert (E : exists d, In d (payment_details st) /\ pd_payment_id d = id
                          /\ utr_missing d = true).
    { destruct (proj1 N eq_refl) as (d & I & W).
      apply andb_true_iff in W as [W1 W2]. apply Nat.eqb_eq in W1.
      exists d. auto. }
    split; split; intros H; try reflexivity; try exact E; try discriminate.
    destruct E as (d & I & Pid & M). rewrite (H d I Pid) in M. discriminate.
Qed.

(** C1. One UTR update that names the same payment detail twice counts
    its amount twice. Payment 8 has the one detail 9, of bill 1, with amount
    9500, and bill 1, for 10000, has nothing paid. The UTR update of
    payment 8 whose [details] hold the entry for detail 9 twice is answered
    200 and adds the amount of the detail to the bill once per entry: the
    bill has 19000 paid afterwards, not 9500. *)
Lemma utr_detail_named_twice :
  map (fun d => (pd_id d, pd_payment_id d, pd_bill_id d, pd_amount d))
    (payment_details ledger_batched) = [(9%nat, 8%nat, 1%nat, 9500)]
  /\ map (fun b => (ib_id b, ib_amount b, ib_paid_amount b)) (inward_bills ledger_batched)
     = [(1%nat, 10000, 0); (2%nat, 4000, 0)]
  /\ fst (handle accounts_user (UpdateUtr 8 (Some [utr_entry_9; utr_entry_9]))
            ledger_batched)
     = Json 200 "UTR numbers updated"
  /\ map (fun b => (ib_id b, ib_amount b, ib_paid_amount b))
       (inward_bills
          (snd (handle accounts_user (UpdateUtr 8 (Some [utr_entry_9; utr_entry_9]))
                  ledger_batched)))
     = [(1%nat, 10000, 19000); (2%nat, 4000, 0)].
Proof. by_evaluation. Qed.

(** ** Bills available for a proposal *)

Lemma insert_by_due_in (r x : available_row) (l : list available_row) :
  In x (insert_by_due r l) <-> x = r \/ In x l.
Proof.
  induction l as [| y l IH]; simpl.
  - intuition.
  - destruct (ar_due_date r <? ar_due_date y); simpl; [intuition |].
    rewrite IH. intuition.
Qed.

Lemma order_by_due_in (x : available_row) (l : list available_row) :
  In x (order_by_due l) <-> In x l.
Proof.
  unfold order_by_due. induction l as [| r l IH]; simpl; [tauto |].
  rewrite insert_by_due_in, IH. intuition.
Qed.


Lemma available_where_eq (st : db) (today : Z) (vendorId : option uuid)
    (filter : option string) (ib : inward_bill) :
  filter <> Some "carry_forward" ->
  available_where st today vendorId filter ib
  = is_active (ib_status ib)
    && negb (is_bill_paid (ib_payment_status ib))
    && negb (has_open_item st (ib_id ib))
    && match vendorId with
       | Some v => Nat.eqb (ib_vendor_id ib) v
       | None => true
       end
    && due_filter today filter (ib_due_date ib).
Proof.
  intros N. unfold available_where, due_filter.
  set (base := is_active (ib_status ib)
               && negb (is_bill_paid (ib_payment_status ib))
               && negb (has_open_item st (ib_id ib))).
  set (cf := is_active (ib_status ib)
             && negb (is_bill_paid (ib_payment_status ib))
             && has_carry_forward_item st (ib_id ib)).
  set (c1 := ib_due_date ib <? today).
  set (c2 := ib_due_date ib =? today).
  set (c3 := today <=? ib_due_date ib).
  set (c4 := ib_due_date ib <=? today + 7).
  clearbody base cf c1 c2 c3 c4.
  destruct filter as [f |];
    [| destruct vendorId; rewrite ?andb_true_r; reflexivity].
  repeat match goal with
         | |- context [match ?x with _ => _ end] =>
           lazymatch x with
           | vendorId => fail
           | _ => destruct x
           end
         end;
    try (exfalso; apply N; reflexivity);
    destruct vendorId; rewrite ?andb_true_r, ?andb_assoc; reflexivity.
Qed.

Lemma carry_forward_or_not (filter : option string) :
  filter = Some "carry_forward" \/ filter <> Some "carry_forward".
Proof.
  destruct filter as [s |]; [| right; discriminate].
  destruct (String.eqb_spec s "carry_forward") as [E | N];
    [left; congruence | right; congruence].
Qed.

Lemma available_bills_rows (st : db) (today : Z) (vendorId : option uuid)
    (filter : option string) :
  vendorId = None \/ filter <> Some "carry_forward" ->
  available_bills st today vendorId filter
  = Done (order_by_due
      (flat_map (fun ib =>
           map (available_project st today ib)
               (select_where (fun v => Nat.eqb (ib_vendor_id ib) v) (vendors st)))
         (select_where (available_where st today vendorId filter) (inward_bills st)))).
Proof.
  intros H. unfold available_bills.
  destruct vendorId as [v |]; [| destruct filter; reflexivity].
  destruct H as [H | H]; [discriminate |].
  destruct filter as [f |]; [| reflexivity].
  repeat match goal with
         | |- context [match ?x with _ => _ end] => destruct x
         end; try reflexivity.
  exfalso. apply H. reflexivity.
Qed.





(** The optional parameters of the query on the worked ledger. With the
    two bills entered and nothing proposed, both are available, by due
    date, and [filter = 'overdue'] on day 19750 keeps bill 2 (due 19745).
    After the owner deferred item 6 (bill 2) and approved item 5 (bill 1)
    of proposal 4, which is [approved], no bill is available without
    parameters, both having an item in that proposal;
    [filter = 'carry_forward'] returns bill 2 all the same, and is refused
    together with a [vendor_id]. *)
Lemma available_bills_filters :
  available_ids (available_bills ledger_entered 19750 None None) = [2%nat; 1%nat]
  /\ available_ids (available_bills ledger_entered 19750 (Some 7%nat) (Some "overdue"))
     = [2%nat]
  /\ available_ids (available_bills ledger_two_requests 19800 None None) = []
  /\ available_ids (available_bills ledger_two_requests 19800 None (Some "carry_forward"))
     = [2%nat]
  /\ available_bills ledger_two_requests 19800 (Some 7%nat) (Some "carry_forward")
     = Thrown (PgError "08P01").
Proof. by_evaluation. Qed.

(** The scenario of the specification, end to end: the batch of
    proposal 4 is one payment of 9500 with one detail without UTR; after
    the UTR is entered the bill has 9500 paid, item 5 is [paid] and the
    payment is [confirmed]. *)
Lemma worked_ledger_settled :
  map (fun p => (pay_id p, pay_proposal_id p, pay_total_amount p, pay_status p))
      (payments ledger_batched)
  = [(8%nat, 4%nat, 9500, PayPending)]
  /\ map (fun d => (pd_id d, pd_amount d, pd_utr_number d, pd_status d))
         (payment_details ledger_batched)
     = [(9%nat, 9500, None, DetPending)]
  /\ map p_status (proposals ledger_batched) = [Completed]
  /\ map (fun b => (ib_id b, ib_due_date b, ib_paid_amount b)) (inward_bills ledger_settled)
     = [(1%nat, 19753, 9500); (2%nat, 19745, 0)]
  /\ map (fun i => (pi_id i, pi_status i)) (proposal_items ledger_settled)
     = [(5%nat, Paid); (6%nat, OwnerRejected)]
  /\ map (fun d => (pd_id d, pd_utr_number d, pd_status d)) (payment_details ledger_settled)
     = [(9%nat, Some "UTR0001", DetConfirmed)]
  /\ map (fun p => (pay_id p, pay_status p)) (payments ledger_settled)
     = [(8%nat, Confirmed)].
Proof. by_evaluation. Qed.

(** * Further properties of the handlers *)

(** ** Requests that are refused *)

Lemma update_where_none {R} (w : R -> bool) (f : R -> R) (t : list R) :
  (forall r, In r t -> w r = false) -> update_where w f t = t.
Proof.
  intros H. unfold update_where. rewrite <- (map_id t) at 2.
  apply map_ext_in. intros r I. rewrite (H r I). reflexivity.
Qed.

Lemma select_where_empty {R} (w : R -> bool) (t : list R) :
  Nat.eqb (List.length (select_where w t)) 0 = true ->
  forall r, In r t -> w r = false.
Proof.
  intros L r I. destruct (w r) eqn:W; [| reflexivity].
  assert (X : Nat.eqb (List.length (select_where w t)) 0 = false)
    by (apply select_where_nonempty; exists r; auto).
  congruence.
Qed.

Lemma with_proposals_same (st : db) : with_proposals st (proposals st) = st.
Proof. destruct st; reflexivity. Qed.

Lemma transaction_thrown {A} (m : tx A) (st st' : db) (e : error) :
  transaction m st = (Thrown e, st') -> st' = st.
Proof.
  unfold transaction. destruct (m st) as [[a s] | x]; intros E; inversion E.
  reflexivity.
Qed.

Lemma errorHandler_not_ok (e : error) :
  reply_code (errorHandler e) <> 200%nat /\ reply_code (errorHandler e) <> 201%nat.
Proof.
  destruct e as [m | c]; simpl; [split; discriminate |].
  repeat match goal with
         | |- context [match ?x with _ => _ end] => destruct x
         end; simpl; split; discriminate.
Qed.

(** X1. Every request but the deletion of a proposal either is answered with
    200 or 201 or leaves the whole database as it was: a refusal by role
    or by validation comes before any statement, a guard that fails
    matches no row, and an error thrown in a transaction undoes it. *)
Theorem refused_requests_write_nothing (u : user) (r : request) (st : db) :
  (forall id, r <> DeleteProposal id) ->
  reply_code (fst (handle u r st)) <> 200%nat ->
  reply_code (fst (handle u r st)) <> 201%nat ->
  snd (handle u r st) = st.
Proof.
  intros ND. destruct r; cbn [handle].
  - unfold create_proposal, authorize. destruct (existsb _ _); [| reflexivity].
    destruct (negb _); [reflexivity |].
    destruct (transaction _ st) as [[a | e] st'] eqn:T; simpl.
    + intros _ N. exfalso. apply N. reflexivity.
    + intros _ _. eapply transaction_thrown. exact T.
  - unfold submit_proposal, authorize. destruct (existsb _ _); [| reflexivity].
    destruct (Nat.eqb _ 0) eqn:L; simpl.
    + intros _ _. rewrite update_where_none.
      * apply with_proposals_same.
      * apply select_where_empty. exact L.
    + intros N. exfalso. apply N. reflexivity.
  - unfold accounts_action, authorize. destruct (existsb _ _); [| reflexivity].
    destruct items as [items |]; [| reflexivity].
    destruct (transaction _ st) as [[a | e] st'] eqn:T; simpl.
    + intros N. exfalso. apply N. reflexivity.
    + intros _ _. eapply transaction_thrown. exact T.
  - unfold owner_action, authorize. destruct (existsb _ _); [| reflexivity].
    destruct items as [items |]; [| reflexivity].
    destruct (transaction _ st) as [[a | e] st'] eqn:T; simpl.
    + intros N. exfalso. apply N. reflexivity.
    + intros _ _. eapply transaction_thrown. exact T.
  - exfalso. eapply ND. reflexivity.
  - unfold create_from_proposal, authorize. destruct (existsb _ _); [| reflexivity].
    destruct proposal_id as [pid |]; [| reflexivity].
    destruct bank_account_id as [bank |]; [| reflexivity].
    destruct (transaction _ st) as [[a | e] st'] eqn:T; simpl.
    + intros _ N. exfalso. apply N. reflexivity.
    + intros _ _. eapply transaction_thrown. exact T.
  - unfold update_utr, authorize. destruct (existsb _ _); [| reflexivity].
    destruct details as [details |]; [| reflexivity].
    destruct (transaction _ st) as [[a | e] st'] eqn:T; simpl.
    + intros N. exfalso. apply N. reflexivity.
    + intros _ _. eapply transaction_thrown. exact T.
  - unfold create_inward_bill, authorize. destruct (existsb _ _); [| reflexivity].
    destruct (negb _); [reflexivity |].
    destruct (dueDate _ _); [| reflexivity].
    destruct (insert_inward_bill _ _ _ _); [| reflexivity]. simpl.
    intros _ N. exfalso. apply N. reflexivity.
  - unfold update_inward_bill, authorize. destruct (existsb _ _); [| reflexivity].
    destruct (select_where _ _); [reflexivity |].
    destruct (negb _); [reflexivity |]. destruct (is_bill_paid _); [reflexivity |].
    destruct (recalculated_due _ _); [| reflexivity].
    destruct (no_set_clause _); [reflexivity |]. simpl.
    intros N. exfalso. apply N. reflexivity.
  - unfold cancel_inward_bill, authorize. destruct (existsb _ _); [| reflexivity].
    destruct reason as [reason |]; [| reflexivity].
    destruct (String.eqb _ _); [reflexivity |].
    destruct (select_where _ _); [reflexivity |].
    destruct (0 <? _); [reflexivity |]. simpl.
    intros N. exfalso. apply N. reflexivity.
Qed.

(** ** Creating and deleting a proposal *)

Lemma bill_exists_spec (st : db) (bill_id : uuid) :
  bill_exists st bill_id = true
  <-> exists b, In b (inward_bills st) /\ ib_id b = bill_id.
Proof.
  unfold bill_exists, exists_where. rewrite existsb_exists.
  split; intros (b & I & E); exists b; (split; [exact I |]);
    apply Nat.eqb_eq; exact E.
Qed.

Lemma bill_exists_same (st st' : db) (bill_id : uuid) :
  inward_bills st' = inward_bills st ->
  bill_exists st' bill_id = bill_exists st bill_id.
Proof. intros E. unfold bill_exists. rewrite E. reflexivity. Qed.

Lemma insert_items_done (proposal_id : uuid) (items : list new_item) :
  forall st,
    (forall n, In n items -> bill_exists st (ni_bill_id n) = true) ->
    exists rows st',
      for_each (insert_proposal_item proposal_id) items st = Done (tt, st')
      /\ proposal_items st' = proposal_items st ++ rows
      /\ map (fun i => (pi_proposal_id i, pi_bill_id i, pi_proposed_amount i,
                        pi_status i, pi_accounts_status i, pi_owner_status i,
                        pi_accounts_amount i, pi_owner_amount i)) rows
         = map (fun n => (proposal_id, ni_bill_id n, ni_proposed_amount n,
                          Proposed, AccPending, OwnPending,
                          @None Z, @None Z)) items
      /\ proposals st' = proposals st
      /\ inward_bills st' = inward_bills st
      /\ payments st' = payments st
      /\ payment_details st' = payment_details st
      /\ vendors st' = vendors st.
Proof.
  induction items as [| n items IH]; intros st B.
  - exists [], st. rewrite app_nil_r. repeat split.
  - simpl. unfold tx_bind. unfold insert_proposal_item at 1.
    unfold tx_bind, ask. rewrite (B n (or_introl eq_refl)). unfold exec. simpl.
    match goal with
    | |- context [for_each _ items ?s] =>
      destruct (IH s) as (rows & st' & E & I & M & P1 & P2 & P3 & P4 & P5)
    end.
    { intros m Im. rewrite <- (B m (or_intror Im)). apply bill_exists_same.
      reflexivity. }
    rewrite E. simpl in I. rewrite <- app_assoc in I.
    eexists. exists st'. split; [reflexivity |]. split; [exact I |].
    simpl. rewrite M. repeat split; assumption.
Qed.

Lemma insert_items_refused (proposal_id : uuid) (items : list new_item) :
  forall st,
    (exists n, In n items /\ bill_exists st (ni_bill_id n) = false) ->
    for_each (insert_proposal_item proposal_id) items st = Thrown (PgError "23503").
Proof.
  induction items as [| n items IH]; intros st (m & I & B); [destruct I |].
  simpl. unfold tx_bind. unfold insert_proposal_item at 1. unfold tx_bind, ask.
  destruct (bill_exists st (ni_bill_id n)) eqn:Bn; [| reflexivity].
  unfold exec. simpl. apply IH.
  destruct I as [I | I]; [subst m; congruence |].
  exists m. split; [exact I |]. rewrite <- B. apply bill_exists_same. reflexivity.
Qed.

(** X2. A proposal is created for bills that exist, without a further look
    at them. For a caller with the purchase or owner role and a request
    that passes the validation: when every item names a bill of the table,
    the answer is 201; one proposal is appended, a draft of the caller's
    with the payment date and the trimmed remarks of the request, whose
    total is the sum of the proposed amounts; and one item per entry is
    appended, in order, for the entry's bill and amount, [proposed] with
    both tracks pending; the other tables are not written. When an item
    names a bill that is not in the table, the answer is 400 and nothing is
    written. *)
Theorem create_proposal_effect (u : user) (payment_date : Z)
    (remarks : option string) (items : list new_item) (st : db) :
  user_role u = Purchase \/ user_role u = Owner ->
  valid_createProposal payment_date remarks items = true ->
  let result := create_proposal u payment_date remarks items st in
  ((forall n, In n items ->
      exists b, In b (inward_bills st) /\ ib_id b = ni_bill_id n) ->
   exists p rows,
     fst result = Json 201 "Proposal created successfully"
     /\ proposals (snd result) = proposals st ++ [p]
     /\ p_status p = Draft
     /\ p_created_by p = user_id u
     /\ p_payment_date p = payment_date
     /\ p_remarks p = option_map trim remarks
     /\ p_total_amount p = sum_of ni_proposed_amount items
     /\ proposal_items (snd result) = proposal_items st ++ rows
     /\ map (fun i => (pi_proposal_id i, pi_bill_id i, pi_proposed_amount i,
                       pi_status i, pi_accounts_status i, pi_owner_status i,
                       pi_accounts_amount i, pi_owner_amount i)) rows
        = map (fun n => (p_id p, ni_bill_id n, ni_proposed_amount n,
                         Proposed, AccPending, OwnPending,
                         @None Z, @None Z)) items
     /\ inward_bills (snd result) = inward_bills st
     /\ payments (snd result) = payments st
     /\ payment_details (snd result) = payment_details st)
  /\ ((exists n, In n items
                 /\ forall b, In b (inward_bills st) -> ib_id b <> ni_bill_id n) ->
      result = (Json 400 "Invalid reference", st)).
Proof.
  intros R V result.
  assert (A : existsb (role_eqb (user_role u)) [Purchase; Owner] = true)
    by (destruct R as [R | R]; rewrite R; reflexivity).
  set (p := {| p_id := S (next_id st); p_number := next_id st;
               p_payment_date := payment_date;
               p_total_amount := sum_of ni_proposed_amount items;
               p_remarks := sanitized_optional remarks;
               p_status := default_proposal_status;
               p_created_by := user_id u |}).
  set (st1 := with_proposals (snd (fresh (snd (fresh st)))) (proposals st ++ [p])).
  assert (RUN : forall o : outcome (unit * db),
             for_each (insert_proposal_item (S (next_id st))) items st1 = o ->
             result = match o with
                      | Done (_, st') => (Json 201 "Proposal created successfully", st')
                      | Thrown e => (errorHandler e, st)
                      end).
  { intros o E. subst result. unfold create_proposal, authorize. rewrite A, V.
    cbn [negb]. unfold transaction, tx_bind. cbn [fresh]. unfold exec at 1.
    match goal with
    | |- context [for_each ?f ?l ?s] =>
      replace (for_each f l s) with o by (symmetry; exact E)
    end.
    destruct o as [[[] st'] | e]; reflexivity. }
  split.
  - intros B.
    destruct (insert_items_done (S (next_id st)) items st1)
      as (rows & st' & E & I & M & P1 & P2 & P3 & P4 & _).
    { intros n In'. apply bill_exists_spec. exact (B n In'). }
    rewrite (RUN _ E). simpl in *. exists p, rows.
    repeat split; auto.
  - intros (n & In' & N).
    assert (B : bill_exists st1 (ni_bill_id n) = false).
    { destruct (bill_exists st1 (ni_bill_id n)) eqn:B; [| reflexivity].
      apply bill_exists_spec in B. destruct B as (b & Ib & E).
      exfalso. exact (N b Ib E). }
    rewrite (RUN _ (insert_items_refused (S (next_id st)) items st1
                      (ex_intro _ n (conj In' B)))).
    reflexivity.
Qed.

(** X3. Deleting a proposal, for a caller with the purchase or owner role.
    The answer is 200 exactly when the proposal is a draft that the caller
    created or the caller is the owner, and 400 otherwise. The rows that
    remain are, in their order, the proposals other than such drafts with
    this key and the items of other proposals; bills, payments and details
    are not written. *)
Theorem delete_proposal_effect (u : user) (id : uuid) (st : db) :
  user_role u = Purchase \/ user_role u = Owner ->
  let result := delete_proposal u id st in
  let mine p := p_id p = id /\ p_status p = Draft
                /\ (p_created_by p = user_id u \/ user_role u = Owner) in
  (fst result = Json 200 "Proposal deleted" <-> exists p, In p (proposals st) /\ mine p)
  /\ (fst result = Json 200 "Proposal deleted"
      \/ fst result = Json 400 "Cannot delete this proposal")
  /\ (forall p, In p (proposals (snd result)) <-> In p (proposals st) /\ ~ mine p)
  /\ (forall i, In i (proposal_items (snd result))
                <-> In i (proposal_items st) /\ pi_proposal_id i <> id)
  /\ inward_bills (snd result) = inward_bills st
  /\ payments (snd result) = payments st
  /\ payment_details (snd result) = payment_details st.
Proof.
  intros R result mine.
  assert (A : existsb (role_eqb (user_role u)) [Purchase; Owner] = true)
    by (destruct R as [R | R]; rewrite R; reflexivity).
  set (w := fun p => Nat.eqb (p_id p) id && is_draft (p_status p)
                     && (Nat.eqb (p_created_by p) (user_id u)
                         || role_eqb (user_role u) Owner)).
  assert (W : forall p, w p = true <-> mine p).
  { intros p. unfold w, mine.
    rewrite !andb_true_iff, orb_true_iff, !Nat.eqb_eq.
    destruct (p_status p), (user_role u); simpl; intuition discriminate. }
  assert (EQ : result
               = (match hd_error (select_where w (proposals st)) with
                  | None => Json 400 "Cannot delete this proposal"
                  | Some _ => Json 200 "Proposal deleted"
                  end,
                  with_proposals
                    (with_proposal_items st
                       (delete_where (fun i => Nat.eqb (pi_proposal_id i) id)
                          (proposal_items st)))
                    (delete_where w (proposals st)))).
  { subst result. unfold delete_proposal, authorize. rewrite A.
    unfold transaction, tx_bind, exec, ask, tx_ret. simpl. fold w.
    destruct (hd_error (select_where w (proposals st))); reflexivity. }
  rewrite EQ. simpl. split; [| split; [| split; [| split]]].
  - unfold select_where. split.
    + destruct (filter w (proposals st)) as [| p l] eqn:F; [discriminate |].
      intros _. exists p.
      assert (I : In p (filter w (proposals st))) by (rewrite F; left; reflexivity).
      apply filter_In in I. destruct I as [I Wp]. split; [exact I | apply W; exact Wp].
    + intros (p & I & M).
      destruct (filter w (proposals st)) as [| q l] eqn:F; [| reflexivity].
      assert (X : In p (filter w (proposals st)))
        by (apply filter_In; split; [exact I | apply W; exact M]).
      rewrite F in X. destruct X.
  - destruct (hd_error _); auto.
  - intros p. unfold delete_where. rewrite filter_In, negb_true_iff.
    split; intros [I N]; split; auto.
    + intros M. apply W in M. congruence.
    + destruct (w p) eqn:Wp; [| reflexivity]. exfalso. apply N, W. exact Wp.
  - intros i. unfold delete_where. rewrite filter_In, negb_true_iff, Nat.eqb_neq.
    tauto.
  - auto.
Qed.

(** ** The accounts and owner actions, entry by entry *)

Lemma with_proposal_items_twice (st : db) (a b : list proposal_item) :
  with_proposal_items (with_proposal_items st a) b = with_proposal_items st b.
Proof. reflexivity. Qed.

(** A later entry for the same item overwrites what an earlier one wrote. *)
Lemma written_by_last_cons (set : action_entry -> proposal_item -> proposal_item)
    (e : action_entry) (rest : list action_entry) (i : proposal_item) :
  (forall e i, pi_id (set e i) = pi_id i) ->
  (forall e e' i, set e' (set e i) = set e' i) ->
  written_by_last set rest (if Nat.eqb (pi_id i) (ae_item_id e) then set e i else i)
  = written_by_last set (e :: rest) i.
Proof.
  intros Id Ab. unfold written_by_last. simpl.
  destruct (Nat.eqb (pi_id i) (ae_item_id e)) eqn:M.
  - rewrite Id. destruct (last_entry (pi_id i) rest); [apply Ab | reflexivity].
  - destruct (last_entry (pi_id i) rest); reflexivity.
Qed.

Lemma written_by_last_twice (set : action_entry -> proposal_item -> proposal_item)
    (items : list action_entry) (i : proposal_item) :
  (forall e i, pi_id (set e i) = pi_id i) ->
  (forall e e' i, set e' (set e i) = set e' i) ->
  written_by_last set items (written_by_last set items i) = written_by_last set items i.
Proof.
  intros Id Ab. unfold written_by_last.
  destruct (last_entry (pi_id i) items) as [e |] eqn:L.
  - rewrite Id, L. apply Ab.
  - rewrite L. reflexivity.
Qed.

Lemma accounts_set_id (u : user) (e : action_entry) (i : proposal_item) :
  pi_id (accounts_set u e i) = pi_id i.
Proof. reflexivity. Qed.

Lemma accounts_set_absorbs (u : user) (e e' : action_entry) (i : proposal_item) :
  accounts_set u e' (accounts_set u e i) = accounts_set u e' i.
Proof. reflexivity. Qed.

Lemma owner_set_id (u : user) (e : action_entry) (i : proposal_item) :
  pi_id (owner_set u e i) = pi_id i.
Proof. unfold owner_set. destruct (String.eqb (ae_action e) "defer"); reflexivity. Qed.

Lemma owner_set_absorbs (u : user) (e e' : action_entry) (i : proposal_item) :
  owner_set u e' (owner_set u e i) = owner_set u e' i.
Proof.
  unfold owner_set.
  destruct (String.eqb (ae_action e) "defer"), (String.eqb (ae_action e') "defer");
    reflexivity.
Qed.

(** The loop of the accounts action over valid entries. *)
Lemma accounts_loop_done (u : user) (items : list action_entry) :
  forallb accounts_valid items = true ->
  forall st,
    for_each (accounts_step u) items st
    = Done (tt, with_proposal_items st
                  (map (written_by_last (accounts_set u) items) (proposal_items st))).
Proof.
  induction items as [| e rest IH]; intros V st.
  - simpl. unfold tx_ret, written_by_last. simpl. rewrite map_id.
    destruct st; reflexivity.
  - simpl in V. apply andb_true_iff in V as [V1 V2].
    cbn [for_each]. unfold tx_bind. unfold accounts_step at 1.
    unfold accounts_valid in V1. rewrite V1. cbn [negb]. unfold exec.
    rewrite (IH V2). cbn [proposal_items with_proposal_items].
    rewrite with_proposal_items_twice. unfold update_where. rewrite map_map.
    do 3 f_equal. apply map_ext. intros i.
    apply (written_by_last_cons (accounts_set u) e rest i
             (accounts_set_id u) (accounts_set_absorbs u)).
Qed.

(** With an entry whose action is not valid the loop throws, and which
    error it throws does not depend on the database. *)
Lemma accounts_loop_throws (u : user) (items : list action_entry) :
  forallb accounts_valid items = false ->
  exists e, forall st, for_each (accounts_step u) items st = Thrown e.
Proof.
  induction items as [| x rest IH]; intros V; [discriminate |].
  simpl in V. destruct (accounts_valid x) eqn:V1.
  - destruct (IH V) as (e & E). exists e. intros st.
    cbn [for_each]. unfold tx_bind. unfold accounts_step at 1.
    unfold accounts_valid in V1. rewrite V1. cbn [negb]. unfold exec. apply E.
  - eexists. intros st. cbn [for_each]. unfold tx_bind. unfold accounts_step at 1.
    unfold accounts_valid in V1. rewrite V1. reflexivity.
Qed.

Lemma accounts_action_runs (u : user) (id : uuid) (items : list action_entry) (st : db) :
  existsb (role_eqb (user_role u)) [Accounts; Owner] = true ->
  forallb accounts_valid items = true ->
  accounts_action u id (Some items) st
  = (Json 200 "Accounts validation updated",
     with_proposals
       (with_proposal_items st
          (map (written_by_last (accounts_set u) items) (proposal_items st)))
       (update_where (fun p => Nat.eqb (p_id p) id) (set_p_status UnderReview)
          (proposals st))).
Proof.
  intros A V. unfold accounts_action, authorize. rewrite A.
  unfold transaction, tx_bind. rewrite (accounts_loop_done u items V).
  unfold exec. reflexivity.
Qed.

Lemma set_status_twice (id : uuid) (s : proposal_status) (t : list proposal) :
  update_where (fun p => Nat.eqb (p_id p) id) (set_p_status s)
    (update_where (fun p => Nat.eqb (p_id p) id) (set_p_status s) t)
  = update_where (fun p => Nat.eqb (p_id p) id) (set_p_status s) t.
Proof.
  unfold update_where. rewrite map_map. apply map_ext. intros p.
  destruct (Nat.eqb (p_id p) id) eqn:E; simpl; rewrite E; reflexivity.
Qed.

(** X4. The accounts action writes, into every item, what the last entry that
    names it says, and nothing into an item no entry names; it sets the
    proposal to [under_review] whatever its status was. For a caller with
    the accounts or owner role and a request of valid actions only, the
    answer is 200; the owner track, the amounts proposed and the keys of
    all items stay as they are, and so do bills, payments and details. *)
Theorem accounts_action_effect (u : user) (id : uuid) (items : list action_entry)
    (st : db) :
  user_role u = Accounts \/ user_role u = Owner ->
  forallb accounts_valid items = true ->
  let result := accounts_action u id (Some items) st in
  fst result = Json 200 "Accounts validation updated"
  /\ proposal_items (snd result)
     = map (written_by_last (accounts_set u) items) (proposal_items st)
  /\ (forall i, last_entry (pi_id i) items = None ->
                written_by_last (accounts_set u) items i = i)
  /\ (forall i e, last_entry (pi_id i) items = Some e ->
        let i' := written_by_last (accounts_set u) items i in
        pi_accounts_amount i' = ae_amount e
        /\ pi_accounts_reason i' = ae_reason e
        /\ pi_accounts_by i' = Some (user_id u)
        /\ (ae_action e = "approve" ->
            pi_accounts_status i' = AccApproved /\ pi_status i' = AccountsApproved)
        /\ (ae_action e = "hold" ->
            pi_accounts_status i' = AccHeld /\ pi_status i' = AccountsHeld)
        /\ (ae_action e = "reject" ->
            pi_accounts_status i' = AccPending /\ pi_status i' = Proposed))
  /\ map (fun i => (pi_id i, pi_proposal_id i, pi_bill_id i, pi_proposed_amount i,
                    pi_owner_status i, pi_owner_amount i))
         (proposal_items (snd result))
     = map (fun i => (pi_id i, pi_proposal_id i, pi_bill_id i, pi_proposed_amount i,
                      pi_owner_status i, pi_owner_amount i))
         (proposal_items st)
  /\ proposals (snd result)
     = update_where (fun p => Nat.eqb (p_id p) id) (set_p_status UnderReview)
         (proposals st)
  /\ inward_bills (snd result) = inward_bills st
  /\ payments (snd result) = payments st
  /\ payment_details (snd result) = payment_details st.
Proof.
  intros R V result.
  assert (A : existsb (role_eqb (user_role u)) [Accounts; Owner] = true)
    by (destruct R as [R | R]; rewrite R; reflexivity).
  subst result. rewrite (accounts_action_runs u id items st A V). simpl.
  split; [reflexivity |]. split; [reflexivity |].
  split; [| split; [| split; [| repeat split; reflexivity]]].
  - intros i L. unfold written_by_last. rewrite L. reflexivity.
  - intros i e L. unfold written_by_last. rewrite L. simpl.
    repeat split; try reflexivity; unfold accounts_set;
      match goal with H : ae_action e = _ |- _ => rewrite H end; reflexivity.
  - rewrite map_map. apply map_ext. intros i. unfold written_by_last.
    destruct (last_entry (pi_id i) items); reflexivity.
Qed.

(** X5. Sending the same accounts action a second time changes nothing more
    and is answered as the first time, whoever sends it and whatever the
    request holds (the time columns, which the rows leave out, aside). *)
Theorem accounts_action_idempotent (u : user) (id : uuid)
    (items : option (list action_entry)) (st : db) :
  accounts_action u id items (snd (accounts_action u id items st))
  = accounts_action u id items st.
Proof.
  destruct (existsb (role_eqb (user_role u)) [Accounts; Owner]) eqn:A.
  - destruct items as [items |].
    + destruct (forallb accounts_valid items) eqn:V.
      * rewrite (accounts_action_runs u id items st A V). cbn [snd].
        rewrite (accounts_action_runs u id items _ A V).
        f_equal. unfold with_proposals, with_proposal_items.
        cbn [vendors inward_bills proposals proposal_items payments
             payment_details next_id].
        f_equal.
        -- apply set_status_twice.
        -- rewrite map_map. apply map_ext. intros i.
           apply written_by_last_twice;
             [apply accounts_set_id | apply accounts_set_absorbs].
      * destruct (accounts_loop_throws u items V) as (e & E).
        unfold accounts_action, authorize. rewrite A.
        unfold transaction, tx_bind. rewrite !E. cbn [snd]. rewrite ?E. reflexivity.
    + unfold accounts_action, authorize. rewrite A. reflexivity.
  - unfold accounts_action, authorize. rewrite A. reflexivity.
Qed.

Lemma update_where_item_twice (id : uuid) (f g : proposal_item -> proposal_item)
    (t : list proposal_item) :
  (forall i, pi_id (f i) = pi_id i) ->
  update_where (fun i => Nat.eqb (pi_id i) id) g
    (update_where (fun i => Nat.eqb (pi_id i) id) f t)
  = update_where (fun i => Nat.eqb (pi_id i) id) (fun i => g (f i)) t.
Proof.
  intros Id. unfold update_where. rewrite map_map. apply map_ext. intros i.
  destruct (Nat.eqb (pi_id i) id) eqn:E; [rewrite Id |]; rewrite E; reflexivity.
Qed.

(** The loop of the owner action over valid entries: the flags, and the
    items as the last entry naming each leaves them. *)
Lemma owner_loop_done (u : user) (items : list action_entry) :
  forallb owner_valid items = true ->
  forall hA hD st,
    owner_loop u items hA hD st
    = Done ((hA || existsb is_approve items, hD || existsb is_defer items),
            with_proposal_items st
              (map (written_by_last (owner_set u) items) (proposal_items st))).
Proof.
  induction items as [| e rest IH]; intros V hA hD st.
  - simpl. unfold tx_ret, written_by_last. simpl. rewrite map_id, !orb_false_r.
    destruct st; reflexivity.
  - simpl in V. apply andb_true_iff in V as [V1 V2].
    cbn [owner_loop]. unfold owner_valid in V1. rewrite V1. cbn [negb].
    unfold tx_bind at 1. unfold exec at 1. unfold tx_bind at 1.
    assert (S : forall st0 : db,
               (if String.eqb (ae_action e) "defer"
                then exec (fun st => with_proposal_items st
                       (update_where (fun i => Nat.eqb (pi_id i) (ae_item_id e))
                          (set_pi_status CarryForward) (proposal_items st)))
                else tx_ret tt)
                 (with_proposal_items st0
                    (update_where (fun i => Nat.eqb (pi_id i) (ae_item_id e))
                       (set_pi_owner
                          (if String.eqb (ae_action e) "approve" then OwnApproved
                           else if String.eqb (ae_action e) "defer" then OwnDeferred
                                else OwnRejected)
                          (ae_amount e) (ae_reason e) (user_id u)
                          (if String.eqb (ae_action e) "approve" then OwnerApproved
                           else if String.eqb (ae_action e) "defer" then OwnerDeferred
                                else OwnerRejected))
                       (proposal_items st0)))
               = Done (tt, with_proposal_items st0
                             (update_where (fun i => Nat.eqb (pi_id i) (ae_item_id e))
                                (owner_set u e) (proposal_items st0)))).
    { intros st0. unfold owner_set.
      destruct (String.eqb (ae_action e) "defer"); [| reflexivity].
      unfold exec. cbn [proposal_items with_proposal_items].
      rewrite with_proposal_items_twice, update_where_item_twice; reflexivity. }
    rewrite S. rewrite (IH V2). cbn [proposal_items with_proposal_items].
    rewrite with_proposal_items_twice. unfold update_where. rewrite map_map.
    f_equal. f_equal.
    + unfold is_approve, is_defer. simpl.
      destruct (String.eqb (ae_action e) "approve"),
               (String.eqb (ae_action e) "defer"), hA, hD;
        simpl; rewrite ?orb_true_r; reflexivity.
    + f_equal. apply map_ext. intros i.
      apply (written_by_last_cons (owner_set u) e rest i
               (owner_set_id u) (owner_set_absorbs u)).
Qed.

Lemma owner_loop_throws_same (u : user) (items : list action_entry) :
  forallb owner_valid items = false ->
  exists e, forall hA hD st, owner_loop u items hA hD st = Thrown e.
Proof.
  induction items as [| x rest IH]; intros V; [discriminate |].
  simpl in V. destruct (owner_valid x) eqn:V1.
  - destruct (IH V) as (e & E). exists e. intros hA hD st.
    cbn [owner_loop]. unfold owner_valid in V1. rewrite V1. cbn [negb].
    unfold tx_bind at 1. unfold exec at 1. unfold tx_bind at 1.
    destruct (String.eqb (ae_action x) "defer");
      [unfold exec at 1 | unfold tx_ret at 1]; apply E.
  - eexists. intros hA hD st. cbn [owner_loop].
    unfold owner_valid in V1. rewrite V1. reflexivity.
Qed.

Lemma owner_action_runs (u : user) (id : uuid) (items : list action_entry) (st : db) :
  existsb (role_eqb (user_role u)) [Owner] = true ->
  forallb owner_valid items = true ->
  owner_action u id (Some items) st
  = (Json 200 "Owner approval processed",
     with_proposals
       (with_proposal_items st
          (map (written_by_last (owner_set u) items) (proposal_items st)))
       (update_where (fun p => Nat.eqb (p_id p) id)
          (set_p_status (owner_decision items)) (proposals st))).
Proof.
  intros A V. unfold owner_action, authorize. rewrite A.
  unfold transaction, tx_bind. rewrite (owner_loop_done u items V).
  unfold exec. cbn [fst snd orb]. rewrite owner_newStatus_decision. reflexivity.
Qed.

(** X6. The owner action on the items, for the owner and a request of valid
    actions only: every item is left as the last entry that names it says,
    with the owner's status, amount, reason and user; its status becomes
    [owner_approved] for an approval, [owner_rejected] for a rejection and
    [carry_forward] for a deferral, so that [owner_deferred] is never what
    a request leaves behind. Items no entry names, the accounts track and
    the proposed amounts are untouched, as are bills, payments and
    details. *)
Theorem owner_action_items (u : user) (id : uuid) (items : list action_entry)
    (st : db) :
  user_role u = Owner ->
  forallb owner_valid items = true ->
  let result := owner_action u id (Some items) st in
  proposal_items (snd result)
  = map (written_by_last (owner_set u) items) (proposal_items st)
  /\ (forall i, last_entry (pi_id i) items = None ->
                written_by_last (owner_set u) items i = i)
  /\ (forall i e, last_entry (pi_id i) items = Some e ->
        let i' := written_by_last (owner_set u) items i in
        pi_owner_amount i' = ae_amount e
        /\ pi_owner_reason i' = ae_reason e
        /\ pi_owner_by i' = Some (user_id u)
        /\ (ae_action e = "approve" ->
            pi_owner_status i' = OwnApproved /\ pi_status i' = OwnerApproved)
        /\ (ae_action e = "defer" ->
            pi_owner_status i' = OwnDeferred /\ pi_status i' = CarryForward)
        /\ (ae_action e = "reject" ->
            pi_owner_status i' = OwnRejected /\ pi_status i' = OwnerRejected)
        /\ pi_status i' <> OwnerDeferred)
  /\ map (fun i => (pi_id i, pi_proposal_id i, pi_bill_id i, pi_proposed_amount i,
                    pi_accounts_status i, pi_accounts_amount i))
         (proposal_items (snd result))
     = map (fun i => (pi_id i, pi_proposal_id i, pi_bill_id i, pi_proposed_amount i,
                      pi_accounts_status i, pi_accounts_amount i))
         (proposal_items st)
  /\ inward_bills (snd result) = inward_bills st
  /\ payments (snd result) = payments st
  /\ payment_details (snd result) = payment_details st.
Proof.
  intros R V result.
  assert (A : existsb (role_eqb (user_role u)) [Owner] = true)
    by (rewrite R; reflexivity).
  subst result. rewrite (owner_action_runs u id items st A V). simpl.
  split; [reflexivity |].
  split; [| split; [| split; [| repeat split; reflexivity]]].
  - intros i L. unfold written_by_last. rewrite L. reflexivity.
  - intros i e L. unfold written_by_last. rewrite L. unfold owner_set.
    split; [destruct (String.eqb (ae_action e) "defer"); reflexivity |].
    split; [destruct (String.eqb (ae_action e) "defer"); reflexivity |].
    split; [destruct (String.eqb (ae_action e) "defer"); reflexivity |].
    split; [intros E; rewrite E; split; reflexivity |].
    split; [intros E; rewrite E; split; reflexivity |].
    split; [intros E; rewrite E; split; reflexivity |].
    destruct (String.eqb (ae_action e) "defer"); simpl; [discriminate |].
    destruct (String.eqb (ae_action e) "approve"); discriminate.
  - rewrite map_map. apply map_ext. intros i. unfold written_by_last, owner_set.
    destruct (last_entry (pi_id i) items) as [e |]; [| reflexivity].
    destruct (String.eqb (ae_action e) "defer"); reflexivity.
Qed.

(** X7. Sending the same owner action a second time changes nothing more and
    is answered as the first time (the time columns, which the rows leave
    out, aside). *)
Theorem owner_action_idempotent (u : user) (id : uuid)
    (items : option (list action_entry)) (st : db) :
  owner_action u id items (snd (owner_action u id items st))
  = owner_action u id items st.
Proof.
  destruct (existsb (role_eqb (user_role u)) [Owner]) eqn:A.
  - destruct items as [items |].
    + destruct (forallb owner_valid items) eqn:V.
      * rewrite (owner_action_runs u id items st A V). cbn [snd].
        rewrite (owner_action_runs u id items _ A V).
        f_equal. unfold with_proposals, with_proposal_items.
        cbn [vendors inward_bills proposals proposal_items payments
             payment_details next_id].
        f_equal.
        -- apply set_status_twice.
        -- rewrite map_map. apply map_ext. intros i.
           apply written_by_last_twice;
             [apply owner_set_id | apply owner_set_absorbs].
      * destruct (owner_loop_throws_same u items V) as (e & E).
        unfold owner_action, authorize. rewrite A.
        unfold transaction, tx_bind. rewrite !E. cbn [snd]. rewrite ?E. reflexivity.
    + unfold owner_action, authorize. rewrite A. reflexivity.
  - unfold owner_action, authorize. rewrite A. reflexivity.
Qed.

(** ** What makes an item paid, and what changes a paid amount *)

Lemma paid_items_kept_refl st : paid_items_kept st st.
Proof. intros i I _. exact I. Qed.

Lemma paid_items_kept_trans a b c :
  paid_items_kept a b -> paid_items_kept b c -> paid_items_kept a c.
Proof. intros H1 H2 i I S. apply H1; [apply H2 |]; assumption. Qed.

Lemma same_inward_bills_refl st : same_inward_bills st st.
Proof. reflexivity. Qed.

Lemma same_inward_bills_trans a b c :
  same_inward_bills a b -> same_inward_bills b c -> same_inward_bills a c.
Proof. unfold same_inward_bills. congruence. Qed.

Lemma update_items_keeps_paid (w : proposal_item -> bool)
    (f : proposal_item -> proposal_item) (st : db) :
  (forall i, pi_status (f i) <> Paid) ->
  paid_items_kept st (with_proposal_items st (update_where w f (proposal_items st))).
Proof.
  intros N i I S. simpl in I. apply update_where_in in I.
  destruct I as [(I & _) | (r & _ & _ & E)]; [exact I |].
  subst i. exfalso. exact (N r S).
Qed.

Ltac frames refl trans :=
  repeat first
    [ apply (frame_bind _ trans)
    | apply (frame_for_each _ refl trans)
    | apply (frame_ret _ refl)
    | apply (frame_ask _ refl)
    | apply frame_throw
    | apply frame_exec; intros; solve [apply refl | reflexivity]
    | apply frame_fresh; intros; solve [apply refl | reflexivity]
    | intro ].

Lemma accounts_step_keeps_paid (u : user) (item : action_entry) :
  tx_frame paid_items_kept (accounts_step u item).
Proof.
  unfold accounts_step. destruct (negb _); [apply frame_throw |].
  apply frame_exec. intros st. apply update_items_keeps_paid.
  intros i. simpl. destruct (String.eqb _ "approve"); [discriminate |].
  destruct (String.eqb _ "hold"); discriminate.
Qed.

Lemma owner_loop_keeps_paid (u : user) (items : list action_entry) :
  forall hA hD, tx_frame paid_items_kept (owner_loop u items hA hD).
Proof.
  induction items as [| item rest IH]; intros hA hD; cbn [owner_loop].
  - apply (frame_ret _ paid_items_kept_refl).
  - destruct (negb _); [apply frame_throw |].
    apply (frame_bind _ paid_items_kept_trans).
    + apply frame_exec. intros st. apply update_items_keeps_paid.
      intros i. simpl. destruct (String.eqb _ "approve"); [discriminate |].
      destruct (String.eqb _ "defer"); discriminate.
    + intros _. apply (frame_bind _ paid_items_kept_trans).
      * destruct (String.eqb _ "defer").
        -- apply frame_exec. intros st. apply update_items_keeps_paid.
           intros i. discriminate.
        -- apply (frame_ret _ paid_items_kept_refl).
      * intros _. apply IH.
Qed.

Lemma insert_proposal_item_keeps_paid (id : uuid) (n : new_item) :
  tx_frame paid_items_kept (insert_proposal_item id n).
Proof.
  unfold insert_proposal_item.
  apply (frame_bind _ paid_items_kept_trans);
    [apply (frame_ask _ paid_items_kept_refl) |].
  intros [|]; [| apply frame_throw].
  apply frame_exec. intros st i I S. simpl in I.
  apply in_app_or in I. destruct I as [I | [I | []]]; [exact I |].
  subst i. discriminate S.
Qed.

Lemma insert_payment_detail_keeps_paid (id : uuid) (item : proposal_item) :
  tx_frame paid_items_kept (insert_payment_detail id item).
Proof.
  unfold insert_payment_detail. destruct (pi_owner_amount item);
    [| apply frame_throw].
  apply frame_exec. intros st i I S. exact I.
Qed.

Lemma create_from_proposal_body_keeps_paid (u : user) (pid bank : uuid) :
  tx_frame paid_items_kept (create_from_proposal_body u pid bank).
Proof.
  unfold create_from_proposal_body.
  apply (frame_bind _ paid_items_kept_trans);
    [apply (frame_ask _ paid_items_kept_refl) |].
  intros rows. destruct (Nat.eqb _ 0); [apply frame_throw |].
  apply (frame_bind _ paid_items_kept_trans);
    [apply (frame_ask _ paid_items_kept_refl) |].
  intros items. destruct (Nat.eqb _ 0); [apply frame_throw |].
  apply (frame_bind _ paid_items_kept_trans);
    [apply frame_fresh; intros st0 i I S; exact I |].
  intros n. destruct (total_owner_amount items); [| apply frame_throw].
  apply (frame_bind _ paid_items_kept_trans);
    [apply frame_fresh; intros st0 i I S; exact I |].
  intros k.
  apply (frame_bind _ paid_items_kept_trans);
    [apply frame_exec; intros st0 i I S; exact I |].
  intros _. apply (frame_bind _ paid_items_kept_trans).
  - apply (frame_for_each _ paid_items_kept_refl paid_items_kept_trans).
    intros x. apply insert_payment_detail_keeps_paid.
  - intros _. apply (frame_bind _ paid_items_kept_trans);
      [apply frame_exec; intros st0 i I S; exact I |].
    intros _. apply (frame_ret _ paid_items_kept_refl).
Qed.

Lemma detail_keys_after_update (w : payment_detail -> bool) (utr : option string)
    (l : list payment_detail) :
  map (fun d => (pd_id d, pd_proposal_item_id d, pd_bill_id d, pd_amount d,
                 pd_payment_id d))
      (update_where w (set_pd_utr utr) l)
  = map (fun d => (pd_id d, pd_proposal_item_id d, pd_bill_id d, pd_amount d,
                   pd_payment_id d)) l.
Proof.
  unfold update_where. rewrite map_map. apply map_ext. intros d.
  destruct (w d); reflexivity.
Qed.

Lemma detail_with_keys (l l' : list payment_detail) (d : payment_detail) :
  map (fun d => (pd_id d, pd_proposal_item_id d, pd_bill_id d, pd_amount d,
                 pd_payment_id d)) l'
  = map (fun d => (pd_id d, pd_proposal_item_id d, pd_bill_id d, pd_amount d,
                   pd_payment_id d)) l ->
  In d l' ->
  exists d0, In d0 l /\ pd_id d0 = pd_id d
             /\ pd_proposal_item_id d0 = pd_proposal_item_id d
             /\ pd_bill_id d0 = pd_bill_id d /\ pd_amount d0 = pd_amount d
             /\ pd_payment_id d0 = pd_payment_id d.
Proof.
  intros M I.
  apply (in_map (fun d => (pd_id d, pd_proposal_item_id d, pd_bill_id d, pd_amount d,
                           pd_payment_id d))) in I.
  rewrite M in I. apply in_map_iff in I. destruct I as (d0 & E & I0).
  inversion E. exists d0. repeat split; auto.
Qed.

(** One turn of the UTR loop: the details keep their keys, items, bills,
    amounts and payments, and an item that is [paid] afterwards was so
    before or is the originating item of the detail the entry names, the
    UTR of the entry not being empty. *)
Lemma settle_detail_paid (id : uuid) (e : utr_entry) (st st1 : db) :
  settle_detail id e st = Done (tt, st1) ->
  map (fun d => (pd_id d, pd_proposal_item_id d, pd_bill_id d, pd_amount d,
                 pd_payment_id d)) (payment_details st1)
  = map (fun d => (pd_id d, pd_proposal_item_id d, pd_bill_id d, pd_amount d,
                   pd_payment_id d)) (payment_details st)
  /\ forall i, In i (proposal_items st1) -> pi_status i = Paid ->
       In i (proposal_items st)
       \/ (truthy_string (ue_utr_number e) = true
           /\ exists d, In d (payment_details st) /\ pd_id d = ue_detail_id e
                        /\ pd_proposal_item_id d = Some (pi_id i)).
Proof.
  unfold settle_detail, tx_bind, exec, ask.
  cbn [payment_details with_payment_details].
  set (ds := update_where _ _ (payment_details st)).
  assert (K : map (fun d => (pd_id d, pd_proposal_item_id d, pd_bill_id d,
                             pd_amount d, pd_payment_id d)) ds
              = map (fun d => (pd_id d, pd_proposal_item_id d, pd_bill_id d,
                               pd_amount d, pd_payment_id d)) (payment_details st))
    by apply detail_keys_after_update.
  destruct (select_where _ ds) as [| row rows] eqn:S.
  - unfold tx_ret. intros E. inversion E; subst. simpl. split; [exact K |]. auto.
  - destruct (truthy_string (ue_utr_number e)) eqn:T.
    + intros E. inversion E; subst. clear E. simpl. split; [exact K |].
      intros i I P. apply update_where_in in I.
      destruct I as [(I & _) | (r & Ir & W & Er)]; [left; exact I |].
      right. split; [reflexivity |].
      destruct (select_first (fun d => Nat.eqb (pd_id d) (ue_detail_id e)) ds)
        as [d |] eqn:F; [| discriminate W].
      destruct (select_first_rows _ _ _ F) as (Wd & Id & _).
      destruct (detail_with_keys _ _ d K Id) as (d0 & I0 & E1 & E2 & _).
      exists d0. split; [exact I0 |]. split.
      * rewrite E1. apply Nat.eqb_eq. exact Wd.
      * rewrite E2. subst i. simpl.
        destruct (pd_proposal_item_id d) as [x |]; [| discriminate W].
        simpl in W. apply Nat.eqb_eq in W. rewrite W. reflexivity.
    + unfold tx_ret. intros E. inversion E; subst. simpl. split; [exact K |]. auto.
Qed.

Lemma settle_all_paid (id : uuid) (entries : list utr_entry) :
  forall st st',
    for_each (settle_detail id) entries st = Done (tt, st') ->
    map (fun d => (pd_id d, pd_proposal_item_id d, pd_bill_id d, pd_amount d,
                   pd_payment_id d)) (payment_details st')
    = map (fun d => (pd_id d, pd_proposal_item_id d, pd_bill_id d, pd_amount d,
                     pd_payment_id d)) (payment_details st)
    /\ forall i, In i (proposal_items st') -> pi_status i = Paid ->
         In i (proposal_items st)
         \/ exists e d,
              In e entries /\ truthy_string (ue_utr_number e) = true
              /\ In d (payment_details st) /\ pd_id d = ue_detail_id e
              /\ pd_proposal_item_id d = Some (pi_id i).
Proof.
  induction entries as [| e rest IH]; intros st st' E.
  - inversion E; subst. split; [reflexivity | auto].
  - cbn [for_each] in E. unfold tx_bind in E.
    destruct (settle_detail id e st) as [[[] st1] | x] eqn:S; [| discriminate].
    apply settle_detail_paid in S. destruct S as (K1 & P1).
    apply IH in E. destruct E as (K2 & P2).
    split; [congruence |].
    intros i I P. destruct (P2 i I P) as [I1 | (e' & d & Ie & T & Id & E1 & E2)].
    + destruct (P1 i I1 P) as [I0 | (T & d & Id & E1 & E2)]; [left; exact I0 |].
      right. exists e, d. split; [left; reflexivity | auto].
    + right. destruct (detail_with_keys _ _ d K1 Id) as (d0 & I0 & F1 & F2 & _).
      exists e', d0. split; [right; exact Ie |].
      split; [exact T |]. split; [exact I0 |]. split; congruence.
Qed.

Lemma other_requests_keep_paid_items (u : user) (r : request) (st : db) :
  (forall id d, r <> UpdateUtr id d) ->
  paid_items_kept st (snd (handle u r st)).
Proof.
  intros NR. destruct r; cbn [handle].
  - unfold create_proposal, authorize.
    destruct (existsb _ _); [| apply paid_items_kept_refl].
    destruct (negb _); [apply paid_items_kept_refl |].
    unfold transaction.
    match goal with |- context [match ?m st with _ => _ end] =>
      destruct (m st) as [[a st'] |] eqn:E end; [| apply paid_items_kept_refl].
    simpl. revert E.
    match goal with |- ?m st = _ -> _ =>
      assert (F : tx_frame paid_items_kept m) end.
    { apply (frame_bind _ paid_items_kept_trans);
        [apply frame_fresh; intros st0 i I S; exact I |].
      intros n. apply (frame_bind _ paid_items_kept_trans);
        [apply frame_fresh; intros st0 i I S; exact I |].
      intros k. apply (frame_bind _ paid_items_kept_trans);
        [apply frame_exec; intros st0 i I S; exact I |].
      intros _. apply (frame_for_each _ paid_items_kept_refl paid_items_kept_trans).
      intros x. apply insert_proposal_item_keeps_paid. }
    intros E. exact (F _ _ _ E).
  - unfold submit_proposal, authorize.
    destruct (existsb _ _); [| apply paid_items_kept_refl].
    destruct (Nat.eqb _ 0); simpl; intros x Ix Sx; exact Ix.
  - unfold accounts_action, authorize.
    destruct (existsb _ _); [| apply paid_items_kept_refl].
    destruct items as [items |]; [| apply paid_items_kept_refl].
    unfold transaction.
    match goal with |- context [match ?m st with _ => _ end] =>
      destruct (m st) as [[a st'] |] eqn:E end; [| apply paid_items_kept_refl].
    simpl. revert E.
    match goal with |- ?m st = _ -> _ =>
      assert (F : tx_frame paid_items_kept m) end.
    { apply (frame_bind _ paid_items_kept_trans).
      - apply (frame_for_each _ paid_items_kept_refl paid_items_kept_trans).
        intros x. apply accounts_step_keeps_paid.
      - intros _. apply frame_exec. intros st0 i I S. exact I. }
    intros E. exact (F _ _ _ E).
  - unfold owner_action, authorize.
    destruct (existsb _ _); [| apply paid_items_kept_refl].
    destruct items as [items |]; [| apply paid_items_kept_refl].
    unfold transaction.
    match goal with |- context [match ?m st with _ => _ end] =>
      destruct (m st) as [[a st'] |] eqn:E end; [| apply paid_items_kept_refl].
    simpl. revert E.
    match goal with |- ?m st = _ -> _ =>
      assert (F : tx_frame paid_items_kept m) end.
    { apply (frame_bind _ paid_items_kept_trans).
      - apply owner_loop_keeps_paid.
      - intros flags. apply frame_exec. intros st0 i I S. exact I. }
    intros E. exact (F _ _ _ E).
  - unfold delete_proposal, authorize.
    destruct (existsb _ _); [| apply paid_items_kept_refl].
    unfold transaction, tx_bind, exec, ask, tx_ret. simpl.
    destruct (hd_error _); simpl; intros x Ix Sx;
      unfold delete_where in Ix; apply filter_In in Ix; tauto.
  - unfold create_from_proposal, authorize.
    destruct (existsb _ _); [| apply paid_items_kept_refl].
    destruct proposal_id as [pid |]; [| apply paid_items_kept_refl].
    destruct bank_account_id as [bank |]; [| apply paid_items_kept_refl].
    unfold transaction.
    destruct (create_from_proposal_body u pid bank st) as [[a st'] |] eqn:E;
      [| apply paid_items_kept_refl].
    simpl. exact (create_from_proposal_body_keeps_paid u pid bank _ _ _ E).
  - exfalso. eapply NR. reflexivity.
  - unfold create_inward_bill, authorize.
    destruct (existsb _ _); [| apply paid_items_kept_refl].
    destruct (negb _); [apply paid_items_kept_refl |].
    destruct (dueDate _ _); [| apply paid_items_kept_refl].
    unfold insert_inward_bill.
    destruct (vendor_referable _ _); [| apply paid_items_kept_refl].
    simpl. intros x Ix Sx. exact Ix.
  - unfold update_inward_bill, authorize.
    destruct (existsb _ _); [| apply paid_items_kept_refl].
    destruct (select_where _ _); [apply paid_items_kept_refl |].
    destruct (negb _); [apply paid_items_kept_refl |].
    destruct (is_bill_paid _); [apply paid_items_kept_refl |].
    destruct (recalculated_due _ _); [| apply paid_items_kept_refl].
    destruct (no_set_clause _); [apply paid_items_kept_refl |].
    simpl. intros x Ix Sx. exact Ix.
  - unfold cancel_inward_bill, authorize.
    destruct (existsb _ _); [| apply paid_items_kept_refl].
    destruct reason as [reason |]; [| apply paid_items_kept_refl].
    destruct (String.eqb _ _); [apply paid_items_kept_refl |].
    destruct (select_where _ _); [apply paid_items_kept_refl |].
    destruct (0 <? _); [apply paid_items_kept_refl |].
    simpl. intros x Ix Sx. exact Ix.
Qed.

(** X8. An item becomes [paid] through a UTR update only, and only as the
    originating item of a payment detail that the request names with a UTR
    that is not empty: no approval, batch generation or other request
    produces a paid item that was not there before. *)
Theorem paid_only_by_utr_update (u : user) (r : request) (st : db) (i : proposal_item) :
  In i (proposal_items (snd (handle u r st))) ->
  pi_status i = Paid ->
  ~ In i (proposal_items st) ->
  exists id entries e d,
    r = UpdateUtr id (Some entries)
    /\ fst (handle u r st) = Json 200 "UTR numbers updated"
    /\ In e entries /\ truthy_string (ue_utr_number e) = true
    /\ In d (payment_details st) /\ pd_id d = ue_detail_id e
    /\ pd_proposal_item_id d = Some (pi_id i).
Proof.
  intros I P N.
  destruct r;
    try (exfalso; apply N;
         eapply other_requests_keep_paid_items; eauto; discriminate).
  cbn [handle] in *. revert I. unfold update_utr, authorize.
  destruct (existsb _ _); [| intros I; contradiction].
  destruct details as [entries |]; [| intros I; contradiction].
  unfold transaction, update_utr_body, tx_bind.
  destruct (for_each (settle_detail id) entries st) as [[[] st1] | x] eqn:F;
    [| intros I; contradiction].
  unfold ask, exec. simpl. intros I.
  destruct (settle_all_paid id entries st st1 F) as (_ & H).
  destruct (H i I P) as [I0 | (e & d & Ie & T & Id & E1 & E2)]; [contradiction |].
  exists id, entries, e, d. repeat split; auto.
Qed.

Ltac bill_frames := frames same_inward_bills_refl same_inward_bills_trans.

Lemma accounts_step_same_bills (u : user) (item : action_entry) :
  tx_frame same_inward_bills (accounts_step u item).
Proof. unfold accounts_step. destruct (negb _); bill_frames. Qed.

Lemma owner_loop_same_bills (u : user) (items : list action_entry) :
  forall hA hD, tx_frame same_inward_bills (owner_loop u items hA hD).
Proof.
  induction items as [| item rest IH]; intros hA hD; cbn [owner_loop].
  - bill_frames.
  - destruct (negb _); [apply frame_throw |].
    apply (frame_bind _ same_inward_bills_trans); [bill_frames |]. intros _.
    apply (frame_bind _ same_inward_bills_trans).
    + destruct (String.eqb _ "defer"); bill_frames.
    + intros _. apply IH.
Qed.

Lemma insert_proposal_item_same_bills (id : uuid) (n : new_item) :
  tx_frame same_inward_bills (insert_proposal_item id n).
Proof.
  unfold insert_proposal_item.
  apply (frame_bind _ same_inward_bills_trans); [bill_frames |].
  intros [|]; bill_frames.
Qed.

Lemma insert_payment_detail_same_bills (id : uuid) (item : proposal_item) :
  tx_frame same_inward_bills (insert_payment_detail id item).
Proof. unfold insert_payment_detail. destruct (pi_owner_amount item); bill_frames. Qed.

Lemma create_from_proposal_body_same_bills (u : user) (pid bank : uuid) :
  tx_frame same_inward_bills (create_from_proposal_body u pid bank).
Proof.
  unfold create_from_proposal_body.
  apply (frame_bind _ same_inward_bills_trans); [bill_frames |].
  intros rows. destruct (Nat.eqb _ 0); [apply frame_throw |].
  apply (frame_bind _ same_inward_bills_trans); [bill_frames |].
  intros items. destruct (Nat.eqb _ 0); [apply frame_throw |].
  apply (frame_bind _ same_inward_bills_trans); [bill_frames |].
  intros n. destruct (total_owner_amount items); [| apply frame_throw].
  apply (frame_bind _ same_inward_bills_trans); [bill_frames |].
  intros k. apply (frame_bind _ same_inward_bills_trans); [bill_frames |].
  intros _. apply (frame_bind _ same_inward_bills_trans).
  - apply (frame_for_each _ same_inward_bills_refl same_inward_bills_trans).
    intros x. apply insert_payment_detail_same_bills.
  - intros _. bill_frames.
Qed.

(** X9. The paid amount of a bill is changed by a UTR update only: after any
    other request the bills have the keys and the amounts paid they had, in
    the same order, followed, when a bill was entered, by that bill with
    nothing paid. *)
Theorem paid_amounts_changed_only_by_utr_update (u : user) (r : request) (st : db) :
  (forall id d, r <> UpdateUtr id d) ->
  exists entered,
    map (fun b => (ib_id b, ib_paid_amount b))
        (inward_bills (snd (handle u r st)))
    = map (fun b => (ib_id b, ib_paid_amount b))
          (inward_bills st) ++ entered
    /\ forall x, In x entered -> snd x = 0.
Proof.
  intros NR.
  assert (Same : forall st', same_inward_bills st st' ->
            exists entered,
              map (fun b => (ib_id b, ib_paid_amount b))
                  (inward_bills st')
              = map (fun b => (ib_id b, ib_paid_amount b))
                    (inward_bills st) ++ entered
              /\ forall x, In x entered -> snd x = 0).
  { intros st' E. exists []. rewrite E, app_nil_r. split; [reflexivity |].
    intros x []. }
  destruct r; cbn [handle].
  - apply Same. unfold create_proposal, authorize.
    destruct (existsb _ _); [| reflexivity].
    destruct (negb _); [reflexivity |]. unfold transaction.
    match goal with |- context [match ?m st with _ => _ end] =>
      destruct (m st) as [[a st'] |] eqn:E end; [| reflexivity].
    simpl. revert E.
    match goal with |- ?m st = _ -> _ =>
      assert (F : tx_frame same_inward_bills m) end.
    { apply (frame_bind _ same_inward_bills_trans); [bill_frames |].
      intros n. apply (frame_bind _ same_inward_bills_trans); [bill_frames |].
      intros k. apply (frame_bind _ same_inward_bills_trans); [bill_frames |].
      intros _. apply (frame_for_each _ same_inward_bills_refl same_inward_bills_trans).
      intros x. apply insert_proposal_item_same_bills. }
    intros E. exact (F _ _ _ E).
  - apply Same. unfold submit_proposal, authorize.
    destruct (existsb _ _); [| reflexivity].
    destruct (Nat.eqb _ 0); reflexivity.
  - apply Same. unfold accounts_action, authorize.
    destruct (existsb _ _); [| reflexivity].
    destruct items as [items |]; [| reflexivity]. unfold transaction.
    match goal with |- context [match ?m st with _ => _ end] =>
      destruct (m st) as [[a st'] |] eqn:E end; [| reflexivity].
    simpl. revert E.
    match goal with |- ?m st = _ -> _ =>
      assert (F : tx_frame same_inward_bills m) end.
    { apply (frame_bind _ same_inward_bills_trans).
      - apply (frame_for_each _ same_inward_bills_refl same_inward_bills_trans).
        intros x. apply accounts_step_same_bills.
      - intros _. bill_frames. }
    intros E. exact (F _ _ _ E).
  - apply Same. unfold owner_action, authorize.
    destruct (existsb _ _); [| reflexivity].
    destruct items as [items |]; [| reflexivity]. unfold transaction.
    match goal with |- context [match ?m st with _ => _ end] =>
      destruct (m st) as [[a st'] |] eqn:E end; [| reflexivity].
    simpl. revert E.
    match goal with |- ?m st = _ -> _ =>
      assert (F : tx_frame same_inward_bills m) end.
    { apply (frame_bind _ same_inward_bills_trans).
      - apply owner_loop_same_bills.
      - intros flags. bill_frames. }
    intros E. exact (F _ _ _ E).
  - apply Same. unfold delete_proposal, authorize.
    destruct (existsb _ _); [| reflexivity].
    unfold transaction, tx_bind, exec, ask, tx_ret. simpl.
    destruct (hd_error _); reflexivity.
  - apply Same. unfold create_from_proposal, authorize.
    destruct (existsb _ _); [| reflexivity].
    destruct proposal_id as [pid |]; [| reflexivity].
    destruct bank_account_id as [bank |]; [| reflexivity].
    unfold transaction.
    destruct (create_from_proposal_body u pid bank st) as [[a st'] |] eqn:E;
      [| reflexivity].
    simpl. exact (create_from_proposal_body_same_bills u pid bank _ _ _ E).
  - exfalso. eapply NR. reflexivity.
  - unfold create_inward_bill, authorize.
    destruct (existsb _ _); [| apply Same; reflexivity].
    destruct (negb _); [apply Same; reflexivity |].
    destruct (dueDate _ _); [| apply Same; reflexivity].
    unfold insert_inward_bill.
    destruct (vendor_referable _ _); [| apply Same; reflexivity].
    simpl. rewrite map_app. eexists. split; [reflexivity |].
    simpl. intros x [E | []]. subst x. reflexivity.
  - unfold update_inward_bill, authorize.
    destruct (existsb _ _); [| apply Same; reflexivity].
    destruct (select_where _ _); [apply Same; reflexivity |].
    destruct (negb _); [apply Same; reflexivity |].
    destruct (is_bill_paid _); [apply Same; reflexivity |].
    destruct (recalculated_due _ _); [| apply Same; reflexivity].
    destruct (no_set_clause _); [apply Same; reflexivity |].
    simpl. exists []. rewrite app_nil_r. split; [| intros x []].
    unfold update_where. rewrite map_map. apply map_ext. intros b0.
    destruct (Nat.eqb (ib_id b0) id); reflexivity.
  - unfold cancel_inward_bill, authorize.
    destruct (existsb _ _); [| apply Same; reflexivity].
    destruct reason as [reason |]; [| apply Same; reflexivity].
    destruct (String.eqb _ _); [apply Same; reflexivity |].
    destruct (select_where _ _); [apply Same; reflexivity |].
    destruct (0 <? _); [apply Same; reflexivity |].
    simpl. exists []. rewrite app_nil_r. split; [| intros x []].
    unfold update_where. rewrite map_map. apply map_ext. intros b0.
    destruct (Nat.eqb (ib_id b0) id); reflexivity.
Qed.

(** ** Entering, updating and cancelling an inward bill *)




Lemma dueDate_of_valid (d n : Z) :
  -719528 <= d <= 2932896 -> 0 <= n <= 365 -> dueDate d n = Some (d + n).
Proof.
  intros D N. unfold dueDate.
  assert (A : date_in_range d = true)
    by (unfold date_in_range, max_date_day; apply andb_true_iff;
        rewrite !Z.leb_le; lia).
  assert (B : date_in_range (d + n) = true)
    by (unfold date_in_range, max_date_day; apply andb_true_iff;
        rewrite !Z.leb_le; lia).
  rewrite A, B. reflexivity.
Qed.


(** X11. Updating a bill that exists, by the owner. The request is refused
    with 400, and nothing written, when the bill is cancelled or fully
    paid, or when none of the eight fields is given. Otherwise, for fields
    that would pass the validation of a new bill, the row holding dates
    and credit days that passed it, the answer is 200: every row with the
    key has each given field written and every other one kept, and a
    version one higher; its key, vendor, amount paid, status and creator
    stay as they are; its due date stays as it is when no invoice date is
    given and credit days are not given or are 0. Every bill with another
    key and every other table are as before. *)
Theorem update_inward_bill_effect (u : user) (id : uuid) (updates : bill_updates)
    (st : db) (existing : inward_bill) (others : list inward_bill) :
  user_role u = Owner ->
  select_where (fun b => Nat.eqb (ib_id b) id) (inward_bills st) = existing :: others ->
  let result := update_inward_bill u id updates st in
  (ib_status existing = Cancelled ->
   result = (Json 400 "Cannot update cancelled bill", st))
  /\ (ib_status existing = Active -> ib_payment_status existing = BillPaid ->
      result = (Json 400 "Cannot update fully paid bill", st))
  /\ (ib_status existing = Active -> ib_payment_status existing <> BillPaid ->
      no_set_clause updates = true ->
      result = (Json 400 "No valid fields to update", st))
  /\ (ib_status existing = Active -> ib_payment_status existing <> BillPaid ->
      no_set_clause updates = false ->
      (forall s, bu_bill_number updates = Some s -> (1 <= String.length s <= 50)%nat) ->
      (forall d, bu_invoice_date updates = Some d -> -719528 <= d <= 2932896) ->
      (forall d, bu_receiving_date updates = Some d -> -719528 <= d <= 2932896) ->
      (forall a, bu_amount updates = Some a -> 0 <= a) ->
      (forall n, bu_credit_days updates = Some n -> 0 <= n <= 365) ->
      (forall s, bu_checked_by updates = Some s -> (1 <= String.length s <= 100)%nat) ->
      (forall s, bu_remarks updates = Some (Some s) -> (String.length s <= 500)%nat) ->
      -719528 <= ib_invoice_date existing <= 2932896 ->
      0 <= ib_credit_days existing <= 365 ->
      fst result = Json 200 "Bill updated successfully"
      /\ map (fun b => (ib_id b, ib_vendor_id b, ib_paid_amount b, ib_status b,
                        ib_created_by b)) (inward_bills (snd result))
         = map (fun b => (ib_id b, ib_vendor_id b, ib_paid_amount b, ib_status b,
                          ib_created_by b)) (inward_bills st)
      /\ (forall b', In b' (inward_bills (snd result)) -> ib_id b' = id ->
            exists b,
              In b (inward_bills st) /\ ib_id b = id
              /\ ib_version b' = ib_version b + 1
              /\ written (bu_bill_number updates) (ib_bill_number b) (ib_bill_number b')
              /\ written (bu_invoice_date updates) (ib_invoice_date b)
                   (ib_invoice_date b')
              /\ written (bu_receiving_date updates) (ib_receiving_date b)
                   (ib_receiving_date b')
              /\ written (bu_amount updates) (ib_amount b) (ib_amount b')
              /\ written (bu_credit_days updates) (ib_credit_days b)
                   (ib_credit_days b')
              /\ written (bu_checked_by updates) (ib_checked_by b) (ib_checked_by b')
              /\ written (bu_remarks updates) (ib_remarks b) (ib_remarks b')
              /\ written (bu_bill_scan_url updates) (ib_bill_scan_url b)
                   (ib_bill_scan_url b')
              /\ (bu_invoice_date updates = None ->
                  bu_credit_days updates = None \/ bu_credit_days updates = Some 0 ->
                  ib_due_date b' = ib_due_date b))
      /\ (exists b', In b' (inward_bills (snd result)) /\ ib_id b' = id
                     /\ ib_version b' = ib_version existing + 1)
      /\ (forall b, In b (inward_bills st) -> ib_id b <> id ->
                    In b (inward_bills (snd result)))
      /\ (forall b', In b' (inward_bills (snd result)) -> ib_id b' <> id ->
                     In b' (inward_bills st))
      /\ proposals (snd result) = proposals st
      /\ proposal_items (snd result) = proposal_items st
      /\ payments (snd result) = payments st
      /\ payment_details (snd result) = payment_details st).
Proof.
  intros R S result. subst result. unfold update_inward_bill, authorize.
  rewrite R. cbn [existsb role_eqb orb]. rewrite S.
  split; [| split; [| split]].
  - intros C. rewrite C. reflexivity.
  - intros A P. rewrite A, P. reflexivity.
  - intros A P N. rewrite A, N. cbn [is_active negb].
    assert (NP : is_bill_paid (ib_payment_status existing) = false)
      by (destruct (ib_payment_status existing); try reflexivity; contradiction).
    rewrite NP. unfold recalculated_due.
    assert (NI : bu_invoice_date updates = None /\ bu_credit_days updates = None).
    { unfold no_set_clause in N. apply negb_true_iff in N.
      repeat (apply orb_false_iff in N; destruct N as (N & ?)).
      destruct (bu_invoice_date updates), (bu_credit_days updates);
        try discriminate. auto. }
    destruct NI as (NI & NC). rewrite NI, NC. reflexivity.
  - intros A P N Hb Hi Hr Ha Hc Hk Hm Ei Ec. rewrite A, N. cbn [is_active negb].
    assert (NP : is_bill_paid (ib_payment_status existing) = false)
      by (destruct (ib_payment_status existing); try reflexivity; contradiction).
    rewrite NP.
    assert (RD : exists due,
               recalculated_due updates existing = Done due
               /\ (bu_invoice_date updates = None ->
                   bu_credit_days updates = None \/ bu_credit_days updates = Some 0 ->
                   due = None)).
    { unfold recalculated_due.
      destruct (is_some (bu_invoice_date updates)
                || truthy_number (bu_credit_days updates)) eqn:T.
      - assert (D : -719528 <= nullish (bu_invoice_date updates)
                                 (ib_invoice_date existing) <= 2932896).
        { destruct (bu_invoice_date updates) as [d |]; [apply Hi; reflexivity |].
          exact Ei. }
        assert (C : 0 <= nullish (bu_credit_days updates) (ib_credit_days existing)
                    <= 365).
        { destruct (bu_credit_days updates) as [n |]; [apply Hc; reflexivity |].
          exact Ec. }
        rewrite (dueDate_of_valid _ _ D C). eexists. split; [reflexivity |].
        intros NI NC. rewrite NI in T.
        destruct NC as [NC | NC]; rewrite NC in T; discriminate.
      - exists None. split; reflexivity. }
    destruct RD as (due & RD & Kept). rewrite RD.
    cbn [fst snd inward_bills with_inward_bills proposals
         proposal_items payments payment_details].
    assert (Ie : In existing (inward_bills st) /\ Nat.eqb (ib_id existing) id = true).
    { assert (X : In existing (select_where (fun b => Nat.eqb (ib_id b) id)
                                 (inward_bills st)))
        by (rewrite S; left; reflexivity).
      unfold select_where in X. apply filter_In in X. exact X. }
    assert (W : forall A (o : option A) (x : A), written o x (nullish o x))
      by (intros A0 [v |] x; reflexivity).
    split; [reflexivity |].
    split; [| split; [| split; [| split; [| split]]]].
    + unfold update_where. rewrite map_map. apply map_ext. intros b.
      destruct (Nat.eqb (ib_id b) id); reflexivity.
    + intros b' I E. apply update_where_in in I.
      destruct I as [(_ & X) | (b & Ib & Wb & Eb)].
      * rewrite E, Nat.eqb_refl in X. discriminate.
      * exists b. split; [exact Ib |]. split; [apply Nat.eqb_eq; exact Wb |].
        subst b'. cbn [set_ib_fields ib_version ib_bill_number ib_invoice_date
                       ib_receiving_date ib_amount ib_credit_days ib_checked_by
                       ib_remarks ib_bill_scan_url ib_due_date].
        repeat (split; [solve [reflexivity | apply W] |]).
        intros NI NC. rewrite (Kept NI NC). reflexivity.
    + exists (set_ib_fields updates due existing). split; [| split].
      * unfold update_where. apply in_map_iff. exists existing.
        destruct Ie as [I E]. rewrite E. auto.
      * destruct Ie as [_ E]. apply Nat.eqb_eq in E. exact E.
      * reflexivity.
    + intros b I NE. unfold update_where. apply in_map_iff. exists b.
      apply Nat.eqb_neq in NE. rewrite NE. auto.
    + intros b' I NE. apply update_where_in in I.
      destruct I as [(I & _) | (b & _ & Wb & Eb)]; [exact I |].
      subst b'. exfalso. apply NE. apply Nat.eqb_eq in Wb. exact Wb.
    + repeat split; reflexivity.
Qed.

(** X12. Cancelling a bill succeeds exactly when the caller is the owner, a
    reason that is not empty is given, a bill has the key and nothing is
    paid on it. Every row with the key is then cancelled with the reason
    and the caller recorded, its other columns and all other bills being
    as before; a paid amount above 0 is answered with 400. *)
Theorem cancel_inward_bill_spec (u : user) (id : uuid) (reason : option string)
    (st : db) :
  let result := cancel_inward_bill u id reason st in
  (fst result = Json 200 "Bill cancelled successfully"
   <-> user_role u = Owner
       /\ truthy_string reason = true
       /\ exists existing others,
            select_where (fun b => Nat.eqb (ib_id b) id) (inward_bills st)
            = existing :: others
            /\ ib_paid_amount existing <= 0)
  /\ (fst result = Json 200 "Bill cancelled successfully" ->
      exists r,
        reason = Some r
        /\ inward_bills (snd result)
           = update_where (fun b => Nat.eqb (ib_id b) id) (cancel_ib (user_id u) r)
               (inward_bills st)
        /\ (forall b, In b (inward_bills (snd result)) -> ib_id b = id ->
              ib_status b = Cancelled /\ ib_cancel_reason b = Some r
              /\ ib_cancelled_by b = Some (user_id u))
        /\ map (fun b => (ib_id b, ib_amount b, ib_paid_amount b, ib_due_date b,
                          ib_payment_status b, ib_version b))
               (inward_bills (snd result))
           = map (fun b => (ib_id b, ib_amount b, ib_paid_amount b, ib_due_date b,
                            ib_payment_status b, ib_version b))
               (inward_bills st))
  /\ (user_role u = Owner -> truthy_string reason = true ->
      forall existing others,
        select_where (fun b => Nat.eqb (ib_id b) id) (inward_bills st)
        = existing :: others ->
        0 < ib_paid_amount existing ->
        result = (Json 400 "Cannot cancel bill with payments", st)).
Proof.
  intros result. subst result. unfold cancel_inward_bill, authorize.
  destruct (user_role u) eqn:R; cbn [existsb role_eqb orb];
    try (split; [split; [discriminate | intros (X & _); discriminate]
                | split; [discriminate | intros X; discriminate]]).
  destruct reason as [r |]; cbn [truthy_string];
    [| split; [split; [discriminate | intros (_ & X & _); discriminate]
              | split; [discriminate | intros _ X; discriminate]]].
  destruct (String.eqb r "") eqn:Er; cbn [negb];
    [split; [split; [discriminate | intros (_ & X & _); discriminate]
            | split; [discriminate | intros _ X; discriminate]] |].
  destruct (select_where (fun b => Nat.eqb (ib_id b) id) (inward_bills st))
    as [| existing others] eqn:S.
  - split; [split; [discriminate | intros (_ & _ & e & o & X & _); discriminate] |].
    split; [discriminate |]. intros _ _ e o X. discriminate.
  - destruct (0 <? ib_paid_amount existing) eqn:P.
    + apply Z.ltb_lt in P.
      split; [split; [discriminate
                     | intros (_ & _ & e & o & X & L); inversion X; subst; lia] |].
      split; [discriminate |]. intros _ _ e o X L. reflexivity.
    + apply Z.ltb_ge in P.
      split; [split; [intros _ | reflexivity] |].
      * split; [reflexivity |]. split; [reflexivity |].
        exists existing, others. auto.
      * split.
        -- intros _. exists r. split; [reflexivity |].
           cbn [snd inward_bills with_inward_bills]. split; [reflexivity |].
           split.
           ++ intros b I E. apply update_where_in in I.
              destruct I as [(_ & W) | (b0 & _ & _ & Eb)].
              ** rewrite E, Nat.eqb_refl in W. discriminate.
              ** subst b. repeat split; reflexivity.
           ++ unfold update_where. rewrite map_map. apply map_ext. intros b.
              destruct (Nat.eqb (ib_id b) id); reflexivity.
        -- intros _ _ e o X L. inversion X; subst. lia.
Qed.

(** X13. A cancelled bill is frozen: after a cancellation that was answered
    with 200, an update of the bill is refused with 400 whatever it asks
    for, and the bill is in no reply of the available-bills query, whatever
    the day, the vendor and the filter. *)
Theorem cancelled_bill_is_frozen (u owner : user) (id : uuid)
    (reason : option string) (st : db) :
  fst (cancel_inward_bill u id reason st) = Json 200 "Bill cancelled successfully" ->
  user_role owner = Owner ->
  let st1 := snd (cancel_inward_bill u id reason st) in
  (forall updates,
     update_inward_bill owner id updates st1
     = (Json 400 "Cannot update cancelled bill", st1))
  /\ (forall today vendorId filter rows,
        available_bills st1 today vendorId filter = Done rows ->
        ~ exists r, In r rows /\ ar_id r = id).
Proof.
  intros OK RO st1.
  assert (C : exists r,
             inward_bills st1
             = update_where (fun b => Nat.eqb (ib_id b) id) (cancel_ib (user_id u) r)
                 (inward_bills st)
             /\ select_where (fun b => Nat.eqb (ib_id b) id) (inward_bills st) <> []).
  { subst st1. revert OK. unfold cancel_inward_bill, authorize.
    destruct (existsb _ _); [| discriminate].
    destruct reason as [r |]; [| discriminate].
    destruct (String.eqb r ""); [discriminate |].
    destruct (select_where _ _) as [| e o]; [discriminate |].
    destruct (0 <? _); [discriminate |]. intros _. exists r.
    split; [reflexivity | discriminate]. }
  destruct C as (r & B & NE).
  assert (All : forall b, In b (inward_bills st1) -> ib_id b = id ->
                          ib_status b = Cancelled).
  { intros b I E. rewrite B in I. apply update_where_in in I.
    destruct I as [(_ & W) | (b0 & _ & _ & Eb)].
    - rewrite E, Nat.eqb_refl in W. discriminate.
    - subst b. reflexivity. }
  split.
  - intros updates. unfold update_inward_bill, authorize. rewrite RO.
    cbn [existsb role_eqb orb].
    destruct (select_where (fun b => Nat.eqb (ib_id b) id) (inward_bills st1))
      as [| e o] eqn:S.
    + exfalso. apply NE. rewrite B in S. unfold select_where, update_where in *.
      destruct (filter _ (inward_bills st)) as [| x l] eqn:F; [reflexivity |].
      assert (Ix : In x (filter (fun b => Nat.eqb (ib_id b) id) (inward_bills st)))
        by (rewrite F; left; reflexivity).
      apply filter_In in Ix. destruct Ix as [Ix Wx].
      assert (X : In (cancel_ib (user_id u) r x)
                    (filter (fun b => Nat.eqb (ib_id b) id)
                       (map (fun b => if Nat.eqb (ib_id b) id
                                      then cancel_ib (user_id u) r b else b)
                          (inward_bills st)))).
      { apply filter_In. split; [| exact Wx].
        apply in_map_iff. exists x. rewrite Wx. auto. }
      rewrite S in X. destruct X.
    + assert (Ie : In e (select_where (fun b => Nat.eqb (ib_id b) id) (inward_bills st1)))
        by (rewrite S; left; reflexivity).
      unfold select_where in Ie. apply filter_In in Ie. destruct Ie as [Ie We].
      apply Nat.eqb_eq in We. rewrite (All e Ie We). reflexivity.
  - intros today vendorId filter rows E (x & Ix & Ex).
    unfold available_bills in E.
    assert (K : forall l,
               (forall b, In b l -> In b (inward_bills st1)) ->
               In x (order_by_due
                       (flat_map (fun ib =>
                          map (available_project st1 today ib)
                            (select_where (fun v => Nat.eqb (ib_vendor_id ib) v)
                               (vendors st1)))
                          (select_where (available_where st1 today vendorId filter) l))) ->
               False).
    { intros l Sub I. apply (proj1 (order_by_due_in _ _)) in I.
      apply in_flat_map in I. destruct I as (b & Ib & Ir).
      unfold select_where in Ib. apply filter_In in Ib. destruct Ib as (Ib & W).
      apply in_map_iff in Ir. destruct Ir as (v & Ev & _). subst x. simpl in Ex.
      assert (Cb : ib_status b = Cancelled) by (apply All; [apply Sub |]; assumption).
      unfold available_where in W. rewrite Cb in W. cbn [is_active andb] in W.
      destruct vendorId;
        repeat match type of W with
               | context [match ?f with _ => _ end] => destruct f
               end; discriminate W. }
    destruct vendorId, filter as [f |];
      repeat match type of E with
             | context [match ?f with _ => _ end] => destruct f
             end;
      try discriminate E; inversion E; subst rows;
      apply (K (inward_bills st1)); auto.
Qed.

(** ** The available-bills query and its parameters *)

Lemma available_bills_done (st : db) (today : Z) (vendorId : option uuid)
    (filter : option string) (rows : list available_row) :
  available_bills st today vendorId filter = Done rows ->
  rows = order_by_due
      (flat_map (fun ib =>
           map (available_project st today ib)
               (select_where (fun v => Nat.eqb (ib_vendor_id ib) v) (vendors st)))
         (select_where (available_where st today vendorId filter) (inward_bills st))).
Proof.
  intros E.
  destruct vendorId as [v |].
  - destruct (carry_forward_or_not filter) as [C | C].
    + subst filter. discriminate E.
    + rewrite available_bills_rows in E by (right; exact C). inversion E. reflexivity.
  - rewrite available_bills_rows in E by (left; reflexivity). inversion E. reflexivity.
Qed.

Lemma insert_by_due_sorted (r : available_row) (l : list available_row) :
  due_sorted l -> due_sorted (insert_by_due r l).
Proof.
  induction l as [| x l IH]; intros S; simpl.
  - split; [intros y [] | exact I].
  - destruct S as [Sx Sl]. destruct (Z.ltb_spec (ar_due_date r) (ar_due_date x)).
    + split; [| split; assumption].
      intros y [E | Iy]; [subst y; lia |]. specialize (Sx y Iy). lia.
    + split; [| apply IH; exact Sl].
      intros y Iy. apply insert_by_due_in in Iy.
      destruct Iy as [E | Iy]; [subst y; lia | apply Sx; exact Iy].
Qed.

Lemma order_by_due_sorted (l : list available_row) : due_sorted (order_by_due l).
Proof.
  unfold order_by_due. induction l as [| r l IH]; simpl; [exact I |].
  apply insert_by_due_sorted. exact IH.
Qed.

(** X14. Every reply of the available-bills query lists the bills by due date,
    earliest first. Each row is the row of a bill of the table joined with
    its vendor; its outstanding amount is the amount less the amount paid,
    and its age is the day of the query less the due date, negative for a
    bill that is not due yet. *)
Theorem available_bills_rows_sorted (st : db) (today : Z) (vendorId : option uuid)
    (filter : option string) (rows : list available_row) :
  available_bills st today vendorId filter = Done rows ->
  due_sorted rows
  /\ forall r, In r rows ->
       ar_outstanding r = ar_amount r - ar_paid_amount r
       /\ ar_age_days r = today - ar_due_date r
       /\ In (ar_vendor_id r) (vendors st)
       /\ exists ib,
            In ib (inward_bills st) /\ ib_id ib = ar_id r
            /\ ib_vendor_id ib = ar_vendor_id r
            /\ ib_amount ib = ar_amount r /\ ib_paid_amount ib = ar_paid_amount r
            /\ ib_due_date ib = ar_due_date r
            /\ ib_status ib = Active /\ ib_payment_status ib <> BillPaid.
Proof.
  intros E. apply available_bills_done in E. subst rows.
  split; [apply order_by_due_sorted |].
  intros r I. apply (proj1 (order_by_due_in _ _)) in I.
  apply in_flat_map in I. destruct I as (ib & Ib & Ir).
  unfold select_where in Ib. apply filter_In in Ib. destruct Ib as (Ib & W).
  apply in_map_iff in Ir. destruct Ir as (v & Ev & Iv).
  unfold select_where in Iv. apply filter_In in Iv. destruct Iv as (Iv & Wv).
  apply Nat.eqb_eq in Wv. subst r. simpl.
  split; [reflexivity |]. split; [destruct (ib_due_date ib <? today); lia |].
  split; [exact Iv |]. exists ib. repeat split; auto.
  - destruct (carry_forward_or_not filter) as [C | C].
    + subst filter. unfold available_where in W.
      destruct (ib_status ib); [reflexivity |].
      destruct vendorId; discriminate W.
    + rewrite available_where_eq in W by exact C.
      destruct (ib_status ib); [reflexivity | discriminate W].
  - intros P. destruct (carry_forward_or_not filter) as [C | C].
    + subst filter. unfold available_where in W. rewrite P in W.
      rewrite andb_false_r in W. destruct vendorId; discriminate W.
    + rewrite available_where_eq in W by exact C. rewrite P in W.
      rewrite andb_false_r in W. discriminate W.
Qed.

(** X15. [filter = 'carry_forward'] replaces the condition of the query: every
    bill having its vendor row, a bill is returned if and only if it is
    active, not fully paid and has an item whose status is [carry_forward],
    whether or not an open proposal holds the bill. With a [vendor_id] in
    the same request the statement is refused by the database, whatever the
    table holds. *)
Theorem available_bills_carry_forward (st : db) (today : Z) (i : uuid) :
  (forall b, In b (inward_bills st) -> In (ib_vendor_id b) (vendors st)) ->
  (forall v, available_bills st today (Some v) (Some "carry_forward")
             = Thrown (PgError "08P01"))
  /\ exists rows,
       available_bills st today None (Some "carry_forward") = Done rows
       /\ ((exists r, In r rows /\ ar_id r = i)
           <-> exists b item,
                 In b (inward_bills st) /\ ib_id b = i
                 /\ ib_status b = Active /\ ib_payment_status b <> BillPaid
                 /\ In item (proposal_items st) /\ pi_bill_id item = i
                 /\ pi_status item = CarryForward).
Proof.
  intros FK. split; [reflexivity |].
  eexists. split; [reflexivity |].
  assert (CF : forall x, has_carry_forward_item st x = true
                         <-> exists item, In item (proposal_items st)
                                          /\ pi_bill_id item = x
                                          /\ pi_status item = CarryForward).
  { intros x. unfold has_carry_forward_item, exists_where. rewrite existsb_exists.
    split; intros (item & I & H); exists item; (split; [exact I |]).
    - apply andb_true_iff in H as [H1 H2]. apply Nat.eqb_eq in H1.
      split; [exact H1 |]. destruct (pi_status item); try discriminate. reflexivity.
    - destruct H as [H1 H2]. rewrite H1, H2, Nat.eqb_refl. reflexivity. }
  split.
  - intros (r & I & Id). apply (proj1 (order_by_due_in _ _)) in I.
    apply in_flat_map in I. destruct I as (b & Ib & Ir).
    unfold select_where in Ib. apply filter_In in Ib. destruct Ib as (Ib & W).
    apply in_map_iff in Ir. destruct Ir as (v & E & _). subst r. simpl in Id.
    unfold available_where in W.
    rewrite !andb_true_iff, negb_true_iff in W. destruct W as ((A & B) & C).
    apply CF in C. destruct C as (item & Ii & C1 & C2).
    exists b, item. rewrite <- Id. repeat split; auto.
    + destruct (ib_status b); [reflexivity | discriminate].
    + intros X. rewrite X in B. discriminate.
  - intros (b & item & Ib & Id & A & B & Ii & C1 & C2).
    exists (available_project st today b (ib_vendor_id b)). split; [| exact Id].
    apply order_by_due_in. apply in_flat_map. exists b. split.
    + unfold select_where. apply filter_In. split; [exact Ib |].
      unfold available_where. rewrite A. cbn [is_active andb].
      rewrite andb_true_iff, negb_true_iff. split.
      * destruct (ib_payment_status b); try reflexivity. contradiction.
      * apply CF. exists item. rewrite Id. auto.
    + apply in_map. unfold select_where. apply filter_In.
      split; [apply FK; exact Ib | apply Nat.eqb_refl].
Qed.

(** X16. The vendor and due-date parameters only narrow the query: with a
    filter other than 'carry_forward', the rows returned are exactly the
    rows of the query without parameters that are of the given vendor and
    whose due date passes the filter, which asks for a due date before
    today ('overdue'), today ('due_today') or from today to seven days
    later ('due_week'); any other filter text asks for nothing. *)
Theorem available_bills_narrowing (st : db) (today : Z) (vendorId : option uuid)
    (filter : option string) :
  filter <> Some "carry_forward" ->
  exists rows all_rows,
    available_bills st today vendorId filter = Done rows
    /\ available_bills st today None None = Done all_rows
    /\ (forall r, In r rows
                  <-> In r all_rows
                      /\ (forall v, vendorId = Some v -> ar_vendor_id r = v)
                      /\ due_filter today filter (ar_due_date r) = true)
    /\ (forall d, due_filter today (Some "overdue") d = true <-> d < today)
    /\ (forall d, due_filter today (Some "due_today") d = true <-> d = today)
    /\ (forall d, due_filter today (Some "due_week") d = true
                  <-> today <= d <= today + 7)
    /\ (forall d, due_filter today None d = true).
Proof.
  intros N.
  rewrite (available_bills_rows st today vendorId filter) by (right; exact N).
  rewrite (available_bills_rows st today None None) by (left; reflexivity).
  eexists. eexists. split; [reflexivity |]. split; [reflexivity |].
  split; [| split; [| split; [| split]]].
  - intros r. rewrite !order_by_due_in, !in_flat_map. split.
    + intros (b & Ib & Ir).
      unfold select_where in Ib. apply filter_In in Ib. destruct Ib as (Ib & W).
      rewrite available_where_eq in W by exact N.
      apply andb_true_iff in W as [W D]. apply andb_true_iff in W as [W V].
      assert (Er : ar_vendor_id r = ib_vendor_id b /\ ar_due_date r = ib_due_date b).
      { apply in_map_iff in Ir. destruct Ir as (v & E & Iv).
        unfold select_where in Iv. apply filter_In in Iv. destruct Iv as (_ & Wv).
        apply Nat.eqb_eq in Wv. subst r. simpl. auto. }
      destruct Er as [Ev Ed]. split; [| split].
      * exists b. split; [| exact Ir]. unfold select_where. apply filter_In.
        split; [exact Ib |].
        rewrite available_where_eq by discriminate.
        rewrite W. reflexivity.
      * intros v E. subst vendorId. apply Nat.eqb_eq in V. congruence.
      * rewrite Ed. exact D.
    + intros ((b & Ib & Ir) & V & D).
      unfold select_where in Ib. apply filter_In in Ib. destruct Ib as (Ib & W).
      rewrite available_where_eq in W by discriminate.
      rewrite !andb_true_r in W.
      assert (Er : ar_vendor_id r = ib_vendor_id b /\ ar_due_date r = ib_due_date b).
      { apply in_map_iff in Ir. destruct Ir as (v & E & Iv).
        unfold select_where in Iv. apply filter_In in Iv. destruct Iv as (_ & Wv).
        apply Nat.eqb_eq in Wv. subst r. simpl. auto. }
      destruct Er as [Ev Ed].
      exists b. split; [| exact Ir]. unfold select_where. apply filter_In.
      split; [exact Ib |]. rewrite available_where_eq by exact N.
      rewrite W, <- Ed, D. cbn [andb]. rewrite andb_true_r.
      destruct vendorId as [v |]; [| reflexivity].
      apply Nat.eqb_eq. rewrite <- Ev. apply V. reflexivity.
  - intros d. simpl. apply Z.ltb_lt.
  - intros d. simpl. apply Z.eqb_eq.
  - intros d. simpl. rewrite andb_true_iff, !Z.leb_le. tauto.
  - reflexivity.
Qed.

(** ** The UTR update as a whole *)

Lemma sum_of_select {R} (f : R -> Z) (c : R -> bool) (l : list R) :
  sum_of f (select_where c l) = sum_of (fun r => if c r then f r else 0) l.
Proof.
  unfold sum_of, select_where. induction l as [| r l IH]; [reflexivity |].
  simpl. destruct (c r); simpl; rewrite IH; reflexivity.
Qed.

Lemma sum_of_map {R} (f : R -> Z) (h : R -> R) (l : list R) :
  (forall r, f (h r) = f r) -> sum_of f (map h l) = sum_of f l.
Proof.
  intros H. unfold sum_of. induction l as [| r l IH]; [reflexivity |].
  simpl. rewrite H, IH. reflexivity.
Qed.

Lemma select_where_map {R} (c : R -> bool) (h : R -> R) (l : list R) :
  (forall r, c (h r) = c r) ->
  select_where c (map h l) = map h (select_where c l).
Proof.
  intros H. unfold select_where. induction l as [| r l IH]; [reflexivity |].
  simpl. rewrite H. destruct (c r); simpl; rewrite IH; reflexivity.
Qed.

Lemma exists_where_map {R} (c : R -> bool) (h : R -> R) (l : list R) :
  (forall r, c (h r) = c r) -> exists_where c (map h l) = exists_where c l.
Proof.
  intros H. unfold exists_where. induction l as [| r l IH]; [reflexivity |].
  simpl. rewrite H, IH. reflexivity.
Qed.

(** A key without duplicates names one row. *)
Lemma key_names_one_row {R} (key : R -> uuid) (l : list R) (a b : R) :
  NoDup (map key l) -> In a l -> In b l -> key a = key b -> a = b.
Proof.
  induction l as [| r l IH]; intros N Ia Ib E; [destruct Ia |].
  simpl in N. inversion N as [| x xs Nx Nl]; subst.
  destruct Ia as [Ea | Ia], Ib as [Eb | Ib].
  - congruence.
  - subst r. exfalso. apply Nx. rewrite E. apply in_map. exact Ib.
  - subst r. exfalso. apply Nx. rewrite <- E. apply in_map. exact Ia.
  - apply IH; assumption.
Qed.

(** Selecting with a condition that holds of the row [r0] of a key and
    agrees with [B] on the other rows, [B] failing on [r0]. *)
Lemma sum_of_select_one_more {R} (key : R -> uuid) (g : R -> Z) (A B : R -> bool)
    (l : list R) (r0 : R) :
  NoDup (map key l) -> In r0 l ->
  A r0 = true -> B r0 = false ->
  (forall r, In r l -> key r <> key r0 -> A r = B r) ->
  sum_of g (select_where A l) = g r0 + sum_of g (select_where B l).
Proof.
  intros N I A0 B0 H. rewrite !sum_of_select.
  revert N I H. unfold sum_of. induction l as [| r l IH]; intros N I H; [destruct I |].
  simpl in N. inversion N as [| x xs Nx Nl]; subst.
  destruct I as [E | I].
  - subst r. simpl. rewrite A0, B0.
    assert (T : forall l', (forall r, In r l' -> A r = B r) ->
                fold_right (fun r acc => (if A r then g r else 0) + acc) 0 l'
                = fold_right (fun r acc => (if B r then g r else 0) + acc) 0 l').
    { induction l' as [| y l' IH']; intros Hy; [reflexivity |].
      simpl. rewrite (Hy y (or_introl eq_refl)), IH'; [reflexivity |].
      intros z Iz. apply Hy. right. exact Iz. }
    rewrite (T l); [lia |].
    intros y Iy. apply H; [right; exact Iy |].
    intros K. apply Nx. rewrite <- K. apply in_map. exact Iy.
  - simpl. rewrite (IH Nl I) by (intros y Iy; apply H; right; exact Iy).
    assert (K : key r <> key r0).
    { intros K. apply Nx. rewrite K. apply in_map. exact I. }
    rewrite (H r (or_introl eq_refl) K). lia.
Qed.

Lemma exists_where_select_one_more {R} (key : R -> uuid) (g : R -> bool)
    (A B : R -> bool) (l : list R) (r0 : R) :
  NoDup (map key l) -> In r0 l ->
  A r0 = true -> B r0 = false ->
  (forall r, In r l -> key r <> key r0 -> A r = B r) ->
  exists_where g (select_where A l) = g r0 || exists_where g (select_where B l).
Proof.
  intros N I A0 B0 H.
  revert N I H. unfold exists_where, select_where.
  induction l as [| r l IH]; intros N I H; [destruct I |].
  simpl in N. inversion N as [| x xs Nx Nl]; subst.
  destruct I as [E | I].
  - subst r. simpl. rewrite A0, B0. simpl. f_equal.
    assert (T : filter A l = filter B l); [| rewrite T; reflexivity].
    apply filter_ext_in. intros y Iy. apply H; [right; exact Iy |].
    intros K. apply Nx. rewrite <- K. apply in_map. exact Iy.
  - simpl.
    assert (K : key r <> key r0).
    { intros K. apply Nx. rewrite K. apply in_map. exact I. }
    rewrite (H r (or_introl eq_refl) K).
    destruct (B r); simpl;
      rewrite (IH Nl I) by (intros y Iy; apply H; right; exact Iy);
      [| reflexivity].
    destruct (g r0), (g r); reflexivity.
Qed.

Lemma update_where_twice {R} (w1 w2 : R -> bool) (f : R -> R) (l : list R) :
  (forall r, w2 (f r) = w2 r) -> (forall r, f (f r) = f r) ->
  update_where w2 f (update_where w1 f l)
  = update_where (fun r => w1 r || w2 r) f l.
Proof.
  intros W F. unfold update_where. rewrite map_map. apply map_ext. intros r.
  destruct (w1 r); simpl.
  - rewrite W. destruct (w2 r); [apply F | reflexivity].
  - reflexivity.
Qed.

Lemma update_where_same_rows {R} (w w' : R -> bool) (f : R -> R) (l : list R) :
  (forall r, In r l -> w r = w' r) -> update_where w f l = update_where w' f l.
Proof.
  intros H. unfold update_where. apply map_ext_in. intros r I.
  rewrite (H r I). reflexivity.
Qed.

Lemma entry_naming_none (entries : list utr_entry) (d : payment_detail) :
  ~ In (pd_id d) (map ue_detail_id entries) ->
  entry_naming entries d = None
  /\ exists_where (fun e => Nat.eqb (ue_detail_id e) (pd_id d)) entries = false.
Proof.
  unfold entry_naming, select_first, exists_where.
  induction entries as [| e rest IH]; intros N; [split; reflexivity |].
  simpl in *. destruct (Nat.eqb_spec (ue_detail_id e) (pd_id d)) as [E | Ne].
  - exfalso. apply N. left. exact E.
  - apply IH. intros I. apply N. right. exact I.
Qed.

Lemma add_ib_paid_keeps (w : inward_bill -> bool) (a : Z) (l : list inward_bill) :
  map (fun b => (ib_id b, ib_vendor_id b, ib_bill_number b, ib_invoice_date b,
                 ib_receiving_date b, ib_amount b, ib_credit_days b, ib_due_date b,
                 ib_checked_by b, ib_remarks b, ib_bill_scan_url b, ib_status b,
                 ib_version b, ib_created_by b, ib_cancelled_by b, ib_cancel_reason b))
      (update_where w (add_ib_paid a) l)
  = map (fun b => (ib_id b, ib_vendor_id b, ib_bill_number b, ib_invoice_date b,
                   ib_receiving_date b, ib_amount b, ib_credit_days b, ib_due_date b,
                   ib_checked_by b, ib_remarks b, ib_bill_scan_url b, ib_status b,
                   ib_version b, ib_created_by b, ib_cancelled_by b, ib_cancel_reason b)) l.
Proof.
  unfold update_where. rewrite map_map. apply map_ext. intros b.
  destruct (w b); reflexivity.
Qed.

(** The loop of the UTR update over entries that name each detail once,
    each with a UTR that is not empty and a detail of the payment. *)
Lemma settle_all_effect (id : uuid) (entries : list utr_entry) :
  forall st,
    NoDup (map pd_id (payment_details st)) ->
    NoDup (map ue_detail_id entries) ->
    (forall e, In e entries ->
       truthy_string (ue_utr_number e) = true
       /\ exists d, In d (payment_details st) /\ pd_id d = ue_detail_id e
                    /\ pd_payment_id d = id) ->
    exists st',
      for_each (settle_detail id) entries st = Done (tt, st')
      /\ payment_details st'
         = map (fun d => match entry_naming entries d with
                         | Some e => set_pd_utr (ue_utr_number e) d
                         | None => d
                         end) (payment_details st)
      /\ map (fun b => (ib_id b, ib_vendor_id b, ib_bill_number b, ib_invoice_date b,
                        ib_receiving_date b, ib_amount b, ib_credit_days b, ib_due_date b,
                        ib_checked_by b, ib_remarks b, ib_bill_scan_url b, ib_status b,
                        ib_version b, ib_created_by b, ib_cancelled_by b, ib_cancel_reason b))
             (inward_bills st')
         = map (fun b => (ib_id b, ib_vendor_id b, ib_bill_number b, ib_invoice_date b,
                          ib_receiving_date b, ib_amount b, ib_credit_days b, ib_due_date b,
                          ib_checked_by b, ib_remarks b, ib_bill_scan_url b, ib_status b,
                          ib_version b, ib_created_by b, ib_cancelled_by b, ib_cancel_reason b))
             (inward_bills st)
      /\ map ib_paid_amount (inward_bills st')
         = map (fun b => ib_paid_amount b
                         + sum_of pd_amount
                             (select_where (fun d => Nat.eqb (pd_bill_id d) (ib_id b))
                                (named_details entries (payment_details st))))
             (inward_bills st)
      /\ proposal_items st'
         = update_where
             (fun i => exists_where
                         (fun d => opt_uuid_eqb (pd_proposal_item_id d) (pi_id i))
                         (named_details entries (payment_details st)))
             (set_pi_status Paid) (proposal_items st)
      /\ payments st' = payments st /\ proposals st' = proposals st
      /\ vendors st' = vendors st /\ inactive_vendors st' = inactive_vendors st
      /\ next_id st' = next_id st.
Proof.
  induction entries as [| e rest IH]; intros st Nd Ne H.
  - exists st. split; [reflexivity |].
    split; [symmetry; apply map_id |]. split; [reflexivity |].
    split; [| split; [| repeat split; reflexivity]].
    + apply map_ext. intros b. unfold named_details, select_where, exists_where.
      simpl. assert (F : forall l : list payment_detail, filter (fun _ => false) l = [])
        by (induction l; auto).
      rewrite F. simpl. unfold sum_of. simpl. lia.
    + symmetry. apply update_where_none. intros i _.
      unfold named_details, select_where, exists_where. simpl.
      assert (F : forall l : list payment_detail, filter (fun _ => false) l = [])
        by (induction l; auto).
      rewrite F. reflexivity.
  - destruct (H e (or_introl eq_refl)) as (T & d0 & I0 & Id0 & Pid0).
    simpl in Ne. inversion Ne as [| x xs Nx Nrest]; subst x xs.
    (* the row the handler reads is the one row with this key *)
    assert (F : select_first (fun d => Nat.eqb (pd_id d) (ue_detail_id e))
                  (payment_details st) = Some d0).
    { unfold select_first.
      destruct (find _ (payment_details st)) as [d |] eqn:F.
      - apply find_some in F. destruct F as (Id & W). apply Nat.eqb_eq in W.
        f_equal. apply (key_names_one_row pd_id (payment_details st)); auto.
        congruence.
      - exfalso. apply (find_none _ _ F) in I0.
        rewrite Id0, Nat.eqb_refl in I0. discriminate. }
    destruct (settle_detail_effect id e st d0 T F Pid0)
      as (st1 & E1 & D1 & B1 & It1 & P1 & Q1).
    assert (O1 : vendors st1 = vendors st /\ inactive_vendors st1 = inactive_vendors st
                 /\ next_id st1 = next_id st).
    { revert E1. unfold settle_detail, tx_bind, exec, ask, tx_ret.
      destruct (select_where _ _); [intros X; inversion X; auto |].
      rewrite T. intros X; inversion X; auto. }
    destruct O1 as (V1 & W1 & X1).
    set (h := fun d => if Nat.eqb (pd_id d) (ue_detail_id e)
                          && Nat.eqb (pd_payment_id d) id
                       then set_pd_utr (ue_utr_number e) d else d) in *.
    assert (Hid : forall d, pd_id (h d) = pd_id d)
      by (intros d; unfold h; destruct (_ && _); reflexivity).
    assert (Hbill : forall d, pd_bill_id (h d) = pd_bill_id d)
      by (intros d; unfold h; destruct (_ && _); reflexivity).
    assert (Hamt : forall d, pd_amount (h d) = pd_amount d)
      by (intros d; unfold h; destruct (_ && _); reflexivity).
    assert (Hitem : forall d, pd_proposal_item_id (h d) = pd_proposal_item_id d)
      by (intros d; unfold h; destruct (_ && _); reflexivity).
    assert (Hpay : forall d, pd_payment_id (h d) = pd_payment_id d)
      by (intros d; unfold h; destruct (_ && _); reflexivity).
    assert (D1' : payment_details st1 = map h (payment_details st)) by exact D1.
    assert (Nd1 : NoDup (map pd_id (payment_details st1))).
    { rewrite D1', map_map. rewrite (map_ext _ pd_id Hid). exact Nd. }
    assert (H1 : forall e', In e' rest ->
               truthy_string (ue_utr_number e') = true
               /\ exists d, In d (payment_details st1) /\ pd_id d = ue_detail_id e'
                            /\ pd_payment_id d = id).
    { intros e' I'. destruct (H e' (or_intror I')) as (T' & d & Id & E & P).
      split; [exact T' |]. exists (h d). rewrite D1'.
      split; [apply in_map; exact Id |]. rewrite Hid, Hpay. auto. }
    destruct (IH st1 Nd1 Nrest H1)
      as (st' & E' & D' & K' & B' & It' & P' & Q' & V' & W' & X').
    exists st'. split; [cbn [for_each]; unfold tx_bind; rewrite E1; exact E' |].
    (* what the entries but the first name, before and after the first turn *)
    assert (Nm : forall d, In d (payment_details st) -> pd_id d <> pd_id d0 ->
                 exists_where (fun e' => Nat.eqb (ue_detail_id e') (pd_id d)) (e :: rest)
                 = exists_where (fun e' => Nat.eqb (ue_detail_id e') (pd_id d)) rest).
    { intros d _ Nd0. unfold exists_where. simpl.
      destruct (Nat.eqb_spec (ue_detail_id e) (pd_id d)) as [X | _]; [| reflexivity].
      exfalso. apply Nd0. congruence. }
    assert (N0 : exists_where (fun e' => Nat.eqb (ue_detail_id e') (pd_id d0)) (e :: rest)
                 = true
                 /\ exists_where (fun e' => Nat.eqb (ue_detail_id e') (pd_id d0)) rest
                    = false).
    { split.
      - unfold exists_where. simpl. rewrite Id0, Nat.eqb_refl. reflexivity.
      - apply entry_naming_none. rewrite Id0. exact Nx. }
    assert (Nh : named_details rest (payment_details st1)
                 = map h (named_details rest (payment_details st))).
    { rewrite D1'. unfold named_details. apply select_where_map.
      intros d. rewrite Hid. reflexivity. }
    split; [| split; [| split; [| split; [| repeat split; congruence]]]].
    + rewrite D', D1', map_map. apply map_ext_in. intros d Id.
      unfold entry_naming at 2. unfold select_first. simpl.
      destruct (Nat.eqb_spec (ue_detail_id e) (pd_id d)) as [X | X].
      * assert (d = d0)
          by (apply (key_names_one_row pd_id (payment_details st)); auto; congruence).
        subst d.
        assert (Y : h d0 = set_pd_utr (ue_utr_number e) d0)
          by (unfold h; rewrite Id0, Pid0, !Nat.eqb_refl; reflexivity).
        rewrite Y.
        assert (Z : entry_naming rest (set_pd_utr (ue_utr_number e) d0) = None).
        { apply entry_naming_none. simpl. rewrite Id0. exact Nx. }
        rewrite Z. reflexivity.
      * assert (Y : h d = d).
        { unfold h. destruct (Nat.eqb_spec (pd_id d) (ue_detail_id e)) as [Y | _];
            [exfalso; apply X; congruence | reflexivity]. }
        rewrite Y. reflexivity.
    + rewrite K', B1. apply add_ib_paid_keeps.
    + rewrite B', B1. unfold update_where. rewrite map_map. apply map_ext. intros b.
      assert (S : forall bid,
                 sum_of pd_amount
                   (select_where (fun d => Nat.eqb (pd_bill_id d) bid)
                      (named_details (e :: rest) (payment_details st)))
                 = (if Nat.eqb (pd_bill_id d0) bid then pd_amount d0 else 0)
                   + sum_of pd_amount
                       (select_where (fun d => Nat.eqb (pd_bill_id d) bid)
                          (named_details rest (payment_details st1)))).
      { intros bid. rewrite Nh.
        rewrite select_where_map by (intros d; rewrite Hbill; reflexivity).
        rewrite (sum_of_map pd_amount h _ Hamt), !sum_of_select.
        unfold named_details.
        apply (sum_of_select_one_more pd_id
                 (fun d => if Nat.eqb (pd_bill_id d) bid then pd_amount d else 0)
                 _ _ (payment_details st) d0 Nd I0 (proj1 N0) (proj2 N0) Nm). }
      rewrite S.
      destruct (Nat.eqb_spec (ib_id b) (pd_bill_id d0)) as [X | X].
      * simpl. rewrite X, Nat.eqb_refl. lia.
      * assert (Y : Nat.eqb (pd_bill_id d0) (ib_id b) = false)
          by (apply Nat.eqb_neq; congruence).
        rewrite Y. lia.
    + rewrite It', It1.
      rewrite update_where_twice; [| intros i; reflexivity | intros i; reflexivity].
      apply update_where_same_rows. intros i _.
      rewrite Nh.
      rewrite exists_where_map by (intros d; rewrite Hitem; reflexivity).
      symmetry. unfold named_details.
      apply (exists_where_select_one_more pd_id
               (fun d => opt_uuid_eqb (pd_proposal_item_id d) (pi_id i))
               _ _ (payment_details st) d0 Nd I0 (proj1 N0) (proj2 N0) Nm).
Qed.

Lemma utr_missing_spec (d : payment_detail) :
  (utr_missing d = false <-> pd_utr_number d <> None /\ pd_utr_number d <> Some "")
  /\ (utr_missing d = true <-> pd_utr_number d = None \/ pd_utr_number d = Some "").
Proof.
  unfold utr_missing. destruct (pd_utr_number d) as [s |].
  - destruct (String.eqb_spec s "") as [E | N].
    + subst s. split; split; try discriminate; auto.
      intros (_ & X). exfalso. apply X. reflexivity.
    + split; split; try discriminate; auto.
      * intros _. split; [discriminate | congruence].
      * intros [X | X]; [discriminate | congruence].
  - split; split; try discriminate; auto.
    intros (X & _). exfalso. apply X. reflexivity.
Qed.

(** X25. A UTR update of payment [id] sent by the accounts or owner role,
    the rows of [payment_details] having distinct keys, the request naming
    no detail twice, and every entry carrying a UTR that is not empty and
    the key of a detail of the payment. The answer is 200 and, in the
    tables afterwards:
    - every detail keeps its key, payment, bill, item and amount; a detail
      that an entry names has the UTR of that entry and is [confirmed], any
      other detail keeps its UTR and status;
    - every bill keeps every column but the amount paid and the payment
      status, and its paid amount has grown by exactly the sum of the
      amounts of the named details of that bill;
    - every item keeps all its columns but the status, which is [paid] for
      the originating item of a named detail and is kept for any other;
    - every payment keeps all its columns but the status; the status of
      payment [id] is [confirmed] if and only if no detail of the payment
      is left with a NULL or empty UTR, and [processed] if and only if one
      is, and the other payments keep theirs;
    - the proposals, the vendors and the counter of keys are unchanged. *)
Theorem utr_update_effect (u : user) (id : uuid) (details : list utr_entry) (st : db) :
  user_role u = Accounts \/ user_role u = Owner ->
  NoDup (map pd_id (payment_details st)) ->
  NoDup (map ue_detail_id details) ->
  (forall e, In e details ->
     (exists s, ue_utr_number e = Some s /\ s <> "")
     /\ exists d, In d (payment_details st) /\ pd_id d = ue_detail_id e
                  /\ pd_payment_id d = id) ->
  exists st' newStatus,
    update_utr u id (Some details) st = (Json 200 "UTR numbers updated", st')
    /\ map (fun d => (pd_id d, pd_payment_id d, pd_bill_id d, pd_proposal_item_id d,
                      pd_amount d)) (payment_details st')
       = map (fun d => (pd_id d, pd_payment_id d, pd_bill_id d, pd_proposal_item_id d,
                        pd_amount d)) (payment_details st)
    /\ map (fun d => (pd_utr_number d, pd_status d)) (payment_details st')
       = map (fun d => match entry_naming details d with
                       | Some e => (ue_utr_number e, DetConfirmed)
                       | None => (pd_utr_number d, pd_status d)
                       end) (payment_details st)
    /\ map (fun b => (ib_id b, ib_vendor_id b, ib_bill_number b, ib_invoice_date b,
                      ib_receiving_date b, ib_amount b, ib_credit_days b, ib_due_date b,
                      ib_checked_by b, ib_remarks b, ib_bill_scan_url b, ib_status b,
                      ib_version b, ib_created_by b, ib_cancelled_by b, ib_cancel_reason b))
           (inward_bills st')
       = map (fun b => (ib_id b, ib_vendor_id b, ib_bill_number b, ib_invoice_date b,
                        ib_receiving_date b, ib_amount b, ib_credit_days b, ib_due_date b,
                        ib_checked_by b, ib_remarks b, ib_bill_scan_url b, ib_status b,
                        ib_version b, ib_created_by b, ib_cancelled_by b, ib_cancel_reason b))
           (inward_bills st)
    /\ map ib_paid_amount (inward_bills st')
       = map (fun b => ib_paid_amount b
                       + sum_of pd_amount
                           (filter (fun d => Nat.eqb (pd_bill_id d) (ib_id b))
                              (named_details details (payment_details st))))
           (inward_bills st)
    /\ map (fun i => (pi_id i, pi_proposal_id i, pi_bill_id i, pi_proposed_amount i,
                      pi_urgency_remarks i, pi_accounts_status i, pi_accounts_amount i,
                      pi_accounts_reason i, pi_accounts_by i, pi_owner_status i,
                      pi_owner_amount i, pi_owner_reason i, pi_owner_by i))
           (proposal_items st')
       = map (fun i => (pi_id i, pi_proposal_id i, pi_bill_id i, pi_proposed_amount i,
                        pi_urgency_remarks i, pi_accounts_status i, pi_accounts_amount i,
                        pi_accounts_reason i, pi_accounts_by i, pi_owner_status i,
                        pi_owner_amount i, pi_owner_reason i, pi_owner_by i))
           (proposal_items st)
    /\ map pi_status (proposal_items st')
       = map (fun i => if existsb (fun d => match pd_proposal_item_id d with
                                            | Some x => Nat.eqb x (pi_id i)
                                            | None => false
                                            end)
                            (named_details details (payment_details st))
                       then Paid else pi_status i) (proposal_items st)
    /\ map (fun p => (pay_id p, pay_number p, pay_proposal_id p, pay_total_amount p,
                      pay_bank_account_id p, pay_created_by p)) (payments st')
       = map (fun p => (pay_id p, pay_number p, pay_proposal_id p, pay_total_amount p,
                        pay_bank_account_id p, pay_created_by p)) (payments st)
    /\ map pay_status (payments st')
       = map (fun p => if Nat.eqb (pay_id p) id then newStatus else pay_status p)
           (payments st)
    /\ (newStatus = Confirmed
        <-> forall d, In d (payment_details st') -> pd_payment_id d = id ->
                      pd_utr_number d <> None /\ pd_utr_number d <> Some "")
    /\ (newStatus = Processed
        <-> exists d, In d (payment_details st') /\ pd_payment_id d = id
                      /\ (pd_utr_number d = None \/ pd_utr_number d = Some ""))
    /\ proposals st' = proposals st
    /\ vendors st' = vendors st /\ inactive_vendors st' = inactive_vendors st
    /\ next_id st' = next_id st.
Proof.
  intros R Nd Ne H.
  assert (A : existsb (role_eqb (user_role u)) [Accounts; Owner] = true)
    by (destruct R as [R | R]; rewrite R; reflexivity).
  assert (H' : forall e, In e details ->
             truthy_string (ue_utr_number e) = true
             /\ exists d, In d (payment_details st) /\ pd_id d = ue_detail_id e
                          /\ pd_payment_id d = id).
  { intros e I. destruct (H e I) as ((s & E & N) & D). split; [| exact D].
    rewrite E. simpl. destruct (String.eqb_spec s ""); [contradiction | reflexivity]. }
  destruct (settle_all_effect id details st Nd Ne H')
    as (st3 & E & D & K & B & It & P & Q & V & W & X).
  exists (with_payments st3
            (update_where (fun p => Nat.eqb (pay_id p) id)
               (set_pay_status (utr_newStatus st3 id)) (payments st3))),
         (utr_newStatus st3 id).
  split.
  { unfold update_utr, authorize. rewrite A.
    unfold transaction, update_utr_body, tx_bind. rewrite E. reflexivity. }
  cbn [payment_details inward_bills proposal_items payments proposals vendors
       inactive_vendors next_id with_payments].
  split.
  { rewrite D, map_map. apply map_ext. intros d.
    destruct (entry_naming details d); reflexivity. }
  split.
  { rewrite D, map_map. apply map_ext. intros d.
    destruct (entry_naming details d); reflexivity. }
  split; [exact K |]. split; [exact B |].
  split.
  { rewrite It. unfold update_where. rewrite map_map. apply map_ext. intros i.
    destruct (exists_where _ _); reflexivity. }
  split.
  { rewrite It. unfold update_where. rewrite map_map. apply map_ext. intros i.
    unfold exists_where, opt_uuid_eqb. cbv beta.
    match goal with
    | |- pi_status (if ?c then _ else _) = _ => destruct c
    end; reflexivity. }
  split.
  { rewrite P. unfold update_where. rewrite map_map. apply map_ext. intros p.
    destruct (Nat.eqb _ _); reflexivity. }
  split.
  { rewrite P. unfold update_where. rewrite map_map. apply map_ext. intros p.
    destruct (Nat.eqb _ _); reflexivity. }
  destruct (utr_newStatus_spec st3 id) as (C1 & C2).
  split.
  { rewrite C1. split; intros G d I Pd.
    - apply utr_missing_spec. apply G; assumption.
    - apply utr_missing_spec. apply G; assumption. }
  split.
  { rewrite C2. split; intros (d & I & Pd & M); exists d;
      (split; [exact I |]; split; [exact Pd |]); apply utr_missing_spec; exact M. }
  repeat split; assumption.
Qed.

(** ** Entries of a UTR update that settle nothing, or too much *)

Lemma with_payment_details_same (st : db) :
  with_payment_details st (payment_details st) = st.
Proof. destruct st; reflexivity. Qed.

Lemma select_first_none {R} (w : R -> bool) (t : list R) :
  select_first w t = None -> select_where w t = [] /\ forall r, In r t -> w r = false.
Proof.
  unfold select_first, select_where. intros F. split.
  - induction t as [| x t IH]; [reflexivity |]. simpl in *.
    destruct (w x); [discriminate | auto].
  - intros r I. exact (find_none _ _ F r I).
Qed.

(** X17. An entry that names a detail of another payment: the detail is not
    touched, neither its UTR nor its status, but the amount of the detail is
    added to its bill all the same and its originating item becomes
    [paid]. *)
Theorem utr_entry_for_foreign_detail (id : uuid) (e : utr_entry) (st : db)
    (d : payment_detail) :
  truthy_string (ue_utr_number e) = true ->
  select_first (fun d => Nat.eqb (pd_id d) (ue_detail_id e)) (payment_details st)
  = Some d ->
  (forall d', In d' (payment_details st) -> pd_id d' = ue_detail_id e ->
              pd_payment_id d' <> id) ->
  exists st',
    settle_detail id e st = Done (tt, st')
    /\ payment_details st' = payment_details st
    /\ inward_bills st'
       = update_where (fun b => Nat.eqb (ib_id b) (pd_bill_id d))
           (add_ib_paid (pd_amount d)) (inward_bills st)
    /\ proposal_items st'
       = update_where (fun i => opt_uuid_eqb (pd_proposal_item_id d) (pi_id i))
           (set_pi_status Paid) (proposal_items st)
    /\ payments st' = payments st.
Proof.
  intros T F Foreign.
  destruct (select_first_rows _ _ _ F) as (W & I & rest & S).
  assert (U : update_where (fun d => Nat.eqb (pd_id d) (ue_detail_id e)
                                     && Nat.eqb (pd_payment_id d) id)
                (set_pd_utr (ue_utr_number e)) (payment_details st)
              = payment_details st).
  { apply update_where_none. intros r Ir.
    destruct (Nat.eqb (pd_id r) (ue_detail_id e)) eqn:E1; [| reflexivity].
    apply Nat.eqb_eq in E1. specialize (Foreign r Ir E1).
    apply Nat.eqb_neq in Foreign. rewrite Foreign. reflexivity. }
  unfold settle_detail, tx_bind, exec, ask.
  cbn [payment_details with_payment_details]. rewrite U, S, T.
  eexists. split; [reflexivity |].
  cbn [payment_details inward_bills proposal_items payments
       with_payment_details with_inward_bills with_proposal_items].
  rewrite F. repeat split; reflexivity.
Qed.

(** X18. An entry without UTR (missing or empty), and an entry that names no
    detail. The first marks the details it names under the payment as
    [confirmed] with that empty UTR, so that the payment still counts them
    as pending, and writes to no bill and no item; the second writes
    nothing at all. *)
Theorem utr_entry_without_effect (id : uuid) (e : utr_entry) (st : db) :
  (truthy_string (ue_utr_number e) = false ->
   exists st',
     settle_detail id e st = Done (tt, st')
     /\ payment_details st'
        = update_where (fun d => Nat.eqb (pd_id d) (ue_detail_id e)
                                 && Nat.eqb (pd_payment_id d) id)
            (set_pd_utr (ue_utr_number e)) (payment_details st)
     /\ (forall d, In d (payment_details st') -> pd_id d = ue_detail_id e ->
           pd_payment_id d = id ->
           pd_status d = DetConfirmed /\ utr_missing d = true)
     /\ inward_bills st' = inward_bills st
     /\ proposal_items st' = proposal_items st
     /\ payments st' = payments st)
  /\ (select_first (fun d => Nat.eqb (pd_id d) (ue_detail_id e)) (payment_details st)
      = None ->
      settle_detail id e st = Done (tt, st)).
Proof.
  split.
  - intros T. unfold settle_detail, tx_bind, exec, ask.
    cbn [payment_details with_payment_details]. rewrite T.
    eexists. split.
    + destruct (select_where _ _); reflexivity.
    + cbn [payment_details inward_bills proposal_items payments
           with_payment_details]. split; [reflexivity |].
      split; [| repeat split; reflexivity].
      intros d I E1 E2. apply update_where_in in I.
      destruct I as [(_ & W) | (r & _ & _ & Er)].
      * rewrite E1, E2, !Nat.eqb_refl in W. discriminate.
      * subst d. split; [reflexivity |]. unfold utr_missing. simpl.
        unfold truthy_string in T. destruct (ue_utr_number e) as [s |];
          [| reflexivity].
        apply negb_false_iff in T. exact T.
  - intros F. destruct (select_first_none _ _ F) as (S & Nn).
    assert (U : update_where (fun d => Nat.eqb (pd_id d) (ue_detail_id e)
                                       && Nat.eqb (pd_payment_id d) id)
                  (set_pd_utr (ue_utr_number e)) (payment_details st)
                = payment_details st).
    { apply update_where_none. intros r Ir. rewrite (Nn r Ir). reflexivity. }
    unfold settle_detail, tx_bind, exec, ask.
    cbn [payment_details with_payment_details]. rewrite U, S.
    unfold tx_ret. rewrite with_payment_details_same. reflexivity.
Qed.

(** ** Dispatches: the overdue list and the ageing *)

Lemma insert_by_key_in {R} (key : R -> Z) (r x : R) (l : list R) :
  In x (insert_by_key key r l) <-> x = r \/ In x l.
Proof.
  induction l as [| y l IH]; simpl.
  - intuition.
  - destruct (key r <? key y); simpl; [intuition |]. rewrite IH. intuition.
Qed.

Lemma order_by_key_in {R} (key : R -> Z) (x : R) (l : list R) :
  In x (order_by_key key l) <-> In x l.
Proof.
  unfold order_by_key. induction l as [| r l IH]; simpl; [tauto |].
  rewrite insert_by_key_in, IH. intuition.
Qed.

Lemma insert_by_key_sum {R} (key f : R -> Z) (r : R) (l : list R) :
  sum_of f (insert_by_key key r l) = f r + sum_of f l.
Proof.
  induction l as [| y l IH]; simpl; [reflexivity |].
  destruct (key r <? key y); simpl; [reflexivity |]. rewrite IH. lia.
Qed.

Lemma order_by_key_sum {R} (key f : R -> Z) (l : list R) :
  sum_of f (order_by_key key l) = sum_of f l.
Proof.
  unfold order_by_key. induction l as [| r l IH]; simpl; [reflexivity |].
  rewrite insert_by_key_sum, IH. reflexivity.
Qed.

Lemma insert_by_key_length {R} (key : R -> Z) (r : R) (l : list R) :
  List.length (insert_by_key key r l) = S (List.length l).
Proof.
  induction l as [| y l IH]; simpl; [reflexivity |].
  destruct (key r <? key y); simpl; [reflexivity |]. rewrite IH. reflexivity.
Qed.

Lemma order_by_key_length {R} (key : R -> Z) (l : list R) :
  List.length (order_by_key key l) = List.length l.
Proof.
  unfold order_by_key. induction l as [| r l IH]; simpl; [reflexivity |].
  rewrite insert_by_key_length, IH. reflexivity.
Qed.

Lemma insert_by_key_sorted {R} (key : R -> Z) (r : R) (l : list R) :
  sorted_by key l -> sorted_by key (insert_by_key key r l).
Proof.
  induction l as [| x l IH]; intros S; simpl.
  - split; [intros y [] | exact I].
  - destruct S as [Sx Sl]. destruct (Z.ltb_spec (key r) (key x)).
    + split; [| split; assumption].
      intros y [E | Iy]; [subst y; lia |]. specialize (Sx y Iy). lia.
    + split; [| apply IH; exact Sl].
      intros y Iy. apply insert_by_key_in in Iy.
      destruct Iy as [E | Iy]; [subst y; lia | apply Sx; exact Iy].
Qed.

Lemma order_by_key_sorted {R} (key : R -> Z) (l : list R) :
  sorted_by key (order_by_key key l).
Proof.
  unfold order_by_key. induction l as [| r l IH]; simpl; [exact I |].
  apply insert_by_key_sorted. exact IH.
Qed.

Lemma joined_once {A B C} (f : A -> C) (sel : A -> list B) (l : list A) :
  (forall a, In a l -> List.length (sel a) = 1%nat) ->
  flat_map (fun a => map (fun _ => f a) (sel a)) l = map f l.
Proof.
  induction l as [| a l IH]; intros H; [reflexivity |].
  simpl. rewrite IH by (intros; apply H; right; assumption).
  specialize (H a (or_introl eq_refl)).
  destruct (sel a) as [| b [| b' bs]]; try discriminate. reflexivity.
Qed.

Lemma count_case_rows (c : Z -> bool) (rows : list outward_row) :
  count_where (fun b => c (ob_due_date b) && receivable_open b) (map or_bill rows)
  = List.length (select_where (fun r => c (ob_due_date (or_bill r))
                                        && receivable_open (or_bill r)) rows).
Proof.
  unfold count_where, select_where. induction rows as [| r rows IH]; [reflexivity |].
  simpl. destruct (c (ob_due_date (or_bill r)) && receivable_open (or_bill r));
    simpl; rewrite IH; reflexivity.
Qed.

Lemma sum_case_rows (c : Z -> bool) (rows : list outward_row) :
  sum_case c (select_where receivable_open (map or_bill rows))
  = sum_of (fun r => outstanding (or_bill r))
      (select_where (fun r => c (ob_due_date (or_bill r))
                              && receivable_open (or_bill r)) rows).
Proof.
  unfold sum_case, select_where. induction rows as [| r rows IH]; [reflexivity |].
  simpl. destruct (receivable_open (or_bill r)); simpl;
    destruct (c (ob_due_date (or_bill r))); simpl; rewrite IH; reflexivity.
Qed.

Lemma overdue_rows (st : outward_db) (today days : Z) :
  (forall r, In r (outward_rows st) ->
     List.length (select_where (fun c => Nat.eqb (ob_customer_id (or_bill r)) (c_id c))
                    (customers st)) = 1%nat) ->
  overdue st today days
  = order_by_key (fun o => ob_due_date (or_bill (ov_row o)))
      (map (fun r => {| ov_row := r;
                        ov_days_overdue := today - ob_due_date (or_bill r) |})
         (select_where (overdue_where today days) (outward_rows st))).
Proof.
  intros J. unfold overdue. f_equal.
  apply (joined_once
           (fun r => {| ov_row := r;
                        ov_days_overdue := today - ob_due_date (or_bill r) |})
           (fun r => select_where
                       (fun c => Nat.eqb (ob_customer_id (or_bill r)) (c_id c))
                       (customers st))).
  intros r I. apply J. unfold select_where in I. apply filter_In in I. tauto.
Qed.

Lemma overdue_measure (st : outward_db) (today days : Z) (w : outward_row -> bool) :
  (forall r, In r (outward_rows st) ->
     List.length (select_where (fun c => Nat.eqb (ob_customer_id (or_bill r)) (c_id c))
                    (customers st)) = 1%nat) ->
  (forall r, overdue_where today days r = w r) ->
  List.length (overdue st today days) = List.length (select_where w (outward_rows st))
  /\ sum_of (fun o => outstanding (or_bill (ov_row o))) (overdue st today days)
     = sum_of (fun r => outstanding (or_bill r)) (select_where w (outward_rows st)).
Proof.
  intros J W. rewrite (overdue_rows st today days J).
  rewrite order_by_key_length, order_by_key_sum, length_map.
  unfold select_where. rewrite (filter_ext _ _ W). split; [reflexivity |].
  induction (filter w (outward_rows st)) as [| r l IH]; [reflexivity |].
  simpl. rewrite IH. reflexivity.
Qed.

Lemma all_overdue_split (today : Z) (rows : list outward_row) :
  let sel c := select_where (fun r => c (ob_due_date (or_bill r))
                                      && receivable_open (or_bill r)) rows in
  let all := select_where (fun r => (ob_due_date (or_bill r) <? today)
                                    && receivable_open (or_bill r)) rows in
  List.length all
  = (List.length (sel (in_1_15 today)) + List.length (sel (in_16_21 today))
     + List.length (sel (in_22_30 today)) + List.length (sel (in_30_plus today)))%nat
  /\ sum_of (fun r => outstanding (or_bill r)) all
     = sum_of (fun r => outstanding (or_bill r)) (sel (in_1_15 today))
       + sum_of (fun r => outstanding (or_bill r)) (sel (in_16_21 today))
       + sum_of (fun r => outstanding (or_bill r)) (sel (in_22_30 today))
       + sum_of (fun r => outstanding (or_bill r)) (sel (in_30_plus today)).
Proof.
  unfold select_where. induction rows as [| r rows IH]; [split; reflexivity |].
  simpl in *. destruct IH as [IH1 IH2].
  unfold in_1_15, in_16_21, in_22_30, in_30_plus in *.
  destruct (receivable_open (or_bill r)); rewrite ?andb_false_r, ?andb_true_r;
    [| split; assumption].
  cmp_cases; simpl; try lia; split; simpl; lia.
Qed.

(** X19. The overdue list agrees with the ageing summary, every dispatch
    having its customer row. For [days] 15, 21, 30 and above 30 the list
    has as many rows as the summary counts in the bucket 1-15, 16-21, 22-30
    and 30+, and their outstanding amounts add up to the amount of that
    bucket; for any other [days] (0, 7, 20, a negative number) the list is
    all that is overdue, the four buckets together. The list is in the
    order of the due dates, and every row is at least one day overdue and
    neither cancelled nor paid. *)
Theorem overdue_list_matches_ageing (st : outward_db) (today days : Z) :
  (forall r, In r (outward_rows st) ->
     List.length (select_where (fun c => Nat.eqb (ob_customer_id (or_bill r)) (c_id c))
                    (customers st)) = 1%nat) ->
  let a := receivables_ageing today (map or_bill (outward_rows st)) in
  let l := overdue st today days in
  let total := sum_of (fun o => outstanding (or_bill (ov_row o))) l in
  (days = 15 -> List.length l = ag_days_15_count a /\ total = ag_days_15_amount a)
  /\ (days = 21 -> List.length l = ag_days_21_count a /\ total = ag_days_21_amount a)
  /\ (days = 30 -> List.length l = ag_days_30_count a /\ total = ag_days_30_amount a)
  /\ (30 < days ->
      List.length l = ag_days_30_plus_count a /\ total = ag_days_30_plus_amount a)
  /\ (days <> 15 -> days <> 21 -> days < 30 ->
      List.length l
      = (ag_days_15_count a + ag_days_21_count a + ag_days_30_count a
         + ag_days_30_plus_count a)%nat
      /\ total = ag_days_15_amount a + ag_days_21_amount a + ag_days_30_amount a
                 + ag_days_30_plus_amount a)
  /\ sorted_by (fun o => ob_due_date (or_bill (ov_row o))) l
  /\ (forall o, In o l ->
        ov_days_overdue o = today - ob_due_date (or_bill (ov_row o))
        /\ 1 <= ov_days_overdue o
        /\ receivable_open (or_bill (ov_row o)) = true
        /\ In (ov_row o) (outward_rows st)).
Proof.
  intros J a l total. subst a l total. unfold receivables_ageing.
  cbn [ag_days_15_count ag_days_15_amount ag_days_21_count ag_days_21_amount
       ag_days_30_count ag_days_30_amount ag_days_30_plus_count
       ag_days_30_plus_amount].
  rewrite !count_case_rows, !sum_case_rows.
  split; [| split; [| split; [| split; [| split; [| split]]]]].
  - intros D. subst days. apply (overdue_measure st today 15 _ J).
    intros r. unfold overdue_where, in_1_15. simpl.
    destruct (ob_due_date (or_bill r) <? today), (receivable_open (or_bill r)),
             (today - 15 <=? ob_due_date (or_bill r)); reflexivity.
  - intros D. subst days. apply (overdue_measure st today 21 _ J).
    intros r. unfold overdue_where, in_16_21. simpl.
    destruct (ob_due_date (or_bill r) <? today) eqn:E1,
             (receivable_open (or_bill r)),
             (ob_due_date (or_bill r) <? today - 15) eqn:E2,
             (today - 21 <=? ob_due_date (or_bill r)); try reflexivity.
    apply Z.ltb_ge in E1. apply Z.ltb_lt in E2. lia.
  - intros D. subst days. apply (overdue_measure st today 30 _ J).
    intros r. unfold overdue_where, in_22_30. simpl.
    destruct (ob_due_date (or_bill r) <? today) eqn:E1,
             (receivable_open (or_bill r)),
             (ob_due_date (or_bill r) <? today - 21) eqn:E2,
             (today - 30 <=? ob_due_date (or_bill r)); try reflexivity.
    apply Z.ltb_ge in E1. apply Z.ltb_lt in E2. lia.
  - intros D. apply (overdue_measure st today days _ J).
    intros r. unfold overdue_where, in_30_plus.
    destruct (Z.eqb_spec days 15); [lia |]. destruct (Z.eqb_spec days 21); [lia |].
    destruct (Z.eqb_spec days 30); [lia |]. destruct (Z.ltb_spec 30 days); [| lia].
    destruct (ob_due_date (or_bill r) <? today) eqn:E1,
             (receivable_open (or_bill r)),
             (ob_due_date (or_bill r) <? today - 30) eqn:E2; try reflexivity.
    apply Z.ltb_ge in E1. apply Z.ltb_lt in E2. lia.
  - intros D1 D2 D3.
    destruct (all_overdue_split today (outward_rows st)) as [L S].
    cbv zeta in L, S. rewrite <- L, <- S.
    apply (overdue_measure st today days _ J).
    intros r. unfold overdue_where.
    destruct (Z.eqb_spec days 15); [lia |]. destruct (Z.eqb_spec days 21); [lia |].
    destruct (Z.eqb_spec days 30); [lia |]. destruct (Z.ltb_spec 30 days); [lia |].
    reflexivity.
  - rewrite (overdue_rows st today days J). apply order_by_key_sorted.
  - intros o I. rewrite (overdue_rows st today days J) in I.
    apply (proj1 (order_by_key_in _ _ _)) in I. apply in_map_iff in I.
    destruct I as (r & E & Ir). subst o. simpl.
    unfold select_where in Ir. apply filter_In in Ir. destruct Ir as (Ir & W).
    assert (B : (ob_due_date (or_bill r) <? today) && receivable_open (or_bill r) = true).
    { unfold overdue_where in W.
      destruct (days =? 15), (days =? 21), (days =? 30), (30 <? days);
        cbv beta zeta iota in W; repeat rewrite andb_true_iff in W;
        rewrite andb_true_iff; tauto. }
    apply andb_true_iff in B as [B1 B2]. apply Z.ltb_lt in B1.
    repeat split; auto. lia.
Qed.

(** ** Dispatches: update, delivery status, cancellation *)

(** X20. Updating a dispatch, by the owner, with at least one field. The answer
    is 200 exactly when a row with the key is not cancelled, and 404
    otherwise. The rows with the key that are not cancelled get the given
    fields; no due date is recalculated, whatever invoice date or credit
    days are given; the key, customer, amount collected, status and
    delivery status of every row stay as they are, and a cancelled row is
    not changed at all. The customers are not written. *)
Theorem update_outward_bill_effect (u : user) (id : uuid) (updates : outward_updates)
    (st : outward_db) :
  user_role u = Owner ->
  no_outward_set_clause updates = false ->
  let result := update_outward_bill u id updates st in
  (fst result = Json 200 "Bill updated"
   <-> exists r, In r (outward_rows st) /\ or_id r = id
                 /\ ob_status (or_bill r) <> "cancelled")
  /\ (fst result = Json 200 "Bill updated"
      \/ fst result = Json 404 "Bill not found or cancelled")
  /\ map (fun r => (or_id r, ob_customer_id (or_bill r),
                    ob_collected_amount (or_bill r), ob_due_date (or_bill r),
                    ob_status (or_bill r), or_delivery_status r))
         (outward_rows (snd result))
     = map (fun r => (or_id r, ob_customer_id (or_bill r),
                      ob_collected_amount (or_bill r), ob_due_date (or_bill r),
                      ob_status (or_bill r), or_delivery_status r))
         (outward_rows st)
  /\ (forall r, In r (outward_rows st) -> or_id r = id ->
        ob_status (or_bill r) <> "cancelled" ->
        In (set_or_fields updates r) (outward_rows (snd result))
        /\ or_credit_days (set_or_fields updates r)
           = nullish (ou_credit_days updates) (or_credit_days r)
        /\ or_invoice_date (set_or_fields updates r)
           = nullish (ou_invoice_date updates) (or_invoice_date r)
        /\ ob_due_date (or_bill (set_or_fields updates r)) = ob_due_date (or_bill r))
  /\ (forall r, In r (outward_rows st) ->
        ob_status (or_bill r) = "cancelled" \/ or_id r <> id ->
        In r (outward_rows (snd result)))
  /\ customers (snd result) = customers st.
Proof.
  intros R N result. subst result. unfold update_outward_bill, allowed.
  rewrite R, N. cbn [existsb role_eqb orb negb].
  set (w := fun r => Nat.eqb (or_id r) id
                     && negb (String.eqb (ob_status (or_bill r)) "cancelled")).
  assert (W : forall r, w r = true <-> or_id r = id /\ ob_status (or_bill r) <> "cancelled").
  { intros r. unfold w. rewrite andb_true_iff, negb_true_iff, Nat.eqb_eq.
    destruct (String.eqb_spec (ob_status (or_bill r)) "cancelled");
      intuition congruence. }
  assert (EQ : forall (a b : reply) (c : bool),
             snd (if c then (a, with_outward_rows st
                                  (update_where w (set_or_fields updates) (outward_rows st)))
                  else (b, with_outward_rows st
                             (update_where w (set_or_fields updates) (outward_rows st))))
             = with_outward_rows st
                 (update_where w (set_or_fields updates) (outward_rows st)))
    by (intros a b []; reflexivity).
  rewrite EQ. cbn [outward_rows customers with_outward_rows].
  split; [| split; [| split; [| split; [| split]]]].
  - destruct (Nat.eqb (List.length (select_where w (outward_rows st))) 0) eqn:L;
      cbn [fst].
    + split; [discriminate |]. intros (r & I & H).
      pose proof (select_where_empty w _ L r I) as X.
      apply W in H. congruence.
    + split; [intros _ | reflexivity].
      apply select_where_nonempty in L. destruct L as (r & I & H).
      exists r. split; [exact I | apply W; exact H].
  - destruct (Nat.eqb _ 0); auto.
  - unfold update_where. rewrite map_map. apply map_ext. intros r.
    destruct (w r); reflexivity.
  - intros r I E S. split; [| repeat split; reflexivity].
    unfold update_where. apply in_map_iff. exists r.
    assert (X : w r = true) by (apply W; auto). rewrite X. auto.
  - intros r I H. unfold update_where. apply in_map_iff. exists r.
    assert (X : w r = false).
    { destruct (w r) eqn:X; [| reflexivity]. apply W in X.
      destruct H as [H | H]; tauto. }
    rewrite X. auto.
  - reflexivity.
Qed.

Lemma same_bills_same_ageing (today : Z) (l l' : list outward_bill) :
  l' = l -> receivables_ageing today l' = receivables_ageing today l.
Proof. intros E. rewrite E. reflexivity. Qed.

(** X21. The delivery status of a dispatch, for a caller with the godown or
    owner role. A status outside pending, dispatched, in_transit,
    delivered and returned is refused with 400 and nothing is written. A
    valid status is written to every row with the key, whatever status the
    row had and whether or not it is cancelled, and the answer is 200
    exactly when such a row exists; the time of delivery is written for
    'delivered' only, the given one or else the current one. The amounts,
    due date and status of every row stay as they are, so the ageing
    summary is the same before and after. *)
Theorem update_delivery_status_effect (u : user) (now today : Z) (id : uuid)
    (d : delivery_update) (st : outward_db) :
  user_role u = Godown \/ user_role u = Owner ->
  let result := update_delivery_status u now id d st in
  (includes validStatuses (du_delivery_status d) = false ->
   result = (Json 400 "Invalid delivery status", st))
  /\ (includes validStatuses (du_delivery_status d) = true ->
      (fst result = Json 200 "Delivery status updated"
       <-> exists r, In r (outward_rows st) /\ or_id r = id)
      /\ outward_rows (snd result)
         = update_where (fun r => Nat.eqb (or_id r) id) (set_or_delivery now d)
             (outward_rows st)
      /\ (forall r, In r (outward_rows (snd result)) -> or_id r = id ->
            or_delivery_status r = du_delivery_status d
            /\ (du_delivery_status d = "delivered" ->
                or_delivered_at r = Some (nullish (du_delivered_at d) now)))
      /\ map or_bill (outward_rows (snd result)) = map or_bill (outward_rows st)
      /\ receivables_ageing today (map or_bill (outward_rows (snd result)))
         = receivables_ageing today (map or_bill (outward_rows st))
      /\ customers (snd result) = customers st).
Proof.
  intros R result. subst result. unfold update_delivery_status, allowed.
  assert (A : existsb (role_eqb (user_role u)) [Godown; Owner] = true)
    by (destruct R as [R | R]; rewrite R; reflexivity).
  rewrite A. cbn [negb]. split.
  - intros V. rewrite V. reflexivity.
  - intros V. rewrite V. cbn [negb].
    set (w := fun r => Nat.eqb (or_id r) id).
    assert (EQ : forall (a b : reply) (c : bool),
               snd (if c then (a, with_outward_rows st
                                    (update_where w (set_or_delivery now d)
                                       (outward_rows st)))
                    else (b, with_outward_rows st
                               (update_where w (set_or_delivery now d)
                                  (outward_rows st))))
               = with_outward_rows st
                   (update_where w (set_or_delivery now d) (outward_rows st)))
      by (intros a b []; reflexivity).
    rewrite EQ. cbn [outward_rows customers with_outward_rows].
    assert (M : map or_bill (update_where w (set_or_delivery now d) (outward_rows st))
                = map or_bill (outward_rows st)).
    { unfold update_where. rewrite map_map. apply map_ext. intros r.
      destruct (w r); reflexivity. }
    split; [| split; [reflexivity | split; [| split; [exact M | split]]]].
    + destruct (Nat.eqb (List.length (select_where w (outward_rows st))) 0) eqn:L;
        cbn [fst].
      * split; [discriminate |]. intros (r & I & H).
        pose proof (select_where_empty w _ L r I) as X.
        unfold w in X. rewrite H, Nat.eqb_refl in X. discriminate.
      * split; [intros _ | reflexivity].
        apply select_where_nonempty in L. destruct L as (r & I & H).
        exists r. split; [exact I | apply Nat.eqb_eq; exact H].
    + intros r I E. apply update_where_in in I.
      destruct I as [(_ & X) | (r0 & _ & _ & Er)].
      * unfold w in X. rewrite E, Nat.eqb_refl in X. discriminate.
      * subst r. split; [reflexivity |]. intros D. simpl. rewrite D. reflexivity.
    + apply same_bills_same_ageing. exact M.
    + reflexivity.
Qed.

Lemma overdue_where_open (today days : Z) (r : outward_row) :
  overdue_where today days r = true ->
  receivable_open (or_bill r) = true /\ ob_due_date (or_bill r) < today.
Proof.
  unfold overdue_where. intros W.
  destruct (days =? 15), (days =? 21), (days =? 30), (30 <? days);
    cbv beta zeta iota in W; repeat rewrite andb_true_iff in W;
    rewrite Z.ltb_lt in W; tauto.
Qed.

Lemma overdue_in (st : outward_db) (today days : Z) (o : overdue_row) :
  In o (overdue st today days) ->
  In (ov_row o) (outward_rows st)
  /\ receivable_open (or_bill (ov_row o)) = true
  /\ ob_due_date (or_bill (ov_row o)) < today
  /\ ov_days_overdue o = today - ob_due_date (or_bill (ov_row o)).
Proof.
  unfold overdue. rewrite order_by_key_in, in_flat_map.
  intros (r & I & M). apply in_map_iff in M. destruct M as (c & E & _).
  subst o. cbn [ov_row ov_days_overdue].
  apply filter_In in I. destruct I as (I & W).
  apply overdue_where_open in W. tauto.
Qed.

Lemma closed_rows_leave_ageing (today : Z) (w : outward_row -> bool)
    (f : outward_row -> outward_row) (rows : list outward_row) :
  (forall r, receivable_open (or_bill (f r)) = false) ->
  receivables_ageing today (map or_bill (update_where w f rows))
  = receivables_ageing today (map or_bill (delete_where w rows)).
Proof.
  intros C.
  assert (S : select_where receivable_open (map or_bill (update_where w f rows))
              = select_where receivable_open (map or_bill (delete_where w rows))).
  { unfold select_where, update_where, delete_where.
    induction rows as [| r rows IH]; [reflexivity |].
    simpl. destruct (w r); simpl.
    - rewrite C. exact IH.
    - destruct (receivable_open (or_bill r)); rewrite IH; reflexivity. }
  assert (N : forall c,
             count_where (fun b => c (ob_due_date b) && receivable_open b)
               (map or_bill (update_where w f rows))
             = count_where (fun b => c (ob_due_date b) && receivable_open b)
                 (map or_bill (delete_where w rows))).
  { intros c. clear S. unfold count_where, update_where, delete_where.
    induction rows as [| r rows IH]; [reflexivity |].
    simpl. destruct (w r); simpl.
    - rewrite C, andb_false_r. exact IH.
    - destruct (c (ob_due_date (or_bill r)) && receivable_open (or_bill r));
        simpl; rewrite IH; reflexivity. }
  unfold receivables_ageing. rewrite S, !N. reflexivity.
Qed.

(** X22. Cancelling a dispatch. The answer is 200 exactly when the caller is
    the owner, a non-empty reason is given, a row with the key exists and
    nothing has been collected on the first such row; any other answer
    writes nothing. On 200 only the status of the rows with the key changes,
    to 'cancelled' (the reason is not stored); the ageing summary is then
    the one of the table without these rows, no overdue list names the
    dispatch, and an update of it by the owner is answered 404 and writes
    nothing. *)
Theorem cancel_outward_bill_spec (u : user) (id : uuid) (reason : option string)
    (st : outward_db) :
  let result := cancel_outward_bill u id reason st in
  (fst result = Json 200 "Bill cancelled"
   <-> user_role u = Owner /\ truthy_string reason = true
       /\ exists existing others,
            select_where (fun r => Nat.eqb (or_id r) id) (outward_rows st)
            = existing :: others
            /\ ob_collected_amount (or_bill existing) <= 0)
  /\ (fst result <> Json 200 "Bill cancelled" -> snd result = st)
  /\ (fst result = Json 200 "Bill cancelled" ->
      outward_rows (snd result)
      = update_where (fun r => Nat.eqb (or_id r) id)
          (fun r => set_or_bill (set_ob_status "cancelled" (or_bill r)) r)
          (outward_rows st)
      /\ customers (snd result) = customers st
      /\ (forall r, In r (outward_rows (snd result)) -> or_id r = id ->
            ob_status (or_bill r) = "cancelled")
      /\ (forall today,
            receivables_ageing today (map or_bill (outward_rows (snd result)))
            = receivables_ageing today
                (map or_bill (delete_where (fun r => Nat.eqb (or_id r) id)
                                (outward_rows st))))
      /\ (forall today days o, In o (overdue (snd result) today days) ->
            or_id (ov_row o) <> id)
      /\ (forall owner updates,
            user_role owner = Owner -> no_outward_set_clause updates = false ->
            update_outward_bill owner id updates (snd result)
            = (Json 404 "Bill not found or cancelled", snd result))).
Proof.
  intros result. subst result. unfold cancel_outward_bill, allowed.
  cbn [existsb orb].
  destruct (role_eqb (user_role u) Owner) eqn:R; cbn [negb].
  2: { split; [| split]; cbn [fst snd]; try reflexivity; try discriminate.
       split; [discriminate |]. intros (O & _). rewrite O in R. discriminate. }
  assert (O : user_role u = Owner) by (destruct (user_role u); (reflexivity || discriminate)).
  destruct (truthy_string reason) eqn:T; cbn [negb].
  2: { split; [| split]; cbn [fst snd]; try reflexivity; try discriminate.
       split; [discriminate |]. intros (_ & X & _). discriminate. }
  set (w := fun r => Nat.eqb (or_id r) id).
  destruct (select_where w (outward_rows st)) as [| existing others] eqn:S.
  { split; [| split]; cbn [fst snd]; try reflexivity; try discriminate.
    split; [discriminate |]. intros (_ & _ & e & o & X & _). discriminate. }
  destruct (0 <? ob_collected_amount (or_bill existing)) eqn:C.
  { split; [| split]; cbn [fst snd]; try reflexivity; try discriminate.
    split; [discriminate |]. intros (_ & _ & e & o & X & L).
    inversion X; subst. apply Z.ltb_lt in C. lia. }
  apply Z.ltb_ge in C.
  cbn [fst snd outward_rows customers with_outward_rows].
  split; [| split].
  - split; [intros _ | reflexivity].
    split; [exact O | split; [reflexivity |]]. exists existing, others. auto.
  - intros X. exfalso. apply X. reflexivity.
  - intros _.
    assert (K : forall r,
               In r (update_where w
                       (fun r => set_or_bill (set_ob_status "cancelled" (or_bill r)) r)
                       (outward_rows st)) ->
               or_id r = id -> ob_status (or_bill r) = "cancelled").
    { intros r I E. apply update_where_in in I.
      destruct I as [(_ & X) | (r0 & _ & _ & Er)].
      - unfold w in X. rewrite E, Nat.eqb_refl in X. discriminate.
      - subst r. reflexivity. }
    split; [reflexivity | split; [reflexivity | split; [exact K | split; [| split]]]].
    + intros today. apply closed_rows_leave_ageing. intros r. reflexivity.
    + intros today days o I E.
      apply overdue_in in I. cbn [outward_rows with_outward_rows] in I.
      destruct I as (I & P & _).
      apply K in I; [| exact E].
      unfold receivable_open in P. rewrite I in P. discriminate.
    + intros owner updates Ro N. unfold update_outward_bill, allowed.
      rewrite Ro, N. cbn [existsb role_eqb orb negb outward_rows with_outward_rows].
      set (rows' := update_where w _ (outward_rows st)) in *.
      set (w' := fun r => Nat.eqb (or_id r) id
                          && negb (String.eqb (ob_status (or_bill r)) "cancelled")).
      assert (F : forall r, In r rows' -> w' r = false).
      { intros r I. unfold w'. destruct (Nat.eqb (or_id r) id) eqn:E; [| reflexivity].
        apply Nat.eqb_eq in E. rewrite (K r I E). reflexivity. }
      assert (L : Nat.eqb (List.length (select_where w' rows')) 0 = true).
      { destruct (Nat.eqb (List.length (select_where w' rows')) 0) eqn:L;
          [reflexivity |].
        apply select_where_nonempty in L. destruct L as (r & I & X).
        rewrite (F r I) in X. discriminate. }
      change ((if Nat.eqb (List.length (select_where w' rows')) 0
               then (Json 404 "Bill not found or cancelled",
                     with_outward_rows (with_outward_rows st rows')
                       (update_where w' (set_or_fields updates) rows'))
               else (Json 200 "Bill updated",
                     with_outward_rows (with_outward_rows st rows')
                       (update_where w' (set_or_fields updates) rows')))
              = (Json 404 "Bill not found or cancelled", with_outward_rows st rows')).
      rewrite L, (update_where_none w' _ rows' F). reflexivity.
Qed.

(** X23. Deactivating a customer. The answer is 200 exactly when the caller is
    the owner, no dispatch of the customer is open (neither cancelled nor
    paid) and a customer with the key exists. With an open dispatch the
    answer is 400 and nothing is written. Otherwise the customers with the
    key are made inactive, the others and all dispatches stay as they are. *)
Theorem deactivate_customer_spec (u : user) (id : uuid) (st : outward_db) :
  let result := deactivate_customer u id st in
  let open r := Nat.eqb (ob_customer_id (or_bill r)) id && receivable_open (or_bill r) in
  (fst result = Json 200 "Customer deactivated"
   <-> user_role u = Owner
       /\ (forall r, In r (outward_rows st) -> open r = false)
       /\ exists c, In c (customers st) /\ c_id c = id)
  /\ (user_role u = Owner ->
      (exists r, In r (outward_rows st) /\ open r = true) ->
      result = (Json 400 "Cannot delete customer with outstanding bills", st))
  /\ outward_rows (snd result) = outward_rows st
  /\ map c_id (customers (snd result)) = map c_id (customers st)
  /\ (forall c, In c (customers (snd result)) -> c_id c <> id -> In c (customers st))
  /\ (fst result = Json 200 "Customer deactivated" ->
      forall c, In c (customers (snd result)) -> c_id c = id -> c_is_active c = false).
Proof.
  intros result open. subst result. unfold deactivate_customer, allowed.
  cbn [existsb orb]. fold open.
  assert (CW : Nat.ltb 0 (count_where open (outward_rows st)) = false
               <-> forall r, In r (outward_rows st) -> open r = false).
  { unfold count_where. split.
    - intros L r I. destruct (open r) eqn:X; [| reflexivity].
      assert (J : In r (filter open (outward_rows st))) by (apply filter_In; auto).
      destruct (filter open (outward_rows st)); [destruct J | discriminate].
    - intros H. destruct (filter open (outward_rows st)) as [| r l] eqn:E;
        [reflexivity |].
      assert (J : In r (filter open (outward_rows st))) by (rewrite E; left; reflexivity).
      apply filter_In in J. destruct J as (I & X). rewrite (H r I) in X. discriminate. }
  destruct (role_eqb (user_role u) Owner) eqn:R; cbn [negb orb].
  2: { cbn [fst snd].
       split; [split; [discriminate | intros (O & _); rewrite O in R; discriminate] |].
       split; [intros O; rewrite O in R; discriminate |].
       repeat split; auto. discriminate. }
  assert (O : user_role u = Owner) by (destruct (user_role u); (reflexivity || discriminate)).
  destruct (Nat.ltb 0 (count_where open (outward_rows st))) eqn:N.
  { cbn [fst snd].
    split; [split; [discriminate |] |].
    { intros (_ & H & _). apply CW in H. congruence. }
    split; [reflexivity |]. repeat split; auto. discriminate. }
  pose proof (proj1 CW eq_refl) as NO.
  cbv zeta.
  set (w := fun c => Nat.eqb (c_id c) id).
  assert (EQ : forall (a b : reply) (c : bool) (s : outward_db),
             snd (if c then (a, s) else (b, s)) = s) by (intros a b [] s; reflexivity).
  rewrite EQ. cbn [outward_rows customers with_customers].
  split; [| split; [| split; [| split; [| split]]]].
  - destruct (Nat.eqb (List.length (select_where w (customers st))) 0) eqn:L;
      cbn [fst].
    + split; [discriminate |]. intros (_ & _ & c & I & E).
      pose proof (select_where_empty w _ L c I) as X.
      unfold w in X. rewrite E, Nat.eqb_refl in X. discriminate.
    + split; [intros _ | reflexivity].
      apply select_where_nonempty in L. destruct L as (c & I & X).
      split; [exact O | split; [exact NO |]].
      exists c. split; [exact I | apply Nat.eqb_eq; exact X].
  - intros _ (r & I & X). rewrite (NO r I) in X. discriminate.
  - reflexivity.
  - unfold update_where. rewrite map_map. apply map_ext. intros c.
    destruct (w c); reflexivity.
  - intros c I E. apply update_where_in in I.
    destruct I as [(I & _) | (c0 & _ & X & Ec)]; [exact I |].
    subst c. cbn [c_id] in E. unfold w in X. apply Nat.eqb_eq in X. contradiction.
  - intros _ c I E. apply update_where_in in I.
    destruct I as [(_ & X) | (c0 & _ & _ & Ec)].
    + unfold w in X. rewrite E, Nat.eqb_refl in X. discriminate.
    + subst c. reflexivity.
Qed.

(** ** Payables ageing *)

Lemma cancelled_not_payable (w : inward_bill -> bool) (by_user : uuid) (r : string)
    (bills : list inward_bill) :
  select_where payable (update_where w (cancel_ib by_user r) bills)
  = select_where payable (delete_where w bills).
Proof.
  unfold select_where, update_where, delete_where.
  induction bills as [| ib l IH]; [reflexivity |].
  simpl. destruct (w ib); simpl.
  - exact IH.
  - destruct (payable ib); rewrite IH; reflexivity.
Qed.

(** X24. The summary of the payables ageing report: the five totals add up to
    the grand total, whatever the due dates; the grand total is taken over
    the bills that are active and not fully paid, each with amount minus
    paid amount; and once the owner has cancelled a bill, the summary is
    the one of the bills without it. *)
Theorem payables_summary_adds_up (today : Z) (bills : list inward_bill) :
  let s := payables_ageing_summary today bills in
  current_total s + days_1_30_total s + days_31_60_total s + days_61_90_total s
  + days_90_plus_total s = grand_total s
  /\ grand_total s
     = sum_of (fun ib => ib_amount ib - ib_paid_amount ib)
         (select_where (fun ib => is_active (ib_status ib)
                                  && negb (is_bill_paid (ib_payment_status ib))) bills)
  /\ (forall u id reason st,
        fst (cancel_inward_bill u id reason st) = Json 200 "Bill cancelled successfully" ->
        payables_ageing_summary today (inward_bills (snd (cancel_inward_bill u id reason st)))
        = payables_ageing_summary today
            (delete_where (fun b => Nat.eqb (ib_id b) id) (inward_bills st))).
Proof.
  intros s. subst s. split; [| split].
  - unfold payables_ageing_summary. cbn [current_total days_1_30_total
      days_31_60_total days_61_90_total days_90_plus_total grand_total].
    unfold sum_payable.
    induction (select_where payable bills) as [| ib rows IH]; [reflexivity |].
    unfold sum_of in *. cbn [fold_right].
    destruct (today <=? ib_due_date ib) eqn:A;
      destruct (ib_due_date ib <? today) eqn:B;
      destruct (today - 30 <=? ib_due_date ib) eqn:C;
      destruct (ib_due_date ib <? today - 30) eqn:D;
      destruct (today - 60 <=? ib_due_date ib) eqn:E;
      destruct (ib_due_date ib <? today - 60) eqn:F;
      destruct (today - 90 <=? ib_due_date ib) eqn:G;
      destruct (ib_due_date ib <? today - 90) eqn:H;
      cbn [andb]; try lia;
      rewrite ?Z.leb_le, ?Z.leb_gt, ?Z.ltb_lt, ?Z.ltb_ge in *; lia.
  - reflexivity.
  - intros u id reason st. unfold cancel_inward_bill, authorize.
    destruct (existsb (role_eqb (user_role u)) [Owner]); [| discriminate].
    destruct reason as [r |]; [| discriminate].
    destruct (String.eqb r ""); [discriminate |].
    destruct (select_where (fun b => Nat.eqb (ib_id b) id) (inward_bills st))
      as [| existing others]; [discriminate |].
    destruct (0 <? ib_paid_amount existing); [discriminate |].
    intros _. cbn [snd inward_bills with_inward_bills].
    unfold payables_ageing_summary. rewrite cancelled_not_payable. reflexivity.
Qed.

(** ** The further properties on the worked ledger *)

(** The godown submitting proposal 4 is refused and writes nothing. *)
Lemma refused_requests_write_nothing_witness :
  (forall id, SubmitProposal 4 <> DeleteProposal id)
  /\ reply_code (fst (handle godown_user (SubmitProposal 4) ledger_draft)) <> 200%nat
  /\ reply_code (fst (handle godown_user (SubmitProposal 4) ledger_draft)) <> 201%nat
  /\ snd (handle godown_user (SubmitProposal 4) ledger_draft) = ledger_draft.
Proof.
  assert (H1 : forall id, SubmitProposal 4 <> DeleteProposal id)
    by (intros id; discriminate).
  assert (H2 : reply_code (fst (handle godown_user (SubmitProposal 4) ledger_draft))
               <> 200%nat) by (vm_compute; discriminate).
  assert (H3 : reply_code (fst (handle godown_user (SubmitProposal 4) ledger_draft))
               <> 201%nat) by (vm_compute; discriminate).
  split; [exact H1 | split; [exact H2 | split; [exact H3 |]]].
  exact (refused_requests_write_nothing godown_user (SubmitProposal 4) ledger_draft
           H1 H2 H3).
Defined.

(** The proposal of the worked ledger is created with the total 14000. *)
Lemma create_proposal_effect_witness :
  (user_role purchase_user = Purchase \/ user_role purchase_user = Owner)
  /\ valid_createProposal 19760 None two_items = true
  /\ (forall n, In n two_items ->
        exists b, In b (inward_bills ledger_entered) /\ ib_id b = ni_bill_id n)
  /\ exists p,
       proposals (snd (create_proposal purchase_user 19760 None two_items
                         ledger_entered))
       = proposals ledger_entered ++ [p]
       /\ p_status p = Draft /\ p_total_amount p = 14000.
Proof.
  assert (H1 : user_role purchase_user = Purchase \/ user_role purchase_user = Owner)
    by (left; reflexivity).
  assert (H2 : valid_createProposal 19760 None two_items = true) by reflexivity.
  assert (H3 : forall n, In n two_items ->
                 exists b, In b (inward_bills ledger_entered) /\ ib_id b = ni_bill_id n).
  { intros n I. apply bill_exists_spec. revert n I. apply forallb_forall.
    vm_compute. reflexivity. }
  split; [exact H1 | split; [exact H2 | split; [exact H3 |]]].
  destruct (create_proposal_effect purchase_user 19760 None two_items ledger_entered
              H1 H2) as (K & _).
  destruct (K H3) as (p & rows & _ & A & S & _ & _ & _ & T & _).
  exists p. split; [exact A | split; [exact S |]].
  rewrite T. reflexivity.
Defined.

(** Deleting the draft of the worked ledger removes its items. *)
Lemma delete_proposal_effect_witness :
  (user_role purchase_user = Purchase \/ user_role purchase_user = Owner)
  /\ forall i, In i (proposal_items (snd (delete_proposal purchase_user 4 ledger_draft)))
               <-> In i (proposal_items ledger_draft) /\ pi_proposal_id i <> 4%nat.
Proof.
  assert (H1 : user_role purchase_user = Purchase \/ user_role purchase_user = Owner)
    by (left; reflexivity).
  split; [exact H1 |].
  destruct (delete_proposal_effect purchase_user 4 ledger_draft H1)
    as (_ & _ & _ & K & _).
  exact K.
Defined.

(** The review of the worked ledger by accounts. *)
Lemma accounts_action_effect_witness :
  (user_role accounts_user = Accounts \/ user_role accounts_user = Owner)
  /\ forallb accounts_valid [entry 5 "approve" 9500; entry 6 "approve" 4000] = true
  /\ fst (accounts_action accounts_user 4
            (Some [entry 5 "approve" 9500; entry 6 "approve" 4000]) ledger_draft)
     = Json 200 "Accounts validation updated"
  /\ inward_bills (snd (accounts_action accounts_user 4
                          (Some [entry 5 "approve" 9500; entry 6 "approve" 4000])
                          ledger_draft))
     = inward_bills ledger_draft.
Proof.
  assert (H1 : user_role accounts_user = Accounts \/ user_role accounts_user = Owner)
    by (left; reflexivity).
  assert (H2 : forallb accounts_valid [entry 5 "approve" 9500; entry 6 "approve" 4000]
               = true) by reflexivity.
  split; [exact H1 | split; [exact H2 |]].
  destruct (accounts_action_effect accounts_user 4
              [entry 5 "approve" 9500; entry 6 "approve" 4000] ledger_draft H1 H2)
    as (A & _ & _ & _ & _ & _ & B & _).
  split; [exact A | exact B].
Defined.

(** The decision of the owner on the worked ledger. *)
Lemma owner_action_items_witness :
  user_role owner_user = Owner
  /\ forallb owner_valid [entry 5 "approve" 9500; entry 6 "reject" 0] = true
  /\ proposal_items (snd (owner_action owner_user 4
                            (Some [entry 5 "approve" 9500; entry 6 "reject" 0])
                            ledger_reviewed))
     = map (written_by_last (owner_set owner_user)
              [entry 5 "approve" 9500; entry 6 "reject" 0])
         (proposal_items ledger_reviewed).
Proof.
  assert (H1 : user_role owner_user = Owner) by reflexivity.
  assert (H2 : forallb owner_valid [entry 5 "approve" 9500; entry 6 "reject" 0] = true)
    by reflexivity.
  split; [exact H1 | split; [exact H2 |]].
  destruct (owner_action_items owner_user 4 [entry 5 "approve" 9500; entry 6 "reject" 0]
              ledger_reviewed H1 H2) as (A & _).
  exact A.
Defined.

(** Item 5 of the worked ledger is paid by the UTR request. *)
Lemma paid_only_by_utr_update_witness :
  In item_5_paid (proposal_items (snd (handle accounts_user utr_request ledger_batched)))
  /\ pi_status item_5_paid = Paid
  /\ ~ In item_5_paid (proposal_items ledger_batched)
  /\ exists id entries, utr_request = UpdateUtr id (Some entries).
Proof.
  assert (H1 : In item_5_paid
                 (proposal_items (snd (handle accounts_user utr_request ledger_batched)))).
  { assert (X : proposal_items (snd (handle accounts_user utr_request ledger_batched))
                = item_5_paid :: tl (proposal_items ledger_batched))
      by (vm_compute; reflexivity).
    rewrite X. left. reflexivity. }
  assert (H2 : pi_status item_5_paid = Paid) by reflexivity.
  assert (H3 : ~ In item_5_paid (proposal_items ledger_batched)).
  { intros X.
    assert (Y : forallb (fun i => negb (match pi_status i with Paid => true | _ => false end))
                  (proposal_items ledger_batched) = true) by (vm_compute; reflexivity).
    pose proof (proj1 (forallb_forall _ _) Y item_5_paid X) as Z.
    discriminate. }
  split; [exact H1 | split; [exact H2 | split; [exact H3 |]]].
  destruct (paid_only_by_utr_update accounts_user utr_request ledger_batched item_5_paid
              H1 H2 H3) as (id & entries & _ & _ & E & _).
  exists id, entries. exact E.
Defined.

(** Entering bill B leaves the paid amount of bill A as it is. *)
Lemma paid_amounts_changed_only_by_utr_update_witness :
  (forall id d, CreateInwardBill bill_b <> UpdateUtr id d)
  /\ exists entered,
       map (fun b => (ib_id b, ib_paid_amount b))
         (inward_bills (snd (handle godown_user (CreateInwardBill bill_b) ledger_entered)))
       = map (fun b => (ib_id b, ib_paid_amount b))
           (inward_bills ledger_entered) ++ entered.
Proof.
  assert (H1 : forall id d, CreateInwardBill bill_b <> UpdateUtr id d)
    by (intros id d; discriminate).
  split; [exact H1 |].
  destruct (paid_amounts_changed_only_by_utr_update godown_user (CreateInwardBill bill_b)
              ledger_entered H1) as (entered & E & _).
  exists entered. exact E.
Defined.


(** Bill 1 given 45 credit days: version 2, the other columns kept. *)
Lemma update_inward_bill_effect_witness :
  user_role owner_user = Owner
  /\ select_where (fun b => Nat.eqb (ib_id b) 1) (inward_bills ledger_entered)
     = [bill_1]
  /\ fst (update_inward_bill owner_user 1 (only_credit_days 45) ledger_entered)
     = Json 200 "Bill updated successfully"
  /\ exists b',
       In b' (inward_bills (snd (update_inward_bill owner_user 1 (only_credit_days 45)
                                   ledger_entered)))
       /\ ib_id b' = 1%nat /\ ib_version b' = 2.
Proof.
  assert (H1 : user_role owner_user = Owner) by reflexivity.
  assert (H2 : select_where (fun b => Nat.eqb (ib_id b) 1) (inward_bills ledger_entered)
               = [bill_1]) by (vm_compute; reflexivity).
  split; [exact H1 | split; [exact H2 |]].
  destruct (update_inward_bill_effect owner_user 1 (only_credit_days 45) ledger_entered
              bill_1 [] H1 H2) as (_ & _ & _ & K).
  assert (A : ib_status bill_1 = Active) by reflexivity.
  assert (P : ib_payment_status bill_1 <> BillPaid) by discriminate.
  assert (N : no_set_clause (only_credit_days 45) = false) by reflexivity.
  destruct K as (R & _ & _ & (b' & I & Id & Ve) & _); try assumption;
    try (intros x X; discriminate X).
  - intros n X. inversion X. lia.
  - cbn. lia.
  - cbn. lia.
  - split; [exact R |]. exists b'. split; [exact I |]. split; [exact Id |].
    rewrite Ve. reflexivity.
Defined.

(** Bill 2 of the worked ledger, cancelled, can no longer be updated. *)
Lemma cancelled_bill_is_frozen_witness :
  fst (cancel_inward_bill owner_user 2 (Some "entered twice") ledger_entered)
  = Json 200 "Bill cancelled successfully"
  /\ user_role owner_user = Owner
  /\ fst (update_inward_bill owner_user 2 (only_credit_days 45)
            (snd (cancel_inward_bill owner_user 2 (Some "entered twice") ledger_entered)))
     = Json 400 "Cannot update cancelled bill".
Proof.
  assert (H1 : fst (cancel_inward_bill owner_user 2 (Some "entered twice") ledger_entered)
               = Json 200 "Bill cancelled successfully") by (vm_compute; reflexivity).
  assert (H2 : user_role owner_user = Owner) by reflexivity.
  split; [exact H1 | split; [exact H2 |]].
  destruct (cancelled_bill_is_frozen owner_user owner_user 2 (Some "entered twice")
              ledger_entered H1 H2) as (K & _).
  rewrite K. reflexivity.
Defined.

(** The bills of the worked ledger are offered by due date. *)
Lemma available_bills_rows_sorted_witness :
  available_bills ledger_entered 19750 None None
  = Done (available_rows (available_bills ledger_entered 19750 None None))
  /\ due_sorted (available_rows (available_bills ledger_entered 19750 None None)).
Proof.
  assert (H1 : available_bills ledger_entered 19750 None None
               = Done (available_rows (available_bills ledger_entered 19750 None None)))
    by (vm_compute; reflexivity).
  split; [exact H1 |].
  destruct (available_bills_rows_sorted ledger_entered 19750 None None _ H1) as (S & _).
  exact S.
Defined.

(** Bill 2, deferred by the owner, is in the carry-forward list. *)
Lemma available_bills_carry_forward_witness :
  (forall b, In b (inward_bills ledger_two_requests) ->
             In (ib_vendor_id b) (vendors ledger_two_requests))
  /\ exists rows,
       available_bills ledger_two_requests 19800 None (Some "carry_forward") = Done rows
       /\ exists r, In r rows /\ ar_id r = 2%nat.
Proof.
  assert (FK : forall b, In b (inward_bills ledger_two_requests) ->
                         In (ib_vendor_id b) (vendors ledger_two_requests)).
  { intros b I.
    assert (X : existsb (Nat.eqb (ib_vendor_id b)) (vendors ledger_two_requests) = true)
      by (revert b I; apply forallb_forall; vm_compute; reflexivity).
    apply existsb_exists in X. destruct X as (v & Iv & E).
    apply Nat.eqb_eq in E. rewrite E. exact Iv. }
  split; [exact FK |].
  destruct (available_bills_carry_forward ledger_two_requests 19800 2 FK)
    as (_ & rows & E & H).
  exists rows. split; [exact E |].
  apply H.
  assert (B : existsb (fun b => Nat.eqb (ib_id b) 2 && is_active (ib_status b)
                                && negb (is_bill_paid (ib_payment_status b)))
                (inward_bills ledger_two_requests) = true) by (vm_compute; reflexivity).
  assert (C : existsb (fun i => Nat.eqb (pi_bill_id i) 2
                                && match pi_status i with CarryForward => true
                                                     | _ => false end)
                (proposal_items ledger_two_requests) = true) by (vm_compute; reflexivity).
  apply existsb_exists in B. destruct B as (b & Ib & Pb).
  apply existsb_exists in C. destruct C as (item & Ii & Pi).
  apply andb_true_iff in Pb. destruct Pb as (Pb & Pp).
  apply andb_true_iff in Pb. destruct Pb as (Pid & Pa).
  apply andb_true_iff in Pi. destruct Pi as (Qid & Qs).
  exists b, item. apply Nat.eqb_eq in Pid. apply Nat.eqb_eq in Qid.
  split; [exact Ib | split; [exact Pid |]].
  split; [destruct (ib_status b); [reflexivity | discriminate] |].
  split; [destruct (ib_payment_status b); (discriminate || (intros _; discriminate)) |].
  split; [exact Ii | split; [exact Qid |]].
  destruct (pi_status item); (reflexivity || discriminate).
Defined.

(** The overdue bills of the worked ledger are among all the bills offered. *)
Lemma available_bills_narrowing_witness :
  Some "overdue" <> Some "carry_forward"
  /\ exists rows all_rows,
       available_bills ledger_entered 19750 None (Some "overdue") = Done rows
       /\ available_bills ledger_entered 19750 None None = Done all_rows
       /\ forall r, In r rows -> In r all_rows /\ ar_due_date r < 19750.
Proof.
  assert (H1 : Some "overdue" <> Some "carry_forward") by discriminate.
  split; [exact H1 |].
  destruct (available_bills_narrowing ledger_entered 19750 None (Some "overdue") H1)
    as (rows & all_rows & E & A & K & O & _).
  exists rows, all_rows. split; [exact E | split; [exact A |]].
  intros r I. apply K in I. destruct I as (I & _ & D).
  split; [exact I | apply O; exact D].
Defined.

(** The UTR of detail 9 entered under another payment. *)
Lemma utr_entry_for_foreign_detail_witness :
  truthy_string (ue_utr_number utr_entry_9) = true
  /\ select_first (fun d => Nat.eqb (pd_id d) (ue_detail_id utr_entry_9))
       (payment_details ledger_batched) = Some detail_9
  /\ (forall d', In d' (payment_details ledger_batched) ->
                 pd_id d' = ue_detail_id utr_entry_9 -> pd_payment_id d' <> 99%nat)
  /\ exists st',
       settle_detail 99 utr_entry_9 ledger_batched = Done (tt, st')
       /\ payment_details st' = payment_details ledger_batched
       /\ inward_bills st'
          = update_where (fun b => Nat.eqb (ib_id b) 1) (add_ib_paid 9500)
              (inward_bills ledger_batched).
Proof.
  assert (H1 : truthy_string (ue_utr_number utr_entry_9) = true) by reflexivity.
  assert (H2 : select_first (fun d => Nat.eqb (pd_id d) (ue_detail_id utr_entry_9))
                 (payment_details ledger_batched) = Some detail_9)
    by (vm_compute; reflexivity).
  assert (H3 : forall d', In d' (payment_details ledger_batched) ->
                          pd_id d' = ue_detail_id utr_entry_9 ->
                          pd_payment_id d' <> 99%nat).
  { intros d' I _.
    assert (Y : forallb (fun d => negb (Nat.eqb (pd_payment_id d) 99))
                  (payment_details ledger_batched) = true) by (vm_compute; reflexivity).
    pose proof (proj1 (forallb_forall _ _) Y d' I) as Z.
    cbv beta in Z. intros E. rewrite E, Nat.eqb_refl in Z. discriminate. }
  split; [exact H1 | split; [exact H2 | split; [exact H3 |]]].
  destruct (utr_entry_for_foreign_detail 99 utr_entry_9 ledger_batched detail_9 H1 H2 H3)
    as (st' & E & D & B & _).
  exists st'. split; [exact E | split; [exact D | exact B]].
Defined.

(** The UTR of detail 9 of payment 8, entered in one request. *)
Lemma utr_update_effect_witness :
  (user_role accounts_user = Accounts \/ user_role accounts_user = Owner)
  /\ NoDup (map pd_id (payment_details ledger_batched))
  /\ NoDup (map ue_detail_id [utr_entry_9])
  /\ exists st',
       update_utr accounts_user 8 (Some [utr_entry_9]) ledger_batched
       = (Json 200 "UTR numbers updated", st')
       /\ map (fun d => (pd_id d, pd_utr_number d, pd_status d)) (payment_details st')
          = [(9%nat, Some "UTR0001", DetConfirmed)]
       /\ map (fun b => (ib_id b, ib_paid_amount b)) (inward_bills st')
          = [(1%nat, 9500); (2%nat, 0)]
       /\ map (fun i => (pi_id i, pi_status i)) (proposal_items st')
          = [(5%nat, Paid); (6%nat, OwnerRejected)]
       /\ map (fun p => (pay_id p, pay_status p)) (payments st') = [(8%nat, Confirmed)].
Proof.
  assert (R : user_role accounts_user = Accounts \/ user_role accounts_user = Owner)
    by (left; reflexivity).
  assert (Nd : NoDup (map pd_id (payment_details ledger_batched))).
  { vm_compute. constructor; [intros [] | constructor]. }
  assert (Ne : NoDup (map ue_detail_id [utr_entry_9])).
  { vm_compute. constructor; [intros [] | constructor]. }
  assert (H : forall e, In e [utr_entry_9] ->
            (exists s, ue_utr_number e = Some s /\ s <> "")
            /\ exists d, In d (payment_details ledger_batched)
                         /\ pd_id d = ue_detail_id e /\ pd_payment_id d = 8%nat).
  { intros e [E | []]. subst e. split.
    - exists "UTR0001". split; [reflexivity | discriminate].
    - exists detail_9. split; [vm_compute; auto | split; reflexivity]. }
  split; [exact R | split; [exact Nd | split; [exact Ne |]]].
  destruct (utr_update_effect accounts_user 8 [utr_entry_9] ledger_batched R Nd Ne H)
    as (st' & s & E & _).
  exists st'. split; [exact E |].
  assert (S : st' = snd (update_utr accounts_user 8 (Some [utr_entry_9]) ledger_batched))
    by (rewrite E; reflexivity).
  rewrite S. by_evaluation.
Defined.

(** ** The further properties on the three dispatches *)

(** On day 19800 the dispatches 41 and 42 are overdue by 10 and 30 days. *)
Lemma overdue_list_matches_ageing_witness :
  (forall r, In r (outward_rows dispatches) ->
     List.length (select_where (fun c => Nat.eqb (ob_customer_id (or_bill r)) (c_id c))
                    (customers dispatches)) = 1%nat)
  /\ List.length (overdue dispatches 19800 30)
     = ag_days_30_count (receivables_ageing 19800 (map or_bill (outward_rows dispatches)))
  /\ sorted_by (fun o => ob_due_date (or_bill (ov_row o))) (overdue dispatches 19800 30).
Proof.
  assert (H1 : forall r, In r (outward_rows dispatches) ->
     List.length (select_where (fun c => Nat.eqb (ob_customer_id (or_bill r)) (c_id c))
                    (customers dispatches)) = 1%nat).
  { intros r I. apply Nat.eqb_eq. revert r I. apply forallb_forall.
    vm_compute. reflexivity. }
  split; [exact H1 |].
  destruct (overdue_list_matches_ageing dispatches 19800 30 H1)
    as (_ & _ & K & _ & _ & S & _).
  split; [apply K; reflexivity | exact S].
Defined.

(** Dispatch 41 given 45 credit days keeps its due date. *)
Lemma update_outward_bill_effect_witness :
  user_role owner_user = Owner
  /\ no_outward_set_clause (only_outward_credit_days 45) = false
  /\ fst (update_outward_bill owner_user 41 (only_outward_credit_days 45) dispatches)
     = Json 200 "Bill updated"
  /\ or_credit_days (set_or_fields (only_outward_credit_days 45)
                       (dispatch 41 6000 1000 19790 "pending")) = 45
  /\ ob_due_date (or_bill (set_or_fields (only_outward_credit_days 45)
                             (dispatch 41 6000 1000 19790 "pending"))) = 19790.
Proof.
  assert (H1 : user_role owner_user = Owner) by reflexivity.
  assert (H2 : no_outward_set_clause (only_outward_credit_days 45) = false)
    by reflexivity.
  split; [exact H1 | split; [exact H2 |]].
  destruct (update_outward_bill_effect owner_user 41 (only_outward_credit_days 45)
              dispatches H1 H2) as (R & _ & _ & K & _).
  assert (I : In (dispatch 41 6000 1000 19790 "pending") (outward_rows dispatches))
    by (left; reflexivity).
  assert (N : ob_status (or_bill (dispatch 41 6000 1000 19790 "pending")) <> "cancelled")
    by discriminate.
  destruct (K _ I eq_refl N) as (_ & C & _ & D).
  split; [| split; [rewrite C; reflexivity | rewrite D; reflexivity]].
  apply R. exists (dispatch 41 6000 1000 19790 "pending"). auto.
Defined.

(** The cancelled dispatch 43 marked delivered by the godown. *)
Lemma update_delivery_status_effect_witness :
  (user_role godown_user = Godown \/ user_role godown_user = Owner)
  /\ fst (update_delivery_status godown_user 19800 43 delivered_now dispatches)
     = Json 200 "Delivery status updated"
  /\ receivables_ageing 19800
       (map or_bill (outward_rows
                       (snd (update_delivery_status godown_user 19800 43 delivered_now
                               dispatches))))
     = receivables_ageing 19800 (map or_bill (outward_rows dispatches)).
Proof.
  assert (H1 : user_role godown_user = Godown \/ user_role godown_user = Owner)
    by (left; reflexivity).
  split; [exact H1 |].
  destruct (update_delivery_status_effect godown_user 19800 19800 43 delivered_now
              dispatches H1) as (_ & K).
  destruct (K eq_refl) as (R & _ & _ & _ & A & _).
  split; [| exact A].
  apply R. exists (dispatch 43 900 0 19760 "cancelled").
  split; [right; right; left; reflexivity | reflexivity].
Defined.
